(** * ethdo: deposit-data input stage and account resolution

    A shallow embedding of
      - [cmd/validator/depositdata/input.go]  (function [input]), and
      - [cmd/root.go]  (functions [walletAndAccountFromPath],
        [walletAndAccountsFromPath], [bestPublicKey], and further on
        [walletFromPath], [walletFromInput], [walletAndAccountFromInput],
        [remotesToEndpoints], [connect]),
    together with the properties the specification states about them, and
    further properties of the code.

    Go values are modelled as follows.
      - [string]  is a Rocq [string] (a sequence of 8-bit characters),
        [[]byte] is a [list byte];
      - a Go function returning [(T, error)] returns an [outcome T]; a panic
        or a call of [os.Exit] (through [assert], [die], [errCheck]) is the
        outcome [Abort];
      - an optional capability tested with a type assertion
        ([x.(SomeInterface)]) is an [option] field of the record of [x];
      - the global [viper] configuration is passed explicitly;
      - calls that leave the process (wallet store, beacon node) are recorded
        in a log, so that "this collaborator was not contacted" is a
        statement about the log.
    Third-party libraries (BLS keys, hashing, the wallet store, the beacon
    node, regular expressions, sorting) are interfaces ([Class]es); the
    theorems hold for every implementation, unless they name one.  The
    modules [GoRegexp], [Sha256], [Fixtures] and [Examples] implement them,
    to run the functions on concrete inputs. *)

From Stdlib Require Import List String Ascii NArith Bool Arith Lia.
From Stdlib.Strings Require Import Byte.
From Stdlib Require Import Permutation Sorted.
Import ListNotations.
Local Open Scope string_scope.
Local Open Scope list_scope.

Set Implicit Arguments.

(** ** Errors and outcomes *)

Definition bytes := list byte.

(** Go [error] values: [errors.New], [errors.Wrap] of github.com/pkg/errors,
    and the two errors of [encoding/hex]. *)
Inductive error : Type :=
| New (msg : string)
| Wrap (cause : error) (msg : string)
| InvalidByteError (c : ascii)
| ErrLength.

Inductive outcome (A : Type) : Type :=
| Ok (a : A)
| Err (e : error)
| Abort.

Arguments Ok {A} a.
Arguments Err {A} e.
Arguments Abort {A}.

(** ** The Go standard library functions used by the two files *)

(** [strings.HasPrefix(s, prefix)] and [strings.TrimPrefix(s, prefix)]. *)
Definition HasPrefix (s prefix : string) : bool := String.prefix prefix s.

Definition TrimPrefix (s prefix : string) : string :=
  if HasPrefix s prefix
  then substring (String.length prefix) (String.length s - String.length prefix) s
  else s.

(** [encoding/hex]: the value of a hexadecimal digit ([fromHexChar]). *)
Definition fromHexChar (c : ascii) : option N :=
  let n := N_of_ascii c in
  if (48 <=? n)%N && (n <=? 57)%N then Some (n - 48)%N
  else if (97 <=? n)%N && (n <=? 102)%N then Some (n - 97 + 10)%N
  else if (65 <=? n)%N && (n <=? 70)%N then Some (n - 65 + 10)%N
  else None.

Definition hexByte (a b : N) : byte := byte_of_ascii (ascii_of_N (16 * a + b)).

(** [hex.DecodeString]: two digits per byte; an invalid digit is reported
    before an odd length.  (Go also returns the bytes decoded before the
    error; both callers drop them.) *)
Fixpoint DecodeString (s : string) : outcome bytes :=
  match s with
  | EmptyString => Ok []
  | String p EmptyString =>
      match fromHexChar p with
      | None => Err (InvalidByteError p)
      | Some _ => Err ErrLength
      end
  | String p (String q rest) =>
      match fromHexChar p with
      | None => Err (InvalidByteError p)
      | Some a =>
          match fromHexChar q with
          | None => Err (InvalidByteError q)
          | Some b =>
              match DecodeString rest with
              | Ok bs => Ok (hexByte a b :: bs)
              | Err e => Err e
              | Abort => Abort
              end
          end
      end
  end.

(** [[]byte(s)]. *)
Definition bytesOfString (s : string) : bytes := list_byte_of_string s.

(** ** The [viper] configuration *)

Record Viper : Type := {
  GetString : string -> string;
  GetBool : string -> bool
}.

(** ** Sequencing

    [x <- m ;; k] is Go's [x, err := m; if err != nil { return nil, err }; k]. *)

Class Monad (M : Type -> Type) : Type := {
  ret : forall A : Type, A -> M A;
  bind : forall A B : Type, M A -> (A -> M B) -> M B;
  throw : forall A : Type, error -> M A;
  mapErr : forall A : Type, (error -> error) -> M A -> M A
}.

Arguments ret {M _ A} _.
Arguments bind {M _ A B} _ _.
Arguments throw {M _ A} _.
Arguments mapErr {M _ A} _ _.

Declare Scope go_scope.
Delimit Scope go_scope with go.
Notation "x <- m ;; k" := (bind m (fun x => k))
  (at level 100, m at next level, right associativity) : go_scope.
Notation "' p <- m ;; k" := (bind m (fun x => let p := x in k))
  (at level 100, p pattern, m at next level, right associativity) : go_scope.
Local Open Scope go_scope.

#[export] Instance outcome_Monad : Monad outcome := {
  ret := fun A a => Ok a;
  bind := fun A B m k =>
    match m with
    | Ok a => k a
    | Err e => Err e
    | Abort => Abort
    end;
  throw := fun A e => Err e;
  mapErr := fun A f m =>
    match m with
    | Err e => Err (f e)
    | other => other
    end
}.

(** [if err != nil { return nil, errors.Wrap(err, msg) }]. *)
Definition wrap {M : Type -> Type} {monad : Monad M} {A : Type}
    (msg : string) (m : M A) : M A :=
  mapErr (fun err => Wrap err msg) m.

(** [if err != nil { return nil, errors.New(msg) }]. *)
Definition replace {M : Type -> Type} {monad : Monad M} {A : Type}
    (msg : string) (m : M A) : M A :=
  mapErr (fun _ => New msg) m.

(** ** Third-party libraries *)

(** go-eth2-types ([e2types]), go-eth2-util ([util]), go-string2eth, over
    the type of the public keys ([e2types.PublicKey]).  [Domain] returns
    [None] when [e2types.Domain] panics, which it does on the error of
    [e2types.ComputeDomain] (a fork version that has not 4 bytes, a root
    that has not 32). *)
Class Crypto (PublicKey : Type) : Type := {
  Marshal : PublicKey -> bytes;
  BLSPublicKeyFromBytes : bytes -> outcome PublicKey;
  Domain : bytes -> bytes -> bytes -> option bytes;
  SHA256 : bytes -> bytes;
  StringToGWei : string -> outcome N
}.

(** [e2types.DomainDeposit] and [e2types.ZeroGenesisValidatorsRoot]. *)
Definition DomainDeposit : bytes := [x03; x00; x00; x00].
Definition ZeroGenesisValidatorsRoot : bytes := repeat x00 32.

(** [regexp]: [Compile] is [regexp.MustCompile] ([None] when it panics),
    [Match] is the method [Match] of a compiled expression. *)
Class RegexpLib : Type := {
  Regexp : Type;
  Compile : string -> option Regexp;
  Match : Regexp -> string -> bool
}.

(** [e2wallet.WalletAndAccountNames]: the wallet part and the account part
    of a path. *)
Class PathLib : Type := {
  WalletAndAccountNames : string -> outcome (string * string)
}.

(** [sort.Slice] on a slice, with the [less] function on elements. *)
Class SortLib : Type := {
  sortSlice : forall A : Type, (A -> A -> bool) -> list A -> list A
}.

(** The beacon node ([grpc.Connect], [grpc.FetchChainConfig]).  A chain
    configuration is a [map[string]interface{}]. *)
Inductive ConfigValue : Type :=
| VBytes (b : bytes)
| VOther (description : string).

Definition ChainConfig := list (string * ConfigValue).

Fixpoint lookup (config : ChainConfig) (key : string) : option ConfigValue :=
  match config with
  | [] => None
  | (k, x) :: rest => if k =? key then Some x else lookup rest key
  end.

Class BeaconNode : Type := {
  Conn : Type;
  Connect : Viper -> outcome Conn;
  FetchChainConfig : Conn -> outcome ChainConfig
}.

(** ** Accounts and wallets ([e2wtypes]) *)

Section Wallets.
Context (PublicKey : Type).

(** An account: its name, and the two optional public-key capabilities
    ([AccountCompositePublicKeyProvider], [AccountPublicKeyProvider]). *)
Record Account : Type := {
  Name : string;
  CompositePublicKey : option PublicKey;
  AccountPublicKey : option PublicKey
}.

(** [WalletLocker]: [Unlock(ctx, passphrase)] and [Lock(ctx)], each
    returning an error or nil. *)
Record WalletLocker : Type := {
  Unlock : bytes -> option error;
  Lock : option error
}.

(** A wallet: its type, the accounts in the order [Accounts(ctx)] sends
    them, and the optional capabilities [WalletAccountByNameProvider] (the
    boolean tells whether the wallet has been unlocked) and [WalletLocker]. *)
Record Wallet : Type := {
  WalletType : string;
  Accounts : list Account;
  AccountByName : option (bool -> string -> outcome Account);
  Locker : option WalletLocker
}.

(** The wallet store: [walletFromPath] (root.go:259, a sequence of calls to
    the store or to the remote signer, chosen by the configuration). *)
Class WalletStore : Type := {
  walletFromPath : Viper -> string -> outcome Wallet
}.

(** ** root.go *)

(** [bestPublicKey] (root.go:391-407). *)
Definition bestPublicKey (account : Account) : outcome PublicKey :=
  match CompositePublicKey account with
  | Some pubKey => Ok pubKey
  | None =>
      match AccountPublicKey account with
      | Some pubKey => Ok pubKey
      | None => Err (New "account does not provide a public key")
      end
  end.

Context {store : WalletStore} {paths : PathLib} {regexp : RegexpLib}
  {sorter : SortLib}.

(** [getWalletPassphrase] (package util: the value of "wallet-passphrase"). *)
Definition getWalletPassphrase (viper : Viper) : string :=
  GetString viper "wallet-passphrase".

(** [relockAccount] (root.go:426-429), run as a deferred call: when the lock
    fails [errCheck] ends the process, otherwise the result stands. *)
Definition relockAccount {A : Type} (locker : WalletLocker)
    (result : outcome A) : outcome A :=
  match Lock locker with
  | Some _ => Abort
  | None => result
  end.

(** [walletAndAccountFromPath], lines 321-329: the look-up by name. *)
Definition accountByName (wallet : Wallet) (unlocked : bool)
    (accountName : string) : outcome (Wallet * Account) :=
  match AccountByName wallet with
  | None => Err (New "wallet cannot obtain accounts by name")
  | Some provider =>
      account <- wrap "failed to obtain account" (provider unlocked accountName) ;;
      ret (wallet, account)
  end.

(** [walletAndAccountFromPath] (root.go:294-330). *)
Definition walletAndAccountFromPath (viper : Viper) (path : string)
    : outcome (Wallet * Account) :=
  wallet <- wrap "faild to open wallet for account" (walletFromPath viper path) ;;
  names <- wrap "failed to obtain accout name" (WalletAndAccountNames path) ;;
  let accountName := snd names in
  if accountName =? "" then Err (New "no account name")
  else if (WalletType wallet =? "hierarchical deterministic")
          && HasPrefix accountName "m/"
  then
    if getWalletPassphrase viper =? "" then Abort
    else
      match Locker wallet with
      | Some locker =>
          match Unlock locker (bytesOfString (GetString viper "wallet-passphrase")) with
          | Some _ => Err (New "failed to unlock wallet")
          | None => relockAccount locker (accountByName wallet true accountName)
          end
      | None => accountByName wallet false accountName
      end
  else accountByName wallet false accountName.

(** The pattern built at root.go:343-347. *)
Definition accountPattern (accountSpec : string) : string :=
  if accountSpec =? "" then "^.*$" else "^" ++ accountSpec ++ "$".

(** The comparison given to [sort.Slice] at root.go:358-360. *)
Definition lessByName (a b : Account) : bool := (Name a <? Name b)%string.

(** [walletAndAccountsFromPath] (root.go:332-363). *)
Definition walletAndAccountsFromPath (viper : Viper) (path : string)
    : outcome (Wallet * list Account) :=
  wallet <- wrap "faild to open wallet for account" (walletFromPath viper path) ;;
  names <- wrap "failed to obtain account specification" (WalletAndAccountNames path) ;;
  let accountSpec := accountPattern (snd names) in
  match Compile accountSpec with
  | None => Abort
  | Some re =>
      let accounts :=
        filter (fun account => Match re (Name account)) (Accounts wallet) in
      ret (wallet, sortSlice lessByName accounts)
  end.

End Wallets.

Arguments lessByName {PublicKey} a b.

(** ** Calls that leave the process *)

Inductive event : Type :=
| CallWalletAndAccountsFromPath (path : string)
| CallWalletAndAccountFromPath (path : string)
| CallConnect
| CallFetchChainConfig.

(** A computation with the log of the calls it made. *)
Definition logged (A : Type) : Type := (list event * outcome A)%type.

Definition logOf {A : Type} (m : logged A) : list event := fst m.
Definition resultOf {A : Type} (m : logged A) : outcome A := snd m.

#[export] Instance logged_Monad : Monad logged := {
  ret := fun A a => ([], Ok a);
  bind := fun A B m k =>
    match snd m with
    | Ok a => (fst m ++ fst (k a), snd (k a))
    | Err e => (fst m, Err e)
    | Abort => (fst m, Abort)
    end;
  throw := fun A e => ([], Err e);
  mapErr := fun A f m => (fst m, mapErr f (snd m))
}.

(** A call of a collaborator, and a computation inside the process. *)
Definition call {A : Type} (ev : event) (o : outcome A) : logged A := ([ev], o).
Definition pure {A : Type} (o : outcome A) : logged A := ([], o).

(** ** validator/depositdata/input.go *)

Section Input.
Context (PublicKey : Type) {crypto : Crypto PublicKey}.

(** Package [core], as [input] uses it: the exported counterparts of the
    functions of root.go. *)
Class Core : Type := {
  WalletAndAccountsFromPath : Viper -> string -> outcome (Wallet PublicKey * list (Account PublicKey));
  WalletAndAccountFromPath : Viper -> string -> outcome (Wallet PublicKey * Account PublicKey);
  BestPublicKey : Account PublicKey -> outcome PublicKey
}.

Context {core : Core} {beacon : BeaconNode}.

Record dataIn : Type := {
  format : string;
  withdrawalCredentials : bytes;
  amount : N;
  validatorAccounts : list (Account PublicKey);
  forkVersion : bytes;
  domain : bytes
}.

(** input.go:44-56. *)
Definition inputValidatorAccounts (viper : Viper) : logged (list (Account PublicKey)) :=
  if GetString viper "validatoraccount" =? ""
  then throw (New "validator account is required")
  else
    found <- replace "failed to obtain validator account"
               (call (CallWalletAndAccountsFromPath (GetString viper "validatoraccount"))
                  (WalletAndAccountsFromPath viper (GetString viper "validatoraccount"))) ;;
    if Nat.eqb (List.length (snd found)) 0
    then throw (New "unknown validator account")
    else ret (snd found).

(** input.go:58-65. *)
Definition inputFormat (viper : Viper) : string :=
  if GetBool viper "launchpad" then "launchpad"
  else if GetBool viper "raw" then "raw"
  else "json".

(** input.go:68-79, the case of a withdrawal account. *)
Definition fromWithdrawalAccount (viper : Viper) : logged bytes :=
  found <- wrap "failed to obtain withdrawal account"
             (call (CallWalletAndAccountFromPath (GetString viper "withdrawalaccount"))
                (WalletAndAccountFromPath viper (GetString viper "withdrawalaccount"))) ;;
  pubKey <- wrap "failed to obtain public key for withdrawal account"
              (pure (BestPublicKey (snd found))) ;;
  ret (SHA256 (Marshal pubKey)).

(** input.go:80-92, the case of a withdrawal public key. *)
Definition fromWithdrawalPubKey (viper : Viper) : logged bytes :=
  withdrawalPubKeyBytes <- wrap "failed to decode withdrawal public key"
      (pure (DecodeString (TrimPrefix (GetString viper "withdrawalpubkey") "0x"))) ;;
  if negb (Nat.eqb (List.length withdrawalPubKeyBytes) 48)
  then throw (New "withdrawal public key must be exactly 48 bytes in length")
  else
    withdrawalPubKey <- wrap "withdrawal public key is not valid"
        (pure (BLSPublicKeyFromBytes withdrawalPubKeyBytes)) ;;
    ret (SHA256 (Marshal withdrawalPubKey)).

(** input.go:97, [data.withdrawalCredentials[0] = byte(0)]: a panic on an
    empty slice. *)
Definition setPrefix (credentials : bytes) : logged bytes :=
  match credentials with
  | [] => pure Abort
  | _ :: rest => ret (x00 :: rest)
  end.

(** input.go:67-97. *)
Definition inputWithdrawalCredentials (viper : Viper) : logged bytes :=
  credentials <-
    (if negb (GetString viper "withdrawalaccount" =? "")
     then fromWithdrawalAccount viper
     else if negb (GetString viper "withdrawalpubkey" =? "")
     then fromWithdrawalPubKey viper
     else throw (New "withdrawalaccount or withdrawal public key is required")) ;;
  setPrefix credentials.

(** input.go:99-109. *)
Definition inputAmount (viper : Viper) : logged N :=
  if GetString viper "depositvalue" =? ""
  then throw (New "deposit value is required")
  else
    amount <- wrap "deposit value is invalid"
                (pure (StringToGWei (GetString viper "depositvalue"))) ;;
    if (amount <? 1000000000)%N
    then throw (New "deposit value must be at least 1 Ether")
    else ret amount.

(** input.go:111-133. *)
Definition inputForkVersion (viper : Viper) : logged bytes :=
  if negb (GetString viper "forkversion" =? "")
  then
    forkVersion <- wrap "failed to decode fork version"
        (pure (DecodeString (TrimPrefix (GetString viper "forkversion") "0x"))) ;;
    if negb (Nat.eqb (List.length forkVersion) 4)
    then throw (New "fork version must be exactly 4 bytes in length")
    else ret forkVersion
  else
    conn <- wrap "failed to connect to beacon node"
              (call CallConnect (Connect viper)) ;;
    config <- wrap "could not connect to beacon node; supply a connection with --connection or provide a fork version with --forkversion to generate deposit data"
                (call CallFetchChainConfig (FetchChainConfig conn)) ;;
    match lookup config "GenesisForkVersion" with
    | None => throw (New "failed to obtain genesis fork version")
    | Some (VBytes genesisForkVersion) => ret genesisForkVersion
    | Some (VOther _) => pure Abort
    end.

(** input.go:134: a panic of [e2types.Domain] ends [input]. *)
Definition inputDomain (forkVersion : bytes) : logged bytes :=
  match Domain DomainDeposit forkVersion ZeroGenesisValidatorsRoot with
  | Some domain => ret domain
  | None => pure Abort
  end.

(** [input] (input.go:40-137). *)
Definition input (viper : Viper) : logged dataIn :=
  validatorAccounts <- inputValidatorAccounts viper ;;
  withdrawalCredentials <- inputWithdrawalCredentials viper ;;
  amount <- inputAmount viper ;;
  forkVersion <- inputForkVersion viper ;;
  domain <- inputDomain forkVersion ;;
  ret {| format := inputFormat viper;
         withdrawalCredentials := withdrawalCredentials;
         amount := amount;
         validatorAccounts := validatorAccounts;
         forkVersion := forkVersion;
         domain := domain |}.

(** ** The errors and the inputs the specification names *)

Definition AmbiguousOrMissingWithdrawalSpec : error :=
  New "withdrawalaccount or withdrawal public key is required".
Definition AmountBelowMinimum : error :=
  New "deposit value must be at least 1 Ether".
Definition InvalidForkVersionLength : error :=
  New "fork version must be exactly 4 bytes in length".
Definition UnknownValidatorAccount : error :=
  New "unknown validator account".

(** The message that advises a connection or an explicit fork version. *)
Definition advice : string :=
  "could not connect to beacon node; supply a connection with --connection or provide a fork version with --forkversion to generate deposit data".

(** The public key with bytes [P] is what the withdrawal account resolves to. *)
Definition suppliedByAccount (viper : Viper) (P : bytes) : Prop :=
  GetString viper "withdrawalaccount" <> "" /\
  exists wallet account pubKey,
    WalletAndAccountFromPath viper (GetString viper "withdrawalaccount")
      = Ok (wallet, account) /\
    BestPublicKey account = Ok pubKey /\
    Marshal pubKey = P.

(** The withdrawal public key is given in hexadecimal (and no withdrawal
    account is given): it decodes to the 48 bytes [P], which the library
    accepts as a public key whose serialisation is [P]. *)
Definition suppliedAsHex (viper : Viper) (P : bytes) : Prop :=
  GetString viper "withdrawalaccount" = "" /\
  GetString viper "withdrawalpubkey" <> "" /\
  DecodeString (TrimPrefix (GetString viper "withdrawalpubkey") "0x") = Ok P /\
  List.length P = 48 /\
  exists pubKey, BLSPublicKeyFromBytes P = Ok pubKey /\ Marshal pubKey = P.

(** A call of the beacon node. *)
Definition beaconCall (ev : event) : Prop :=
  ev = CallConnect \/ ev = CallFetchChainConfig.

(** [F] is the fork version of the run: the one of the configuration,
    decoded, or, when the configuration has none, the genesis fork version
    that the beacon node gives. *)
Definition forkVersionGiven (viper : Viper) (F : bytes) : Prop :=
  (GetString viper "forkversion" <> "" /\
   DecodeString (TrimPrefix (GetString viper "forkversion") "0x") = Ok F)
  \/ (GetString viper "forkversion" = "" /\
      exists conn config,
        Connect viper = Ok conn /\
        FetchChainConfig conn = Ok config /\
        lookup config "GenesisForkVersion" = Some (VBytes F)).

End Input.

(** ** Package [core] as the functions of root.go *)

Definition rootCore {PublicKey : Type} {store : WalletStore PublicKey}
    {paths : PathLib} {regexp : RegexpLib} {sorter : SortLib}
    : Core PublicKey := {|
  WalletAndAccountsFromPath := fun viper path => walletAndAccountsFromPath viper path;
  WalletAndAccountFromPath := fun viper path => walletAndAccountFromPath viper path;
  BestPublicKey := fun account => bestPublicKey account
|}.

(** ** What [sort.Slice] promises

    [less] has to be a strict weak order; the result is then a rearrangement
    of the slice in which no element is less than an earlier one.  Nothing is
    promised about the order of elements that compare equal. *)

Definition strictWeakOrder {A : Type} (less : A -> A -> bool) : Prop :=
  (forall a, less a a = false) /\
  (forall a b c, less a b = true -> less b c = true -> less a c = true) /\
  (forall a b c, less a b = false -> less b c = false -> less a c = false).

Definition sortContract (sorter : SortLib) : Prop :=
  forall (A : Type) (less : A -> A -> bool) (l : list A),
    Permutation (sortSlice less l) l /\
    (strictWeakOrder less ->
     Sorted (fun a b => less b a = false) (sortSlice less l)).

(** Ascending order of account names (Go compares strings byte by byte). *)
Definition nameLe {PublicKey : Type} (a b : Account PublicKey) : Prop :=
  (Name a <=? Name b)%string = true.

(** ** A model of the regular expressions of Go, for running the functions

    The fragment: literal characters, [.], [^], [$], [|], [*] and groups.
    Go's defaults apply: [^] and [$] match at the beginning and the end of
    the text only, [.] matches every character but a line feed, and [Match]
    looks for a match anywhere in the text.  Matching is by derivatives.
    [compile] returns [None] on a syntax error, as well as on syntax outside
    the fragment. *)

Module GoRegexp.

Inductive re : Type :=
| Never
| Empty
| Char (c : ascii)
| AnyNotNL
| AnyChar
| BeginText
| EndText
| Cat (r s : re)
| Alt (r s : re)
| Star (r : re).

(** Does [r] match the empty string at a position that is ([atStart]) the
    beginning and ([atEnd]) the end of the text? *)
Fixpoint nullable (atStart atEnd : bool) (r : re) : bool :=
  match r with
  | Never | Char _ | AnyNotNL | AnyChar => false
  | Empty | Star _ => true
  | BeginText => atStart
  | EndText => atEnd
  | Cat r s => nullable atStart atEnd r && nullable atStart atEnd s
  | Alt r s => nullable atStart atEnd r || nullable atStart atEnd s
  end.

(** What is left of [r] after reading [c]. *)
Fixpoint deriv (atStart : bool) (c : ascii) (r : re) : re :=
  match r with
  | Never | Empty | BeginText | EndText => Never
  | Char a => if Ascii.eqb a c then Empty else Never
  | AnyNotNL => if Ascii.eqb c "010"%char then Never else Empty
  | AnyChar => Empty
  | Cat r s =>
      Alt (Cat (deriv atStart c r) s)
          (if nullable atStart false r then deriv atStart c s else Never)
  | Alt r s => Alt (deriv atStart c r) (deriv atStart c s)
  | Star r => Cat (deriv atStart c r) (Star r)
  end.

Fixpoint matchesFrom (atStart : bool) (r : re) (text : string) : bool :=
  match text with
  | EmptyString => nullable atStart true r
  | String c rest => matchesFrom false (deriv atStart c r) rest
  end.

(** A match of the whole text, and a match anywhere in it. *)
Definition matchesAll (r : re) (text : string) : bool := matchesFrom true r text.
Definition search (r : re) (text : string) : bool :=
  matchesAll (Cat (Star AnyChar) (Cat r (Star AnyChar))) text.

Definition special (c : ascii) : bool :=
  existsb (Ascii.eqb c) (list_ascii_of_string "\.+*?()|[]{}^$").

(** alternation > concatenation > repetition > atom *)
Fixpoint parseAlt (fuel : nat) (s : list ascii) : option (re * list ascii) :=
  match fuel with
  | O => None
  | S fuel =>
      match parseCat fuel s with
      | Some (r, "|"%char :: rest) =>
          match parseAlt fuel rest with
          | Some (r', rest') => Some (Alt r r', rest')
          | None => None
          end
      | other => other
      end
  end
with parseCat (fuel : nat) (s : list ascii) : option (re * list ascii) :=
  match fuel with
  | O => None
  | S fuel =>
      match s with
      | [] => Some (Empty, s)
      | "|"%char :: _ => Some (Empty, s)
      | ")"%char :: _ => Some (Empty, s)
      | _ =>
          match parseAtom fuel s with
          | Some (r, "*"%char :: rest) =>
              match parseCat fuel rest with
              | Some (r', rest') => Some (Cat (Star r) r', rest')
              | None => None
              end
          | Some (r, rest) =>
              match parseCat fuel rest with
              | Some (r', rest') => Some (Cat r r', rest')
              | None => None
              end
          | None => None
          end
      end
  end
with parseAtom (fuel : nat) (s : list ascii) : option (re * list ascii) :=
  match fuel with
  | O => None
  | S fuel =>
      match s with
      | [] => None
      | "("%char :: rest =>
          match parseAlt fuel rest with
          | Some (r, ")"%char :: rest') => Some (r, rest')
          | _ => None
          end
      | "."%char :: rest => Some (AnyNotNL, rest)
      | "^"%char :: rest => Some (BeginText, rest)
      | "$"%char :: rest => Some (EndText, rest)
      | c :: rest => if special c then None else Some (Char c, rest)
      end
  end.

Definition compile (pattern : string) : option re :=
  match parseAlt (3 * String.length pattern + 3) (list_ascii_of_string pattern) with
  | Some (r, []) => Some r
  | _ => None
  end.

Definition lib : RegexpLib := {|
  Regexp := re;
  Compile := compile;
  Match := search
|}.

End GoRegexp.

(** ** SHA-256 (FIPS 180-4) on 32-bit words held in [N], for running the
    functions *)

Module Sha256.
Local Open Scope N_scope.

Definition add32 (x y : N) : N := (x + y) mod 0x100000000.
Definition rotr (n x : N) : N :=
  N.lor (N.shiftr x n) (N.land (N.shiftl x (32 - n)) 0xffffffff).
Definition ch (x y z : N) : N :=
  N.lxor (N.land x y) (N.land (N.lxor x 0xffffffff) z).
Definition maj (x y z : N) : N :=
  N.lxor (N.lxor (N.land x y) (N.land x z)) (N.land y z).
Definition bigSigma0 (x : N) : N :=
  N.lxor (N.lxor (rotr 2 x) (rotr 13 x)) (rotr 22 x).
Definition bigSigma1 (x : N) : N :=
  N.lxor (N.lxor (rotr 6 x) (rotr 11 x)) (rotr 25 x).
Definition smallSigma0 (x : N) : N :=
  N.lxor (N.lxor (rotr 7 x) (rotr 18 x)) (N.shiftr x 3).
Definition smallSigma1 (x : N) : N :=
  N.lxor (N.lxor (rotr 17 x) (rotr 19 x)) (N.shiftr x 10).

(** The first 64 primes. *)
Definition isPrime (n : N) : bool :=
  forallb (fun d => negb (n mod N.of_nat d =? 0)) (seq 2 (N.to_nat n - 2)).

Definition primes : list N := filter isPrime (map N.of_nat (seq 2 310)).

(** The integer cube root, one bit after the other. *)
Definition cubeRoot (x : N) : N :=
  fold_left
    (fun r bit => let c := r + 2 ^ N.of_nat bit in
                  if c * c * c <=? x then c else r)
    (rev (seq 0 36)) 0.

(** The round constants are the first 32 bits of the fractional parts of
    the cube roots of the primes, the initial state those of the square
    roots of the first eight. *)
Definition roundConstants : list N :=
  map (fun p => cubeRoot (p * 2 ^ 96) mod 2 ^ 32) primes.

Definition initialState : list N :=
  map (fun p => N.sqrt (p * 2 ^ 64) mod 2 ^ 32) (firstn 8 primes).

(** Big-endian words. *)
Fixpoint wordOfBytes (acc : N) (bs : list N) : N :=
  match bs with
  | [] => acc
  | b :: rest => wordOfBytes (acc * 256 + b) rest
  end.

Fixpoint bytesOfWord (count : nat) (w : N) : list N :=
  match count with
  | O => []
  | S k => bytesOfWord k (w / 256) ++ [w mod 256]
  end.

Fixpoint words (count : nat) (bs : list N) : list N :=
  match count with
  | O => []
  | S k => wordOfBytes 0 (firstn 4 bs) :: words k (skipn 4 bs)
  end.

(** The message, the byte 0x80, zeros up to 56 modulo 64, the bit length. *)
Definition pad (message : list N) : list N :=
  let len := N.of_nat (List.length message) in
  let zeros := N.to_nat ((119 - len mod 64) mod 64) in
  message ++ [0x80] ++ repeat 0 zeros ++ bytesOfWord 8 (8 * len).

(** The message schedule, most recent word first. *)
Fixpoint extend (count : nat) (recent : list N) : list N :=
  match count with
  | O => recent
  | S k =>
      let w := add32 (add32 (smallSigma1 (nth 1 recent 0)) (nth 6 recent 0))
                     (add32 (smallSigma0 (nth 14 recent 0)) (nth 15 recent 0)) in
      extend k (w :: recent)
  end.

Definition schedule (block : list N) : list N :=
  rev (extend 48 (rev (words 16 block))).

Definition round (state : list N) (kw : N * N) : list N :=
  match state with
  | [a; b; c; d; e; f; g; h] =>
      let t1 := add32 (add32 (add32 h (bigSigma1 e)) (add32 (ch e f g) (fst kw)))
                      (snd kw) in
      let t2 := add32 (bigSigma0 a) (maj a b c) in
      [add32 t1 t2; a; b; c; add32 d t1; e; f; g]
  | _ => state
  end.

Definition compress (state block : list N) : list N :=
  map (fun p => add32 (fst p) (snd p))
      (combine state
         (fold_left round (combine roundConstants (schedule block)) state)).

Fixpoint blocks (count : nat) (state bs : list N) : list N :=
  match count with
  | O => state
  | S k => blocks k (compress state (firstn 64 bs)) (skipn 64 bs)
  end.

Definition digest (message : bytes) : bytes :=
  let padded := pad (map Byte.to_N message) in
  let state := blocks (List.length padded / 64) initialState padded in
  map (fun n => byte_of_ascii (ascii_of_N n)) (flat_map (bytesOfWord 4) state).

End Sha256.

(** ** Collaborators for running the functions *)

Module Fixtures.

(** Keys are their 48 bytes; [Domain], for a fork version of 4 bytes and a
    root of 32, is the domain type followed by the first 28 bytes of the
    hash of the fork version, padded to 32 bytes, and the root, and it
    panics otherwise; amounts are written [<digits> Ether] or
    [<digits> GWei]. *)
Fixpoint decimal (acc : N) (s : string) : option (N * string) :=
  match s with
  | EmptyString => Some (acc, s)
  | String c rest =>
      let n := N_of_ascii c in
      if (48 <=? n)%N && (n <=? 57)%N then decimal (10 * acc + (n - 48))%N rest
      else Some (acc, s)
  end.

Definition stringToGWei (s : string) : outcome N :=
  match s with
  | EmptyString => Err (New "failed to parse empty value")
  | String c _ =>
      if (48 <=? N_of_ascii c)%N && (N_of_ascii c <=? 57)%N then
        match decimal 0 s with
        | Some (n, unit) =>
            let gwei := if unit =? " Ether" then Some (n * 1000000000)%N
                        else if unit =? " GWei" then Some n
                        else None in
            match gwei with
            | Some g => if (g <? 2 ^ 64)%N then Ok g else Err (New "value too large")
            | None => Err (New "unknown unit")
            end
        | None => Err (New "invalid value")
        end
      else Err (New "invalid value")
  end.

Definition domainOf (domainType forkVersion root : bytes) : bytes :=
  firstn 4 domainType
  ++ firstn 28 (Sha256.digest (forkVersion ++ repeat x00 (32 - List.length forkVersion) ++ root)).

Definition crypto : Crypto bytes := {|
  Marshal := fun key => key;
  BLSPublicKeyFromBytes := fun b =>
    if Nat.eqb (List.length b) 48 then Ok b else Err (New "invalid public key");
  Domain := fun domainType forkVersion root =>
    if Nat.eqb (List.length forkVersion) 4 && Nat.eqb (List.length root) 32
    then Some (domainOf domainType forkVersion root)
    else None;
  SHA256 := Sha256.digest;
  StringToGWei := stringToGWei
|}.

(** Insertion sort for [sort.Slice]. *)
Fixpoint insert {A : Type} (less : A -> A -> bool) (x : A) (l : list A) : list A :=
  match l with
  | [] => [x]
  | y :: rest => if less x y then x :: l else y :: insert less x rest
  end.

Fixpoint insertionSort {A : Type} (less : A -> A -> bool) (l : list A) : list A :=
  match l with
  | [] => []
  | x :: rest => insert less x (insertionSort less rest)
  end.

Definition sorter : SortLib := {| sortSlice := @insertionSort |}.

(** [wallet/account] paths. *)
Definition walletAndAccountNames (path : string) : outcome (string * string) :=
  if path =? "" then Err (New "invalid account format")
  else
    match index 0 "/" path with
    | None => Ok (path, "")
    | Some O => Err (New "invalid account format")
    | Some i =>
        Ok (substring 0 i path,
            substring (i + 1) (String.length path - (i + 1)) path)
    end.

Definition key (b : byte) : bytes := repeat b 48.

Definition account (name : string) (composite plain : option bytes)
    : Account bytes :=
  @Build_Account bytes name composite plain.

Definition findAccount (accounts : list (Account bytes))
    (unlocked : bool) (name : string) : outcome (Account bytes) :=
  match find (fun a => Name a =? name) accounts with
  | Some a => Ok a
  | None => Err (New "account not found")
  end.

Definition wallet (accounts : list (Account bytes))
    : Wallet bytes :=
  @Build_Wallet bytes "non-deterministic" accounts
    (Some (findAccount accounts)) None.

(** A store with the given wallets. *)
Definition storeOf (wallets : list (string * Wallet bytes))
    : WalletStore bytes := {|
  walletFromPath := fun _ path =>
    names <- walletAndAccountNames path ;;
    match find (fun w => fst w =? fst names) wallets with
    | Some w => Ok (snd w)
    | None => Err (New "wallet not found")
    end
|}.

Definition paths : PathLib := {| WalletAndAccountNames := walletAndAccountNames |}.

Definition validators : list (Account bytes) :=
  [account "B" None (Some (key x0b)); account "A" None (Some (key x0a))].

Definition batch : list (Account bytes) :=
  [account "validator2" None (Some (key x02));
   account "validator10" None (Some (key x10));
   account "old-validator2" None (Some (key x22));
   account "validator1" None (Some (key x01));
   account "validator3" None (Some (key x03))].

(** A name of two lines. *)
Definition twoLines : string := String "a" (String "010" "b").

Definition store : WalletStore bytes :=
  storeOf [("Validators", wallet validators);
           ("Withdrawal", wallet [account "Primary" (Some (key xc0)) (Some (key xc1));
                                  account "Plain" None (Some (key xc2));
                                  account "Keyless" None None]);
           ("Batch", wallet batch);
           ("Odd", wallet [account twoLines None (Some (key x0d));
                           account "plain" None (Some (key x0e))])].

Definition core : Core bytes :=
  rootCore (store := store) (paths := paths) (regexp := GoRegexp.lib)
    (sorter := sorter).

(** A beacon node that answers, one that cannot be reached, and one that is
    reached and does not answer. *)
Definition beacon : BeaconNode := {|
  Conn := unit;
  Connect := fun _ => Ok tt;
  FetchChainConfig := fun _ => Ok [("GenesisForkVersion", VBytes [x00; x00; x00; x00])]
|}.

Definition noConnection : BeaconNode := {|
  Conn := unit;
  Connect := fun _ => Err (New "no connection");
  FetchChainConfig := fun _ => Ok [("GenesisForkVersion", VBytes [x00; x00; x00; x00])]
|}.

Definition noAnswer : BeaconNode := {|
  Conn := unit;
  Connect := fun _ => Ok tt;
  FetchChainConfig := fun _ => Err (New "context deadline exceeded")
|}.

(** A configuration from its string values and the flags that are set. *)
Definition viperOf (strings : list (string * string)) (flags : list string) : Viper := {|
  GetString := fun k =>
    match find (fun kv => fst kv =? k) strings with
    | Some kv => snd kv
    | None => ""
    end;
  GetBool := fun k => existsb (String.eqb k) flags
|}.

Definition run (beacon : BeaconNode) (viper : Viper) : logged (dataIn bytes) :=
  input (crypto := crypto) (core := core) (beacon := beacon) viper.

(** Configurations of [ethdo validator depositdata]. *)
Definition configure (validatoraccount withdrawalaccount withdrawalpubkey
    depositvalue forkversion : string) : Viper :=
  viperOf [("validatoraccount", validatoraccount);
           ("withdrawalaccount", withdrawalaccount);
           ("withdrawalpubkey", withdrawalpubkey);
           ("depositvalue", depositvalue);
           ("forkversion", forkversion)] [].

Definition hexKey : string :=
  "0x"
  ++ "c0c0c0c0c0c0c0c0c0c0c0c0c0c0c0c0c0c0c0c0c0c0c0c0"
  ++ "c0c0c0c0c0c0c0c0c0c0c0c0c0c0c0c0c0c0c0c0c0c0c0c0".

Definition byAccount : Viper :=
  configure "Validators/.*" "Withdrawal/Primary" "" "32 Ether" "0x00000000".
Definition byKey : Viper :=
  configure "Validators/.*" "" hexKey "1000000000 GWei" "00000000".
Definition both : Viper :=
  configure "Validators/.*" "Withdrawal/Plain" hexKey "32 Ether" "0x00000000".
Definition neither : Viper :=
  configure "Validators/.*" "" "" "32 Ether" "0x00000000".
Definition tooLittle : Viper :=
  configure "Validators/.*" "Withdrawal/Primary" "" "999999999 GWei" "0x00000000".
Definition shortForkVersion : Viper :=
  configure "Validators/.*" "Withdrawal/Primary" "" "32 Ether" "0x000000".
Definition noForkVersion : Viper :=
  configure "Validators/.*" "Withdrawal/Primary" "" "32 Ether" "".
Definition noSuchValidator : Viper :=
  configure "Validators/C" "Withdrawal/Primary" "" "32 Ether" "0x00000000".

(** The result for the validators "A" and "B" and the fork version
    00000000. *)
Definition deposit (credentials : bytes) (gwei : N) : dataIn bytes :=
  {| format := "json";
     withdrawalCredentials := credentials;
     amount := gwei;
     validatorAccounts := rev validators;
     forkVersion := [x00; x00; x00; x00];
     domain := domainOf DomainDeposit [x00; x00; x00; x00]
                 ZeroGenesisValidatorsRoot |}.

(** The wallet "Validators" sending its accounts in the other order. *)
Definition storeReversed : WalletStore bytes :=
  storeOf [("Validators", wallet (rev validators))].

Definition accountsFromPath (store : WalletStore bytes) (path : string)
    : outcome (Wallet bytes * list (Account bytes)) :=
  walletAndAccountsFromPath (store := store) (paths := paths)
    (regexp := GoRegexp.lib) (sorter := sorter) (viperOf [] []) path.

End Fixtures.

(** * The rest of root.go *)

(** ** More of the Go standard library *)

(** [strings.Split(s, sep)] for a separator of one byte: the parts of [s]
    between the occurrences of [sep], one more than there are occurrences. *)
Fixpoint Split (s : string) (sep : ascii) : list string :=
  match s with
  | EmptyString => [""]
  | String c rest =>
      if Ascii.eqb c sep then "" :: Split rest sep
      else
        match Split rest sep with
        | part :: parts => String c part :: parts
        | [] => [String c ""]
        end
  end.

(** [strings.Contains(s, substr)]. *)
Fixpoint Contains (s substr : string) : bool :=
  HasPrefix s substr ||
  match s with
  | EmptyString => false
  | String _ rest => Contains rest substr
  end.

(** [strconv.Quote], which is what [%q] of [fmt] prints for a string. *)
Class FmtLib : Type := {
  Quote : string -> string
}.

(** [%#U] of [fmt] for a byte: [U+00XX], followed by the character between
    single quotes when [strconv.IsPrint] holds of it (the character is in
    UTF-8, two bytes from 128 on). *)
Definition upperHexDigit (n : N) : ascii :=
  if (n <? 10)%N then ascii_of_N (48 + n) else ascii_of_N (55 + n).

Definition IsPrint (c : ascii) : bool :=
  let r := N_of_ascii c in
  ((32 <=? r)%N && (r <=? 126)%N) || ((161 <=? r)%N && negb (r =? 173)%N).

Definition encodeRune (c : ascii) : string :=
  let r := N_of_ascii c in
  if (r <? 128)%N then String c ""
  else String (ascii_of_N (192 + r / 64)) (String (ascii_of_N (128 + r mod 64)) "").

Definition formatUnicode (c : ascii) : string :=
  let r := N_of_ascii c in
  "U+00" ++ String (upperHexDigit (r / 16)) (String (upperHexDigit (r mod 16)) "")
  ++ (if IsPrint c then " '" ++ encodeRune c ++ "'" else "").

(** The method [Error()] of an error: the message of [errors.New], the
    message, a colon and the text of the cause for [errors.Wrap], and the
    texts of the two errors of [encoding/hex]. *)
Fixpoint Error (err : error) : string :=
  match err with
  | New msg => msg
  | Wrap cause msg => msg ++ ": " ++ Error cause
  | InvalidByteError c => "encoding/hex: invalid byte: " ++ formatUnicode c
  | ErrLength => "encoding/hex: odd length hex string"
  end.

Section Strconv.
Context {fmt : FmtLib}.

(** The two errors of [strconv] ([*NumError] with [ErrSyntax], [ErrRange]),
    by their texts. *)
Definition syntaxError (fn str : string) : error :=
  New ("strconv." ++ fn ++ ": parsing " ++ Quote str ++ ": invalid syntax").

Definition rangeError (fn str : string) : error :=
  New ("strconv." ++ fn ++ ": parsing " ++ Quote str ++ ": value out of range").

(** The loop of [strconv.ParseUint] in base 10: [n] is the value of the
    digits read so far, [s0] the whole argument. *)
Fixpoint parseDigits (s0 : string) (maxVal n : N) (s : string) : outcome N :=
  match s with
  | EmptyString => Ok n
  | String c rest =>
      let d := N_of_ascii c in
      if (48 <=? d)%N && (d <=? 57)%N then
        let n1 := (10 * n + (d - 48))%N in
        if (maxVal <? n1)%N then Err (rangeError "ParseUint" s0)
        else parseDigits s0 maxVal n1 rest
      else Err (syntaxError "ParseUint" s0)
  end.

(** [strconv.ParseUint(s, 10, bitSize)], for a [bitSize] from 1 to 64. *)
Definition ParseUint (s : string) (bitSize : N) : outcome N :=
  if s =? "" then Err (syntaxError "ParseUint" s)
  else parseDigits s (2 ^ bitSize - 1)%N 0%N s.

(** ** Remote signers *)

(** [dirk.Endpoint], built by [dirk.NewEndpoint(host, port)]. *)
Record Endpoint : Type := NewEndpoint {
  host : string;
  port : N
}.

(** The conversion [uint32(port)] of an unsigned 64-bit integer. *)
Definition uint32 (n : N) : N := (n mod 2 ^ 32)%N.

(** [remotesToEndpoints] (root.go:409-424): the loop, with the endpoints
    gathered so far, and the function. *)
Fixpoint remotesToEndpointsFrom (endpoints : list Endpoint)
    (remotes : list string) : outcome (list Endpoint) :=
  match remotes with
  | [] => Ok endpoints
  | remote :: rest =>
      match Split remote ":" with
      | [part0; part1] =>
          port <- wrap ("invalid port in remote " ++ Quote remote)
                    (ParseUint part1 32) ;;
          remotesToEndpointsFrom (endpoints ++ [NewEndpoint part0 (uint32 port)]) rest
      | _ => Err (New ("invalid remote " ++ Quote remote))
      end
  end.

Definition remotesToEndpoints (remotes : list string) : outcome (list Endpoint) :=
  remotesToEndpointsFrom [] remotes.

End Strconv.

(** ** Opening a wallet *)

(** go-eth2-wallet-dirk ([dirk.ComposeCredentials], [dirk.OpenWallet]) and
    go-eth2-wallet ([e2wallet.OpenWallet], on the store of the process). *)
Class Backends (PublicKey : Type) : Type := {
  Credentials : Type;
  ComposeCredentials : string -> string -> string -> outcome Credentials;
  DirkOpenWallet : string -> Credentials -> list Endpoint -> outcome (Wallet PublicKey);
  OpenWallet : string -> outcome (Wallet PublicKey)
}.

(** Package [cmd]: the functions of root.go that open wallets. *)
Module Cmd.
Section Open.
Context (PublicKey : Type) {backends : Backends PublicKey} {paths : PathLib}
  {fmt : FmtLib}.

(** [walletFromPath] (root.go:258-287).  [assert] ends the process when its
    condition fails. *)
Definition walletFromPath (viper : Viper) (path : string)
    : outcome (Wallet PublicKey) :=
  names <- WalletAndAccountNames path ;;
  let walletName := fst names in
  if negb (GetString viper "remote" =? "") then
    if GetString viper "client-cert" =? "" then Abort
    else if GetString viper "client-key" =? "" then Abort
    else
      credentials <- wrap "failed to build dirk credentials"
                       (ComposeCredentials (GetString viper "client-cert")
                          (GetString viper "client-key")
                          (GetString viper "server-ca-cert")) ;;
      endpoints <- wrap "failed to parse remote servers"
                     (remotesToEndpoints [GetString viper "remote"]) ;;
      DirkOpenWallet walletName credentials endpoints
  else
    match OpenWallet walletName with
    | Ok wallet => Ok wallet
    | Err err =>
        if Contains (Error err) "failed to decrypt wallet"
        then Err (New "Incorrect store passphrase")
        else Err err
    | Abort => Abort
    end.

(** [walletFromInput] (root.go:249-256). *)
Definition walletFromInput (viper : Viper) : outcome (Wallet PublicKey) :=
  if negb (GetString viper "account" =? "")
  then walletFromPath viper (GetString viper "account")
  else walletFromPath viper (GetString viper "wallet").

(** The wallets of the process, as the functions above open them. *)
Definition store : WalletStore PublicKey :=
  Build_WalletStore walletFromPath.

(** [walletAndAccountFromInput] (root.go:289-292). *)
Definition walletAndAccountFromInput (viper : Viper)
    : outcome (Wallet PublicKey * Account PublicKey) :=
  walletAndAccountFromPath (store := store) viper (GetString viper "account").

End Open.
End Cmd.

(** ** The connection to the beacon node *)

(** [grpc.DialContext] of google.golang.org/grpc. *)
Class GrpcLib : Type := {
  ClientConn : Type;
  DialContext : string -> outcome ClientConn
}.

(** [connect] (root.go:365-389) on the variable [eth2GRPCConn] ([None] is
    nil): the variable afterwards, and the error or nil.  A dial that fails
    stores nil. *)
Definition connect {grpc : GrpcLib} (viper : Viper)
    (eth2GRPCConn : option ClientConn) : option ClientConn * outcome unit :=
  match eth2GRPCConn with
  | Some _ => (eth2GRPCConn, Ok tt)
  | None =>
      let connection :=
        if negb (GetString viper "connection" =? "")
        then GetString viper "connection" else "" in
      if connection =? "" then (None, Err (New "no connection"))
      else
        match DialContext connection with
        | Ok conn => (Some conn, Ok tt)
        | Err err => (None, Err err)
        | Abort => (None, Abort)
        end
  end.

(** ** The vocabulary of the properties of root.go *)

(** The byte [c] occurs in [s]. *)
Fixpoint occurs (c : ascii) (s : string) : bool :=
  match s with
  | EmptyString => false
  | String x rest => Ascii.eqb x c || occurs c rest
  end.

(** Decimal numerals and their values. *)
Definition isDigit (c : ascii) : bool :=
  (48 <=? N_of_ascii c)%N && (N_of_ascii c <=? 57)%N.

Fixpoint allDigits (s : string) : bool :=
  match s with
  | EmptyString => true
  | String c rest => isDigit c && allDigits rest
  end.

Fixpoint decimalValue (s : string) : N :=
  match s with
  | EmptyString => 0%N
  | String c rest =>
      ((N_of_ascii c - 48) * 10 ^ N.of_nat (String.length rest)
       + decimalValue rest)%N
  end.

(** The number of occurrences of the byte [c] in [s]. *)
Fixpoint countOf (c : ascii) (s : string) : nat :=
  match s with
  | EmptyString => 0
  | String x rest => (if Ascii.eqb x c then 1 else 0) + countOf c rest
  end.

(** The digits [s] begins with. *)
Fixpoint digitPrefix (s : string) : string :=
  match s with
  | EmptyString => ""
  | String c rest => if isDigit c then String c (digitPrefix rest) else ""
  end.

(** [remote] is [host:port] for the endpoint: a host without a colon, and a
    decimal numeral of the port, which is below 2^32. *)
Definition remoteOf (remote : string) (endpoint : Endpoint) : Prop :=
  exists digits,
    remote = (host endpoint ++ ":" ++ digits)%string /\
    occurs ":" (host endpoint) = false /\
    digits <> "" /\
    allDigits digits = true /\
    decimalValue digits = port endpoint /\
    (port endpoint < 2 ^ 32)%N.

(** The text of [phrase] stands in a message of the chain of [err]. *)
Fixpoint mentions (err : error) (phrase : string) : bool :=
  match err with
  | New msg => Contains msg phrase
  | Wrap cause msg => Contains msg phrase || mentions cause phrase
  | _ => false
  end.

(** ** The vocabulary of further properties of [input] *)

(** The configuration with the value of one key replaced. *)
Definition SetString (viper : Viper) (key value : string) : Viper := {|
  GetString := fun k => if k =? key then value else GetString viper k;
  GetBool := GetBool viper
|}.

(** Hexadecimal digits. *)
Definition isHexDigit (c : ascii) : bool :=
  match fromHexChar c with
  | Some _ => true
  | None => false
  end.

Fixpoint allHex (s : string) : bool :=
  match s with
  | EmptyString => true
  | String c rest => isHexDigit c && allHex rest
  end.

(** The calls a run of [input] makes when no step fails, in their order. *)
Definition expectedCalls (viper : Viper) : list event :=
  [CallWalletAndAccountsFromPath (GetString viper "validatoraccount")]
  ++ (if GetString viper "withdrawalaccount" =? "" then []
      else [CallWalletAndAccountFromPath (GetString viper "withdrawalaccount")])
  ++ (if GetString viper "forkversion" =? "" then [CallConnect; CallFetchChainConfig]
      else []).

(** The messages of the errors [input] makes, and the messages it wraps the
    errors of the libraries in. *)
Definition inputMessages : list string :=
  ["validator account is required";
   "failed to obtain validator account";
   "unknown validator account";
   "withdrawalaccount or withdrawal public key is required";
   "withdrawal public key must be exactly 48 bytes in length";
   "deposit value is required";
   "deposit value must be at least 1 Ether";
   "fork version must be exactly 4 bytes in length";
   "failed to obtain genesis fork version"].

Definition inputWrappers : list string :=
  ["failed to obtain withdrawal account";
   "failed to obtain public key for withdrawal account";
   "failed to decode withdrawal public key";
   "withdrawal public key is not valid";
   "deposit value is invalid";
   "failed to decode fork version";
   "failed to connect to beacon node";
   advice].

(** ** The vocabulary of the properties of the selection of accounts *)

(** A name of ASCII characters none of which is special in a regular
    expression. *)
Definition plainCharacter (c : ascii) : bool :=
  negb (GoRegexp.special c) && (N_of_ascii c <? 128)%N.

Definition plain (name : string) : bool :=
  forallb plainCharacter (list_ascii_of_string name).

(** The expression of the characters of [name] followed by [$]. *)
Fixpoint literal (name : string) : GoRegexp.re :=
  match name with
  | EmptyString => GoRegexp.Cat GoRegexp.EndText GoRegexp.Empty
  | String c rest => GoRegexp.Cat (GoRegexp.Char c) (literal rest)
  end.

(** [matchesFrom] for a text that is followed by more text ([atEnd] tells
    whether the end of the text is the end of the whole text). *)
Fixpoint matchesBefore (atStart atEnd : bool) (r : GoRegexp.re) (text : string) : bool :=
  match text with
  | EmptyString => GoRegexp.nullable atStart atEnd r
  | String c rest => matchesBefore false atEnd (GoRegexp.deriv atStart c r) rest
  end.

(** The line feed. *)
Definition lineFeed : ascii := "010"%char.

(** ** Remote signers, stores and nodes to run the functions on *)

Module Examples.

(** [strconv.Quote] on ASCII text (a byte from 128 on is written as Go
    writes a byte that is not UTF-8). *)
Definition lowerHexDigit (n : N) : ascii :=
  if (n <? 10)%N then ascii_of_N (48 + n) else ascii_of_N (87 + n).

Definition quoteByte (c : ascii) : string :=
  let r := N_of_ascii c in
  if (r =? 34)%N then String "\" (String c "")
  else if (r =? 92)%N then "\\"
  else if (r =? 7)%N then "\a"
  else if (r =? 8)%N then "\b"
  else if (r =? 12)%N then "\f"
  else if (r =? 10)%N then "\n"
  else if (r =? 13)%N then "\r"
  else if (r =? 9)%N then "\t"
  else if (r =? 11)%N then "\v"
  else if (32 <=? r)%N && (r <=? 126)%N then String c ""
  else "\x" ++ String (lowerHexDigit (r / 16)) (String (lowerHexDigit (r mod 16)) "").

Fixpoint quoteBytes (s : string) : string :=
  match s with
  | EmptyString => String "034" ""
  | String c rest => quoteByte c ++ quoteBytes rest
  end.

Definition fmt : FmtLib := {| Quote := fun s => String "034" (quoteBytes s) |}.

(** A remote signer that has the wallet "Remote" at [signer:9091], and a
    local store with the wallet "Local" and a wallet "Sealed" that cannot
    be decrypted. *)
Definition remoteWallet : Wallet bytes :=
  Fixtures.wallet [Fixtures.account "Signing" None (Some (Fixtures.key x51))].

Definition localWallet : Wallet bytes :=
  Fixtures.wallet [Fixtures.account "Cold" None (Some (Fixtures.key x52))].

Definition decryptFailure : error :=
  Wrap (Wrap (New "failed to decrypt wallet: invalid key") "failed to read wallet")
       "failed to open wallet".

Definition backends : Backends bytes := {|
  Credentials := (string * string * string)%type;
  ComposeCredentials := fun cert key ca => Ok (cert, key, ca);
  DirkOpenWallet := fun name credentials endpoints =>
    match endpoints with
    | [endpoint] =>
        if (host endpoint =? "signer") && (port endpoint =? 9091)%N
           && (name =? "Remote")
        then Ok remoteWallet
        else Err (New "wallet not found")
    | _ => Err (New "no endpoint")
    end;
  OpenWallet := fun name =>
    if name =? "Local" then Ok localWallet
    else if name =? "Sealed" then Err decryptFailure
    else Err (New "wallet not found")
|}.

Definition walletFromPath (viper : Viper) (path : string) : outcome (Wallet bytes) :=
  Cmd.walletFromPath (backends := backends) (paths := Fixtures.paths)
    (fmt := fmt) viper path.

Definition viaSigner : Viper :=
  Fixtures.viperOf [("remote", "signer:9091"); ("client-cert", "client.crt");
                    ("client-key", "client.key")] [].

(** A node that is reached at [localhost:4000] only, and configurations
    with this address and with another one. *)
Definition grpc : GrpcLib := {|
  ClientConn := string;
  DialContext := fun target =>
    if target =? "localhost:4000" then Ok target
    else Err (New "context deadline exceeded")
|}.

Definition toLocalNode : Viper :=
  Fixtures.viperOf [("connection", "localhost:4000")] [].
Definition toOtherNode : Viper :=
  Fixtures.viperOf [("connection", "node.example.com:4000")] [].

(** A hierarchical deterministic wallet that derives accounts at a path
    once it is unlocked with the passphrase "secret". *)
Definition derived (unlocked : bool) (name : string) : outcome (Account bytes) :=
  if unlocked then Ok (Fixtures.account name None (Some (Fixtures.key x53)))
  else Err (New "wallet is locked").

Definition hdWallet : Wallet bytes :=
  @Build_Wallet bytes "hierarchical deterministic" [] (Some derived)
    (Some {| Unlock := fun passphrase =>
               if list_eq_dec Byte.byte_eq_dec passphrase (bytesOfString "secret")
               then None else Some (New "incorrect passphrase");
             Lock := None |}).

Definition hdStore : WalletStore bytes := Fixtures.storeOf [("HD", hdWallet)].

Definition withPassphrase : Viper :=
  Fixtures.viperOf [("wallet-passphrase", "secret")] [].

(** A beacon node whose genesis fork version has three bytes, one whose
    chain configuration has none, and one that gives it as a string. *)
Definition beaconOf (config : ChainConfig) : BeaconNode := {|
  Conn := unit;
  Connect := fun _ => Ok tt;
  FetchChainConfig := fun _ => Ok config
|}.

Definition threeBytes : BeaconNode :=
  beaconOf [("GenesisForkVersion", VBytes [x01; x02; x03])].
Definition withoutForkVersion : BeaconNode :=
  beaconOf [("GenesisValidatorsRoot", VBytes (repeat x00 32))].
Definition forkVersionAsText : BeaconNode :=
  beaconOf [("GenesisForkVersion", VOther "0x00000000")].

Definition walletOnly : Viper :=
  Fixtures.configure "Validators/.*" "Withdrawal" "" "32 Ether" "0x00000000".

End Examples.

(** * Properties *)

(** ** Sequencing with a log *)

Lemma bind_result (A B : Type) (m : logged A) (k : A -> logged B) :
  resultOf (bind m k) =
  match resultOf m with
  | Ok a => resultOf (k a)
  | Err e => Err e
  | Abort => Abort
  end.
Proof.
  unfold resultOf; simpl. destruct (snd m); reflexivity.
Qed.

Lemma bind_log (A B : Type) (m : logged A) (k : A -> logged B) :
  logOf (bind m k) =
  match resultOf m with
  | Ok a => logOf m ++ logOf (k a)
  | _ => logOf m
  end.
Proof.
  unfold logOf, resultOf; simpl. destruct (snd m); reflexivity.
Qed.

Lemma wrap_result (A : Type) (msg : string) (m : logged A) :
  resultOf (wrap msg m) =
  match resultOf m with
  | Err e => Err (Wrap e msg)
  | other => other
  end.
Proof. unfold resultOf; simpl. destruct (snd m); reflexivity. Qed.

Lemma wrap_log (A : Type) (msg : string) (m : logged A) :
  logOf (wrap msg m) = logOf m.
Proof. reflexivity. Qed.

Lemma replace_result (A : Type) (msg : string) (m : logged A) :
  resultOf (replace msg m) =
  match resultOf m with
  | Err e => Err (New msg)
  | other => other
  end.
Proof. unfold resultOf; simpl. destruct (snd m); reflexivity. Qed.

Lemma eqb_empty_false (s : string) : s <> "" -> (s =? "") = false.
Proof. intros H. apply String.eqb_neq. exact H. Qed.

(** ** [bestPublicKey] *)

Section BestPublicKey.
Context (PublicKey : Type).

(** C7. [bestPublicKey] returns the composite public key of an account that
    has one (whether or not it also has a plain public key), otherwise the
    plain public key of an account that has one, and otherwise fails with
    "account does not provide a public key". *)
Theorem bestPublicKey_composite_then_plain :
  forall (name : string) (composite plain : PublicKey) (other : option PublicKey),
    bestPublicKey (@Build_Account PublicKey name (Some composite) other)
    = Ok composite
    /\ bestPublicKey (@Build_Account PublicKey name None (Some plain))
       = Ok plain
    /\ bestPublicKey (@Build_Account PublicKey name None None)
       = Err (New "account does not provide a public key").
Proof.
  intros name composite plain other. repeat split.
Qed.

Lemma bestPublicKey_Ok_inv (account : Account PublicKey) (pubKey : PublicKey) :
  bestPublicKey account = Ok pubKey ->
  CompositePublicKey account = Some pubKey
  \/ (CompositePublicKey account = None /\ AccountPublicKey account = Some pubKey).
Proof.
  unfold bestPublicKey.
  destruct (CompositePublicKey account) as [c |].
  - intros H. injection H as ->. left. reflexivity.
  - destruct (AccountPublicKey account) as [p |]; try discriminate.
    intros H. injection H as ->. right. split; reflexivity.
Qed.

End BestPublicKey.

(** ** [input] *)

Section InputProperties.
Context (PublicKey : Type) {crypto : Crypto PublicKey} {core : Core PublicKey}
  {beacon : BeaconNode}.

(** The domain is computed inside the process. *)
Lemma inputDomain_bind_log (A : Type) (forkVersion : bytes) (f : bytes -> A) :
  logOf (bind (inputDomain forkVersion) (fun bound => ret (f bound))) = [].
Proof.
  unfold inputDomain.
  destruct (Domain DomainDeposit forkVersion ZeroGenesisValidatorsRoot);
    reflexivity.
Qed.

(** The stages of [input], one after the other. *)
Lemma input_result (viper : Viper) :
  resultOf (input viper) =
  match resultOf (inputValidatorAccounts viper) with
  | Ok accounts =>
      match resultOf (inputWithdrawalCredentials viper) with
      | Ok credentials =>
          match resultOf (inputAmount viper) with
          | Ok gwei =>
              match resultOf (inputForkVersion viper) with
              | Ok version =>
                  match Domain DomainDeposit version ZeroGenesisValidatorsRoot with
                  | Some bound =>
                      Ok {| format := inputFormat viper;
                            withdrawalCredentials := credentials;
                            amount := gwei;
                            validatorAccounts := accounts;
                            forkVersion := version;
                            domain := bound |}
                  | None => Abort
                  end
              | Err e => Err e
              | Abort => Abort
              end
          | Err e => Err e
          | Abort => Abort
          end
      | Err e => Err e
      | Abort => Abort
      end
  | Err e => Err e
  | Abort => Abort
  end.
Proof.
  unfold input. rewrite bind_result.
  destruct (resultOf (inputValidatorAccounts viper)); try reflexivity.
  rewrite bind_result.
  destruct (resultOf (inputWithdrawalCredentials viper)); try reflexivity.
  rewrite bind_result.
  destruct (resultOf (inputAmount viper)); try reflexivity.
  rewrite bind_result.
  destruct (resultOf (inputForkVersion viper)); try reflexivity.
  rewrite bind_result. unfold inputDomain.
  destruct (Domain DomainDeposit a2 ZeroGenesisValidatorsRoot); reflexivity.
Qed.

Lemma input_Ok_inv (viper : Viper) (d : dataIn PublicKey) :
  resultOf (input viper) = Ok d ->
  resultOf (inputValidatorAccounts viper) = Ok (validatorAccounts d) /\
  resultOf (inputWithdrawalCredentials viper) = Ok (withdrawalCredentials d) /\
  resultOf (inputAmount viper) = Ok (amount d) /\
  resultOf (inputForkVersion viper) = Ok (forkVersion d) /\
  Domain DomainDeposit (forkVersion d) ZeroGenesisValidatorsRoot = Some (domain d) /\
  format d = inputFormat viper.
Proof.
  rewrite input_result.
  destruct (resultOf (inputValidatorAccounts viper)); try discriminate.
  destruct (resultOf (inputWithdrawalCredentials viper)); try discriminate.
  destruct (resultOf (inputAmount viper)); try discriminate.
  destruct (resultOf (inputForkVersion viper)) as [version| |]; try discriminate.
  destruct (Domain DomainDeposit version ZeroGenesisValidatorsRoot) eqn:D;
    try discriminate.
  intros H. injection H as <-. simpl. repeat split. exact D.
Qed.

(** *** The validator accounts *)

Lemma inputValidatorAccounts_Ok_inv (viper : Viper) (accounts : list (Account PublicKey)) :
  resultOf (inputValidatorAccounts viper) = Ok accounts ->
  GetString viper "validatoraccount" <> "" /\
  accounts <> [] /\
  exists wallet,
    WalletAndAccountsFromPath viper (GetString viper "validatoraccount")
      = Ok (wallet, accounts).
Proof.
  unfold inputValidatorAccounts.
  destruct (String.eqb_spec (GetString viper "validatoraccount") "") as [E | E].
  - discriminate.
  - rewrite bind_result, replace_result. unfold call, resultOf; simpl.
    destruct (WalletAndAccountsFromPath viper (GetString viper "validatoraccount"))
      as [[wallet found] | e |]; simpl; try discriminate.
    destruct found as [| a rest]; simpl; try discriminate.
    intros H. injection H as <-.
    split; [exact E |]. split; [discriminate |]. exists wallet. reflexivity.
Qed.

Lemma inputValidatorAccounts_log (viper : Viper) :
  logOf (inputValidatorAccounts viper) = []
  \/ logOf (inputValidatorAccounts viper)
     = [CallWalletAndAccountsFromPath (GetString viper "validatoraccount")].
Proof.
  unfold inputValidatorAccounts.
  destruct (GetString viper "validatoraccount" =? ""); [left; reflexivity |].
  right. rewrite bind_log, replace_result. unfold call, resultOf, logOf; simpl.
  destruct (WalletAndAccountsFromPath viper (GetString viper "validatoraccount"))
    as [[wallet found] | e |]; simpl; try reflexivity.
  destruct found; reflexivity.
Qed.

(** C9. When the path of the validator account resolves and no account
    matches, [input] fails with "unknown validator account" right after the
    look-up; and whenever [input] succeeds, the list of validator accounts it
    returns is what the look-up gave and is not empty. *)
Theorem input_validator_accounts_nonempty :
  forall (viper : Viper),
    (forall wallet,
        GetString viper "validatoraccount" <> "" ->
        WalletAndAccountsFromPath viper (GetString viper "validatoraccount")
          = Ok (wallet, []) ->
        input viper
        = ([CallWalletAndAccountsFromPath (GetString viper "validatoraccount")],
           Err UnknownValidatorAccount))
    /\ (forall d,
          resultOf (input viper) = Ok d ->
          validatorAccounts d <> [] /\
          exists wallet,
            WalletAndAccountsFromPath viper (GetString viper "validatoraccount")
              = Ok (wallet, validatorAccounts d)).
Proof.
  intros viper. split.
  - intros wallet Hname Hfound.
    unfold input, inputValidatorAccounts.
    rewrite (eqb_empty_false Hname). simpl. rewrite Hfound. reflexivity.
  - intros d Hd.
    destruct (input_Ok_inv _ Hd) as [Hv _].
    destruct (inputValidatorAccounts_Ok_inv _ Hv) as [_ [Hne Hw]].
    split; assumption.
Qed.

(** *** The withdrawal credentials *)

Lemma setPrefix_result (credentials : bytes) :
  resultOf (setPrefix credentials) =
  match credentials with
  | [] => Abort
  | _ :: rest => Ok (x00 :: rest)
  end.
Proof. destruct credentials; reflexivity. Qed.

Lemma setPrefix_log (credentials : bytes) : logOf (setPrefix credentials) = [].
Proof. destruct credentials; reflexivity. Qed.

Lemma fromWithdrawalAccount_resolved (viper : Viper) wallet account pubKey :
  WalletAndAccountFromPath viper (GetString viper "withdrawalaccount")
    = Ok (wallet, account) ->
  BestPublicKey account = Ok pubKey ->
  fromWithdrawalAccount viper
  = ([CallWalletAndAccountFromPath (GetString viper "withdrawalaccount")],
     Ok (SHA256 (Marshal pubKey))).
Proof.
  intros Hw Hk. unfold fromWithdrawalAccount, call, pure. simpl.
  rewrite Hw. simpl. rewrite Hk. reflexivity.
Qed.

Lemma fromWithdrawalPubKey_valid (viper : Viper) (P : bytes) pubKey :
  DecodeString (TrimPrefix (GetString viper "withdrawalpubkey") "0x") = Ok P ->
  List.length P = 48 ->
  BLSPublicKeyFromBytes P = Ok pubKey ->
  fromWithdrawalPubKey viper = ([], Ok (SHA256 (Marshal pubKey))).
Proof.
  intros Hd Hl Hk. unfold fromWithdrawalPubKey, pure. simpl.
  rewrite Hd. simpl. rewrite Hl. simpl. rewrite Hk. reflexivity.
Qed.

(** No error of the account case or of the key case is the error of a
    missing withdrawal specification. *)
Lemma fromWithdrawalAccount_Err (viper : Viper) (e : error) :
  resultOf (fromWithdrawalAccount viper) = Err e -> exists cause msg, e = Wrap cause msg.
Proof.
  unfold fromWithdrawalAccount. rewrite bind_result, wrap_result.
  unfold call, resultOf; simpl.
  destruct (WalletAndAccountFromPath viper (GetString viper "withdrawalaccount"))
    as [[wallet account] | e0 |]; simpl; try discriminate.
  - destruct (BestPublicKey account); simpl; try discriminate.
    intros H. injection H as <-. eauto.
  - intros H. injection H as <-. eauto.
Qed.

Lemma fromWithdrawalPubKey_Err (viper : Viper) (e : error) :
  resultOf (fromWithdrawalPubKey viper) = Err e ->
  (exists cause msg, e = Wrap cause msg)
  \/ e = New "withdrawal public key must be exactly 48 bytes in length".
Proof.
  unfold fromWithdrawalPubKey. rewrite bind_result, wrap_result.
  unfold pure, resultOf; simpl.
  destruct (DecodeString (TrimPrefix (GetString viper "withdrawalpubkey") "0x"))
    as [bs | e0 |]; simpl; try discriminate.
  - destruct (Nat.eqb (List.length bs) 48); simpl.
    + destruct (BLSPublicKeyFromBytes bs); simpl; try discriminate.
      intros H. injection H as <-. left. eauto.
    + intros H. injection H as <-. right. reflexivity.
  - intros H. injection H as <-. left. eauto.
Qed.

Lemma inputWithdrawalCredentials_missing (viper : Viper) :
  resultOf (inputWithdrawalCredentials viper) = Err AmbiguousOrMissingWithdrawalSpec
  <-> GetString viper "withdrawalaccount" = ""
      /\ GetString viper "withdrawalpubkey" = "".
Proof.
  unfold inputWithdrawalCredentials. rewrite bind_result. split.
  - destruct (String.eqb_spec (GetString viper "withdrawalaccount") "") as [Ea | Ea];
      simpl.
    + destruct (String.eqb_spec (GetString viper "withdrawalpubkey") "") as [Ep | Ep];
        simpl.
      * intros _. split; assumption.
      * destruct (resultOf (fromWithdrawalPubKey viper)) as [c | e |] eqn:R.
        -- rewrite setPrefix_result. destruct c; discriminate.
        -- intros H. injection H as ->.
           destruct (fromWithdrawalPubKey_Err _ R) as [[cause [msg H]] | H];
             discriminate.
        -- discriminate.
    + destruct (resultOf (fromWithdrawalAccount viper)) as [c | e |] eqn:R.
      * rewrite setPrefix_result. destruct c; discriminate.
      * intros H. injection H as ->.
        destruct (fromWithdrawalAccount_Err _ R) as [cause [msg H]]. discriminate.
      * discriminate.
  - intros [Ea Ep]. rewrite Ea, Ep. reflexivity.
Qed.

(** *** The amount *)

Lemma inputAmount_Err_inv (viper : Viper) (e : error) :
  resultOf (inputAmount viper) = Err e ->
  (GetString viper "depositvalue" = "" /\ e = New "deposit value is required")
  \/ (GetString viper "depositvalue" <> "" /\
      exists cause,
        StringToGWei (GetString viper "depositvalue") = Err cause /\
        e = Wrap cause "deposit value is invalid")
  \/ (GetString viper "depositvalue" <> "" /\
      exists gwei,
        StringToGWei (GetString viper "depositvalue") = Ok gwei /\
        (gwei < 1000000000)%N /\ e = AmountBelowMinimum).
Proof.
  unfold inputAmount.
  destruct (String.eqb_spec (GetString viper "depositvalue") "") as [E | E].
  - intros H. injection H as <-. left. split; [exact E | reflexivity].
  - rewrite bind_result, wrap_result. unfold pure, resultOf; simpl.
    destruct (StringToGWei (GetString viper "depositvalue")) as [gwei | cause |];
      simpl; try discriminate.
    + destruct (N.ltb_spec gwei 1000000000); simpl; try discriminate.
      intros H'. injection H' as <-. right. right.
      split; [exact E |]. exists gwei. repeat split. assumption.
    + intros H. injection H as <-. right. left.
      split; [exact E |]. exists cause. split; reflexivity.
Qed.

Lemma inputAmount_parsed (viper : Viper) (gwei : N) :
  GetString viper "depositvalue" <> "" ->
  StringToGWei (GetString viper "depositvalue") = Ok gwei ->
  inputAmount viper
  = ([], if (gwei <? 1000000000)%N then Err AmountBelowMinimum else Ok gwei).
Proof.
  intros E Hp. unfold inputAmount. rewrite (eqb_empty_false E).
  unfold pure. simpl. rewrite Hp. simpl.
  destruct (gwei <? 1000000000)%N; reflexivity.
Qed.

(** *** The fork version *)

Lemma inputForkVersion_explicit (viper : Viper) :
  GetString viper "forkversion" <> "" ->
  inputForkVersion viper
  = ([],
     match DecodeString (TrimPrefix (GetString viper "forkversion") "0x") with
     | Ok version =>
         if Nat.eqb (List.length version) 4 then Ok version
         else Err InvalidForkVersionLength
     | Err e => Err (Wrap e "failed to decode fork version")
     | Abort => Abort
     end).
Proof.
  intros E. unfold inputForkVersion. rewrite (eqb_empty_false E).
  unfold pure. simpl.
  destruct (DecodeString (TrimPrefix (GetString viper "forkversion") "0x"));
    simpl; try reflexivity.
  destruct (Nat.eqb (List.length a) 4); reflexivity.
Qed.

Lemma inputForkVersion_fetched (viper : Viper) :
  GetString viper "forkversion" = "" ->
  inputForkVersion viper
  = match Connect viper with
    | Ok conn =>
        ([CallConnect; CallFetchChainConfig],
         match FetchChainConfig conn with
         | Ok config =>
             match lookup config "GenesisForkVersion" with
             | None => Err (New "failed to obtain genesis fork version")
             | Some (VBytes version) => Ok version
             | Some (VOther _) => Abort
             end
         | Err e => Err (Wrap e advice)
         | Abort => Abort
         end)
    | Err e => ([CallConnect], Err (Wrap e "failed to connect to beacon node"))
    | Abort => ([CallConnect], Abort)
    end.
Proof.
  intros E. unfold inputForkVersion. rewrite E. unfold call, pure. simpl.
  destruct (Connect viper) as [conn | e |]; simpl; try reflexivity.
  destruct (FetchChainConfig conn) as [config | e |]; simpl; try reflexivity.
  destruct (lookup config "GenesisForkVersion") as [[version | other] |];
    reflexivity.
Qed.

Lemma inputForkVersion_New_inv (viper : Viper) (msg : string) :
  resultOf (inputForkVersion viper) = Err (New msg) ->
  New msg = InvalidForkVersionLength
  \/ msg = "failed to obtain genesis fork version".
Proof.
  destruct (String.eqb_spec (GetString viper "forkversion") "") as [E | E].
  - rewrite (inputForkVersion_fetched _ E).
    destruct (Connect viper) as [conn | e |]; unfold resultOf; simpl;
      try discriminate.
    destruct (FetchChainConfig conn) as [config | e |]; try discriminate.
    destruct (lookup config "GenesisForkVersion") as [[version | other] |];
      try discriminate.
    intros H. injection H as <-. right. reflexivity.
  - rewrite (inputForkVersion_explicit _ E). unfold resultOf; simpl.
    destruct (DecodeString (TrimPrefix (GetString viper "forkversion") "0x"));
      try discriminate.
    destruct (Nat.eqb (List.length a) 4); try discriminate.
    intros H. left. injection H as <-. reflexivity.
Qed.

(** *** What [input] returns *)

Lemma inputWithdrawalCredentials_supplied (viper : Viper) (P : bytes) :
  suppliedByAccount viper P \/ suppliedAsHex viper P ->
  resultOf (inputWithdrawalCredentials viper) = resultOf (setPrefix (SHA256 P)).
Proof.
  unfold inputWithdrawalCredentials. rewrite bind_result.
  intros [[Ea [wallet [account [pubKey [Hw [Hk Hm]]]]]]
         | [Ea [Ep [Hd [Hl [pubKey [Hk Hm]]]]]]].
  - rewrite (eqb_empty_false Ea). simpl.
    rewrite (fromWithdrawalAccount_resolved _ Hw Hk), Hm. reflexivity.
  - rewrite Ea, (eqb_empty_false Ep). simpl.
    rewrite (fromWithdrawalPubKey_valid _ Hd Hl Hk), Hm. reflexivity.
Qed.

(** C1. For a valid 48-byte public key [P], given through a withdrawal
    account that resolves to it or in hexadecimal, the withdrawal credentials
    that [input] computes (and returns whenever it succeeds) are 32 bytes,
    the first one 0x00 and the bytes 1 to 31 those of [SHA256 P]; SHA-256
    digests are 32 bytes long. *)
Theorem withdrawal_credentials_prefixed_hash :
  forall (viper : Viper) (P : bytes),
    (forall message, List.length (SHA256 message) = 32) ->
    suppliedByAccount viper P \/ suppliedAsHex viper P ->
    exists credentials,
      resultOf (inputWithdrawalCredentials viper) = Ok credentials /\
      List.length credentials = 32 /\
      nth_error credentials 0 = Some x00 /\
      (forall i, 1 <= i <= 31 ->
                 nth_error credentials i = nth_error (SHA256 P) i) /\
      (forall d, resultOf (input viper) = Ok d ->
                 withdrawalCredentials d = credentials).
Proof.
  intros viper P Hsha Hsup.
  pose proof (inputWithdrawalCredentials_supplied Hsup) as Hres.
  rewrite setPrefix_result in Hres.
  pose proof (Hsha P) as Hlen.
  destruct (SHA256 P) as [| h rest]; [discriminate |].
  exists (x00 :: rest). split; [exact Hres |]. split; [exact Hlen |].
  split; [reflexivity |]. split.
  - intros i Hi. destruct i as [| i]; [lia | reflexivity].
  - intros d Hd. destruct (input_Ok_inv _ Hd) as [_ [Hc _]].
    rewrite Hres in Hc. injection Hc as ->. reflexivity.
Qed.

(** C2, as the code has it.  Once the validator accounts are resolved,
    [input] fails with the error of a missing withdrawal specification if and
    only if neither a withdrawal account nor a withdrawal public key is
    given; the only call made before that failure is the look-up of the
    validator accounts.  When a withdrawal account is given it is used,
    whether or not a public key is given too. *)
Theorem withdrawal_spec_missing_iff_neither :
  forall (viper : Viper) (accounts : list (Account PublicKey)),
    resultOf (inputValidatorAccounts viper) = Ok accounts ->
    (resultOf (input viper) = Err AmbiguousOrMissingWithdrawalSpec
     <-> GetString viper "withdrawalaccount" = ""
         /\ GetString viper "withdrawalpubkey" = "")
    /\ (GetString viper "withdrawalaccount" = "" ->
        GetString viper "withdrawalpubkey" = "" ->
        logOf (input viper)
        = [CallWalletAndAccountsFromPath (GetString viper "validatoraccount")])
    /\ (GetString viper "withdrawalaccount" <> "" ->
        inputWithdrawalCredentials viper
        = (credentials <- fromWithdrawalAccount viper ;; setPrefix credentials)).
Proof.
  intros viper accounts Hv. split; [| split].
  - rewrite input_result, Hv. split.
    + destruct (resultOf (inputWithdrawalCredentials viper)) as [c | e |] eqn:Rc.
      * destruct (resultOf (inputAmount viper)) as [g | e |] eqn:Ra.
        -- destruct (resultOf (inputForkVersion viper)) as [f | e |] eqn:Rf;
             try discriminate.
           { destruct (Domain DomainDeposit f ZeroGenesisValidatorsRoot);
               discriminate. }
           intros H. injection H as ->.
           destruct (inputForkVersion_New_inv _ Rf); discriminate.
        -- intros H. injection H as ->.
           destruct (inputAmount_Err_inv _ Ra)
             as [[_ H] | [[_ [c0 [_ H]]] | [_ [g [_ [_ H]]]]]]; discriminate.
        -- discriminate.
      * intros H. injection H as ->.
        apply inputWithdrawalCredentials_missing. exact Rc.
      * discriminate.
    + intros H. apply inputWithdrawalCredentials_missing in H.
      rewrite H. reflexivity.
  - intros Ea Ep. unfold input. rewrite bind_log, Hv.
    assert (Hc : inputWithdrawalCredentials viper
                 = ([], Err AmbiguousOrMissingWithdrawalSpec)).
    { unfold inputWithdrawalCredentials. rewrite Ea, Ep. reflexivity. }
    rewrite Hc. simpl. rewrite app_nil_r.
    destruct (inputValidatorAccounts_Ok_inv _ Hv) as [Hn [_ [wallet Hw]]].
    unfold inputValidatorAccounts. rewrite (eqb_empty_false Hn).
    rewrite bind_log, replace_result. unfold call, logOf, resultOf. simpl.
    rewrite Hw. simpl.
    destruct (inputValidatorAccounts_Ok_inv _ Hv) as [_ [Hne _]].
    destruct accounts; [contradiction | reflexivity].
  - intros Ea. unfold inputWithdrawalCredentials.
    rewrite (eqb_empty_false Ea). reflexivity.
Qed.

(** C3. With the earlier stages passed and a deposit value that parses to
    [gwei], [input] fails with the below-minimum error if and only if
    [gwei < 1000000000]; from 1000000000 on (that value included) the amount
    is accepted and is the amount of every successful result. *)
Theorem amount_below_minimum_iff :
  forall (viper : Viper) (accounts : list (Account PublicKey)) (credentials : bytes) (gwei : N),
    resultOf (inputValidatorAccounts viper) = Ok accounts ->
    resultOf (inputWithdrawalCredentials viper) = Ok credentials ->
    GetString viper "depositvalue" <> "" ->
    StringToGWei (GetString viper "depositvalue") = Ok gwei ->
    (resultOf (input viper) = Err AmountBelowMinimum <-> (gwei < 1000000000)%N)
    /\ ((1000000000 <= gwei)%N -> resultOf (inputAmount viper) = Ok gwei)
    /\ (forall d, resultOf (input viper) = Ok d ->
                  amount d = gwei /\ (1000000000 <= gwei)%N).
Proof.
  intros viper accounts credentials gwei Hv Hc He Hp.
  pose proof (inputAmount_parsed _ He Hp) as Ha.
  split; [| split].
  - rewrite input_result, Hv, Hc, Ha. unfold resultOf; simpl.
    destruct (N.ltb_spec gwei 1000000000) as [Hlt | Hge].
    + split; [intros _; exact Hlt | reflexivity].
    + split; [| lia].
      destruct (snd (inputForkVersion viper)) as [f | e |] eqn:Rf;
        try discriminate.
      { destruct (Domain DomainDeposit f ZeroGenesisValidatorsRoot);
          discriminate. }
      intros H. injection H as ->.
      destruct (inputForkVersion_New_inv _ Rf); discriminate.
  - intros Hge. rewrite Ha. unfold resultOf; simpl.
    destruct (N.ltb_spec gwei 1000000000); [lia | reflexivity].
  - intros d Hd. destruct (input_Ok_inv _ Hd) as [_ [_ [Hamt _]]].
    rewrite Ha in Hamt. unfold resultOf in Hamt; simpl in Hamt.
    destruct (N.ltb_spec gwei 1000000000); [discriminate |].
    injection Hamt as <-. split; [reflexivity | assumption].
Qed.

(** C4. With the earlier stages passed and an explicit fork version that
    decodes to [version], [input] fails with the fork-version-length error
    whenever [version] is not 4 bytes long; and a successful result carries
    exactly the decoded bytes, four of them, never a shortened or lengthened
    value. *)
Theorem fork_version_length_checked :
  forall (viper : Viper) (accounts : list (Account PublicKey)) (credentials : bytes)
         (gwei : N) (version : bytes),
    resultOf (inputValidatorAccounts viper) = Ok accounts ->
    resultOf (inputWithdrawalCredentials viper) = Ok credentials ->
    resultOf (inputAmount viper) = Ok gwei ->
    GetString viper "forkversion" <> "" ->
    DecodeString (TrimPrefix (GetString viper "forkversion") "0x") = Ok version ->
    (List.length version <> 4 ->
     resultOf (input viper) = Err InvalidForkVersionLength)
    /\ (forall d, resultOf (input viper) = Ok d ->
                  forkVersion d = version /\ List.length version = 4).
Proof.
  intros viper accounts credentials gwei version Hv Hc Ha He Hd.
  pose proof (inputForkVersion_explicit _ He) as Hf. rewrite Hd in Hf.
  split.
  - intros Hl. rewrite input_result, Hv, Hc, Ha, Hf. unfold resultOf; simpl.
    destruct (Nat.eqb_spec (List.length version) 4); [contradiction | reflexivity].
  - intros d Hin. destruct (input_Ok_inv _ Hin) as [_ [_ [_ [Hfv _]]]].
    rewrite Hf in Hfv. unfold resultOf in Hfv; simpl in Hfv.
    destruct (Nat.eqb_spec (List.length version) 4); [| discriminate].
    injection Hfv as <-. split; [reflexivity | assumption].
Qed.

(** *** The calls of the beacon node *)

Lemma input_log_in (viper : Viper) (ev : event) :
  In ev (logOf (input viper)) ->
  In ev (logOf (inputValidatorAccounts viper))
  \/ In ev (logOf (inputWithdrawalCredentials viper))
  \/ In ev (logOf (inputAmount viper))
  \/ In ev (logOf (inputForkVersion viper)).
Proof.
  unfold input. rewrite bind_log.
  destruct (resultOf (inputValidatorAccounts viper)); auto.
  rewrite in_app_iff. intros [H | H]; auto. right. revert H.
  rewrite bind_log.
  destruct (resultOf (inputWithdrawalCredentials viper)); auto.
  rewrite in_app_iff. intros [H | H]; auto. right. revert H.
  rewrite bind_log.
  destruct (resultOf (inputAmount viper)); auto.
  rewrite in_app_iff. intros [H | H]; auto. right. revert H.
  rewrite bind_log.
  destruct (resultOf (inputForkVersion viper)); auto.
  rewrite in_app_iff, inputDomain_bind_log. intros [H | H]; auto. destruct H.
Qed.

Lemma inputWithdrawalCredentials_log (viper : Viper) (ev : event) :
  In ev (logOf (inputWithdrawalCredentials viper)) ->
  ev = CallWalletAndAccountFromPath (GetString viper "withdrawalaccount").
Proof.
  unfold inputWithdrawalCredentials. rewrite bind_log.
  assert (Ha : forall ev, In ev (logOf (fromWithdrawalAccount viper)) ->
               ev = CallWalletAndAccountFromPath (GetString viper "withdrawalaccount")).
  { intros ev0. unfold fromWithdrawalAccount. rewrite bind_log, wrap_result, wrap_log.
    unfold call, logOf, resultOf; simpl.
    destruct (WalletAndAccountFromPath viper (GetString viper "withdrawalaccount"))
      as [[wallet account] | e |]; simpl.
    - destruct (BestPublicKey account); simpl; intros [H | []]; auto.
    - intros [H | []]; auto.
    - intros [H | []]; auto. }
  assert (Hp : logOf (fromWithdrawalPubKey viper) = []).
  { unfold fromWithdrawalPubKey, pure, logOf; simpl.
    destruct (DecodeString (TrimPrefix (GetString viper "withdrawalpubkey") "0x"));
      simpl; try reflexivity.
    destruct (Nat.eqb (List.length a) 48); simpl; try reflexivity.
    destruct (BLSPublicKeyFromBytes a); reflexivity. }
  destruct (negb (GetString viper "withdrawalaccount" =? "")).
  - destruct (resultOf (fromWithdrawalAccount viper)); auto.
    rewrite setPrefix_log, app_nil_r. auto.
  - destruct (negb (GetString viper "withdrawalpubkey" =? "")).
    + rewrite Hp. destruct (resultOf (fromWithdrawalPubKey viper)); simpl;
        try contradiction.
      rewrite setPrefix_log. contradiction.
    + simpl. contradiction.
Qed.

Lemma inputAmount_log (viper : Viper) : logOf (inputAmount viper) = [].
Proof.
  unfold inputAmount, pure, logOf.
  destruct (GetString viper "depositvalue" =? ""); simpl; try reflexivity.
  destruct (StringToGWei (GetString viper "depositvalue")); simpl; try reflexivity.
  destruct (a <? 1000000000)%N; reflexivity.
Qed.

(** With an explicit fork version [input] makes no call of the beacon node,
    whatever else happens. *)
Lemma explicit_fork_version_never_queries (viper : Viper) (ev : event) :
  GetString viper "forkversion" <> "" ->
  In ev (logOf (input viper)) -> ~ beaconCall ev.
Proof.
  intros E Hin [H | H]; subst ev;
    destruct (input_log_in _ _ Hin) as [Hl | [Hl | [Hl | Hl]]].
  all: try (destruct (inputValidatorAccounts_log viper) as [R | R];
            rewrite R in Hl; simpl in Hl; intuition discriminate).
  all: try (apply inputWithdrawalCredentials_log in Hl; discriminate).
  all: try (rewrite inputAmount_log in Hl; destruct Hl).
  all: rewrite (inputForkVersion_explicit _ E) in Hl; destruct Hl.
Qed.

(** Without one, and with the earlier stages passed, the beacon node is
    called; a failed connection and a failed fetch both make [input] fail,
    the fetch with the message that advises a connection or a fork version. *)
Lemma missing_fork_version_queries (viper : Viper) accounts credentials gwei :
  resultOf (inputValidatorAccounts viper) = Ok accounts ->
  resultOf (inputWithdrawalCredentials viper) = Ok credentials ->
  resultOf (inputAmount viper) = Ok gwei ->
  GetString viper "forkversion" = "" ->
  In CallConnect (logOf (input viper))
  /\ (forall e, Connect viper = Err e ->
                resultOf (input viper)
                = Err (Wrap e "failed to connect to beacon node"))
  /\ (forall conn e, Connect viper = Ok conn -> FetchChainConfig conn = Err e ->
                     resultOf (input viper) = Err (Wrap e advice)
                     /\ In CallFetchChainConfig (logOf (input viper))).
Proof.
  intros Hv Hc Ha E.
  pose proof (inputForkVersion_fetched _ E) as Hf.
  assert (Hlog : forall ev, In ev (logOf (inputForkVersion viper)) ->
                            In ev (logOf (input viper))).
  { intros ev Hin. unfold input.
    rewrite bind_log, Hv, bind_log, Hc, bind_log, Ha, bind_log.
    rewrite !in_app_iff. right. right. right.
    destruct (resultOf (inputForkVersion viper)); auto.
    rewrite in_app_iff. left. exact Hin. }
  split; [| split].
  - apply Hlog. rewrite Hf. destruct (Connect viper); left; reflexivity.
  - intros e He. rewrite input_result, Hv, Hc, Ha, Hf, He. reflexivity.
  - intros conn e Hconn He. split.
    + rewrite input_result, Hv, Hc, Ha, Hf, Hconn. unfold resultOf; simpl.
      rewrite He. reflexivity.
    + apply Hlog. rewrite Hf, Hconn. right. left. reflexivity.
Qed.

(** The fork version of the run is what the fork-version stage returns. *)
Lemma inputForkVersion_given (viper : Viper) (F : bytes) :
  forkVersionGiven viper F ->
  List.length F = 4 ->
  resultOf (inputForkVersion viper) = Ok F.
Proof.
  intros [[He Hd] | [He [conn [config [Hconn [Hfetch Hlookup]]]]]] HF.
  - rewrite (inputForkVersion_explicit _ He), Hd, HF. reflexivity.
  - rewrite (inputForkVersion_fetched _ He), Hconn.
    unfold resultOf; simpl. rewrite Hfetch, Hlookup. reflexivity.
Qed.

End InputProperties.

(** C6. For every fork version [F] of 4 bytes there is one domain, the one
    [e2types.Domain] gives for the deposit domain type, [F] and the all-zero
    root, of 32 bytes, and every run of [input] whose fork version is [F],
    configured or fetched from the beacon node, returns it in its result,
    whatever the configuration, the wallets and the beacon node are
    otherwise.  (That [e2types.Domain] gives 32 bytes for a fork version of
    4 bytes is the contract of the library.) *)
Theorem deposit_domain_deterministic :
  forall (PublicKey : Type) (crypto : Crypto PublicKey),
    (forall version,
       List.length version = 4 ->
       exists bound,
         Domain DomainDeposit version ZeroGenesisValidatorsRoot = Some bound /\
         List.length bound = 32) ->
    forall F : bytes,
      List.length F = 4 ->
      exists bound : bytes,
        Domain DomainDeposit F (repeat x00 32) = Some bound /\
        List.length bound = 32 /\
        (forall (core : Core PublicKey) (beacon : BeaconNode) (viper : Viper)
                (accounts : list (Account PublicKey)) (credentials : bytes)
                (gwei : N),
           resultOf (inputValidatorAccounts viper) = Ok accounts ->
           resultOf (inputWithdrawalCredentials viper) = Ok credentials ->
           resultOf (inputAmount viper) = Ok gwei ->
           forkVersionGiven viper F ->
           resultOf (input viper)
           = Ok {| format := inputFormat viper;
                   withdrawalCredentials := credentials;
                   amount := gwei;
                   validatorAccounts := accounts;
                   forkVersion := F;
                   domain := bound |}) /\
        (forall (core : Core PublicKey) (beacon : BeaconNode) (viper : Viper)
                (d : dataIn PublicKey),
           resultOf (input viper) = Ok d ->
           forkVersion d = F ->
           domain d = bound).
Proof.
  intros PublicKey crypto Hlib F HF.
  destruct (Hlib F HF) as [bound [HD HL]].
  exists bound. split; [exact HD |]. split; [exact HL |]. split.
  - intros core beacon viper accounts credentials gwei Hv Hc Ha Hgiven.
    rewrite input_result, Hv, Hc, Ha, (inputForkVersion_given Hgiven HF).
    rewrite HD. reflexivity.
  - intros core beacon viper d Hd <-.
    destruct (input_Ok_inv _ Hd) as [_ [_ [_ [_ [D _]]]]].
    rewrite HD in D. injection D as <-. reflexivity.
Qed.

(** ** The order of strings *)

Lemma ascii_compare_refl (a : ascii) : Ascii.compare a a = Eq.
Proof. apply N.compare_refl. Qed.

Lemma string_compare_refl (s : string) : String.compare s s = Eq.
Proof.
  induction s as [| a s IH]; simpl; [reflexivity |].
  rewrite ascii_compare_refl. exact IH.
Qed.

Lemma ascii_compare_Lt_trans (a b c : ascii) :
  Ascii.compare a b = Lt -> Ascii.compare b c = Lt -> Ascii.compare a c = Lt.
Proof.
  unfold Ascii.compare. rewrite !N.compare_lt_iff. lia.
Qed.

Lemma string_compare_Lt_trans (s t u : string) :
  String.compare s t = Lt -> String.compare t u = Lt -> String.compare s u = Lt.
Proof.
  revert t u. induction s as [| a s IH]; intros [| b t] [| c u]; simpl;
    try discriminate; try reflexivity.
  destruct (Ascii.compare a b) eqn:Hab; try discriminate;
    destruct (Ascii.compare b c) eqn:Hbc; try discriminate; intros H1 H2.
  - apply Ascii.compare_eq_iff in Hab, Hbc. subst.
    rewrite ascii_compare_refl. eapply IH; eassumption.
  - apply Ascii.compare_eq_iff in Hab. subst. rewrite Hbc. reflexivity.
  - apply Ascii.compare_eq_iff in Hbc. subst. rewrite Hab. reflexivity.
  - rewrite (ascii_compare_Lt_trans _ _ _ Hab Hbc). reflexivity.
Qed.

Lemma string_leb_iff (s t : string) :
  (s <=? t) = true <-> String.compare s t = Lt \/ s = t.
Proof.
  unfold String.leb. destruct (String.compare s t) eqn:H; split; intros H'; auto.
  - right. apply String.compare_eq_iff. exact H.
  - discriminate.
  - destruct H' as [H' | H']; [discriminate |]. subst.
    rewrite string_compare_refl in H. discriminate.
Qed.

Lemma string_leb_trans (s t u : string) :
  (s <=? t) = true -> (t <=? u) = true -> (s <=? u) = true.
Proof.
  rewrite !string_leb_iff. intros [H1 | ->] [H2 | ->]; auto.
  left. eapply string_compare_Lt_trans; eassumption.
Qed.

Lemma string_ltb_false_iff (s t : string) :
  (s <? t) = false <-> (t <=? s) = true.
Proof.
  unfold String.ltb, String.leb. rewrite (String.compare_antisym t s).
  destruct (String.compare s t); simpl; split; intros H; congruence.
Qed.

Lemma string_ltb_strictWeakOrder : strictWeakOrder String.ltb.
Proof.
  unfold strictWeakOrder. split; [| split].
  - intros s. unfold String.ltb. rewrite string_compare_refl. reflexivity.
  - intros s t u. unfold String.ltb.
    destruct (String.compare s t) eqn:H1; try discriminate.
    destruct (String.compare t u) eqn:H2; try discriminate.
    rewrite (string_compare_Lt_trans _ _ _ H1 H2). reflexivity.
  - intros s t u. rewrite !string_ltb_false_iff. intros H1 H2.
    eapply string_leb_trans; eassumption.
Qed.

Lemma sorted_permutation_unique (l1 l2 : list string) :
  StronglySorted (fun s t => (s <=? t) = true) l1 ->
  StronglySorted (fun s t => (s <=? t) = true) l2 ->
  Permutation l1 l2 -> l1 = l2.
Proof.
  revert l2. induction l1 as [| x l1 IH]; intros l2 S1 S2 P.
  - apply Permutation_nil in P. subst. reflexivity.
  - destruct l2 as [| y l2].
    + apply Permutation_sym, Permutation_nil in P. discriminate.
    + inversion S1 as [| ? ? S1' F1]; subst. inversion S2 as [| ? ? S2' F2]; subst.
      assert (x = y).
      { apply String.leb_antisym.
        - assert (In y (x :: l1)) as [-> | Hin]
            by (eapply Permutation_in; [apply Permutation_sym; exact P | left; reflexivity]).
          + apply string_leb_iff. right. reflexivity.
          + rewrite Forall_forall in F1. apply F1. exact Hin.
        - assert (In x (y :: l2)) as [-> | Hin]
            by (eapply Permutation_in; [exact P | left; reflexivity]).
          + apply string_leb_iff. right. reflexivity.
          + rewrite Forall_forall in F2. apply F2. exact Hin. }
      subst y. f_equal. apply IH; try assumption.
      eapply Permutation_cons_inv. exact P.
Qed.

(** ** [walletAndAccountsFromPath] *)

Lemma lessByName_strictWeakOrder (PublicKey : Type) :
  strictWeakOrder (@lessByName PublicKey).
Proof.
  destruct string_ltb_strictWeakOrder as [Hi [Ht Hn]].
  unfold strictWeakOrder, lessByName. split; [| split].
  - intros a. apply Hi.
  - intros a b c. apply Ht.
  - intros a b c. apply Hn.
Qed.

Lemma walletAndAccountsFromPath_Ok_inv {PublicKey : Type} {store : WalletStore PublicKey}
    {paths : PathLib} {regexp : RegexpLib} {sorter : SortLib}
    (viper : Viper) (path : string) (wallet : Wallet PublicKey)
    (accounts : list (Account PublicKey)) :
  walletAndAccountsFromPath viper path = Ok (wallet, accounts) ->
  exists names re,
    walletFromPath viper path = Ok wallet /\
    WalletAndAccountNames path = Ok names /\
    Compile (accountPattern (snd names)) = Some re /\
    accounts
    = sortSlice lessByName
        (filter (fun account => Match re (Name account)) (Accounts wallet)).
Proof.
  unfold walletAndAccountsFromPath. simpl.
  destruct (walletFromPath viper path) as [w | e |]; simpl; try discriminate.
  destruct (WalletAndAccountNames path) as [names | e |]; simpl; try discriminate.
  destruct (Compile (accountPattern (snd names))) as [re |] eqn:Hre;
    try discriminate.
  intros H. injection H as <- <-. exists names, re. repeat split. exact Hre.
Qed.

Lemma walletAndAccountsFromPath_resolved {PublicKey : Type} {store : WalletStore PublicKey}
    {paths : PathLib} {regexp : RegexpLib} {sorter : SortLib}
    (viper : Viper) (path : string) (wallet : Wallet PublicKey) names re :
  walletFromPath viper path = Ok wallet ->
  WalletAndAccountNames path = Ok names ->
  Compile (accountPattern (snd names)) = Some re ->
  walletAndAccountsFromPath viper path
  = Ok (wallet,
        sortSlice lessByName
          (filter (fun account => Match re (Name account)) (Accounts wallet))).
Proof.
  intros Hw Hn Hre. unfold walletAndAccountsFromPath. simpl.
  rewrite Hw. simpl. rewrite Hn. simpl. rewrite Hre. reflexivity.
Qed.

(** The pattern: the account part between [^] and [$], and [^.*$] for an
    empty account part. *)
Lemma accountPattern_cases (accountSpec : string) :
  accountPattern "" = "^.*$" /\
  (accountSpec <> "" -> accountPattern accountSpec = ("^" ++ accountSpec ++ "$")%string).
Proof.
  split; [reflexivity |]. intros H. unfold accountPattern.
  rewrite (eqb_empty_false H). reflexivity.
Qed.

Lemma sorted_by_name {PublicKey : Type} (accounts : list (Account PublicKey)) :
  Sorted (fun a b => lessByName b a = false) accounts ->
  StronglySorted nameLe accounts.
Proof.
  intros H. apply Sorted_StronglySorted.
  - intros a b c. unfold nameLe. apply string_leb_trans.
  - induction H as [| a l Hs IH Hd]; constructor; [exact IH |].
    destruct Hd as [| b l Hab]; constructor.
    unfold nameLe. apply string_ltb_false_iff. exact Hab.
Qed.

Lemma StronglySorted_map_Name {PublicKey : Type}
    (accounts : list (Account PublicKey)) :
  StronglySorted nameLe accounts ->
  StronglySorted (fun s t => (s <=? t) = true)
    (map (fun account => Name account) accounts).
Proof.
  induction 1 as [| a l Hs IH Hf]; simpl; constructor; [exact IH |].
  rewrite Forall_map. exact Hf.
Qed.

Lemma filter_Permutation (A : Type) (f : A -> bool) (l1 l2 : list A) :
  Permutation l1 l2 -> Permutation (filter f l1) (filter f l2).
Proof.
  induction 1 as [| x l l' _ IH | x y l | l l' l'' _ IH1 _ IH2]; simpl.
  - constructor.
  - destruct (f x); [constructor |]; exact IH.
  - destruct (f x), (f y); try reflexivity. constructor.
  - etransitivity; eassumption.
Qed.

(** C8. When [sort.Slice] keeps its promise, the accounts that
    [walletAndAccountsFromPath] returns are the matching accounts of the
    wallet in ascending order of name; and the names come out in the same
    order whatever the order in which the wallet sends its accounts. *)
Theorem accounts_sorted_by_name :
  forall (PublicKey : Type) (store : WalletStore PublicKey) (paths : PathLib)
         (regexp : RegexpLib) (sorter : SortLib)
         (viper : Viper) (path : string) (wallet : Wallet PublicKey)
         (accounts : list (Account PublicKey)),
    sortContract sorter ->
    walletAndAccountsFromPath viper path = Ok (wallet, accounts) ->
    StronglySorted nameLe accounts
    /\ (exists names re,
          WalletAndAccountNames path = Ok names /\
          Compile (accountPattern (snd names)) = Some re /\
          Permutation accounts
            (filter (fun account => Match re (Name account)) (Accounts wallet)))
    /\ (forall (store2 : WalletStore PublicKey) (wallet2 : Wallet PublicKey)
               (accounts2 : list (Account PublicKey)),
          walletAndAccountsFromPath (store := store2) viper path
            = Ok (wallet2, accounts2) ->
          Permutation (Accounts wallet) (Accounts wallet2) ->
          map (fun account => Name account) accounts2
          = map (fun account => Name account) accounts).
Proof.
  intros PublicKey store paths regexp sorter viper path wallet accounts
    Hsort Hok.
  destruct (walletAndAccountsFromPath_Ok_inv _ _ Hok)
    as [names [re [Hw [Hn [Hre Hacc]]]]].
  assert (Hsorted : forall l : list (Account PublicKey),
             StronglySorted nameLe (sortSlice lessByName l)).
  { intros l. apply sorted_by_name.
    apply (proj2 (Hsort _ lessByName l)). apply lessByName_strictWeakOrder. }
  split; [| split].
  - rewrite Hacc. apply Hsorted.
  - exists names, re. repeat split; try assumption.
    rewrite Hacc. apply (proj1 (Hsort _ lessByName _)).
  - intros store2 wallet2 accounts2 Hok2 Hperm.
    destruct (walletAndAccountsFromPath_Ok_inv (store := store2) _ _ Hok2)
      as [names2 [re2 [Hw2 [Hn2 [Hre2 Hacc2]]]]].
    rewrite Hn in Hn2. injection Hn2 as <-.
    rewrite Hre in Hre2. injection Hre2 as <-.
    apply sorted_permutation_unique.
    + apply StronglySorted_map_Name. rewrite Hacc2. apply Hsorted.
    + apply StronglySorted_map_Name. rewrite Hacc. apply Hsorted.
    + apply Permutation_map. rewrite Hacc, Hacc2.
      etransitivity; [apply (proj1 (Hsort _ lessByName _)) |].
      etransitivity; [| apply Permutation_sym, (proj1 (Hsort _ lessByName _))].
      apply filter_Permutation, Permutation_sym. exact Hperm.
Qed.

(** ** The collaborators used for running the functions keep the promises
    of the libraries *)

Lemma bytesOfWord_length (count : nat) (w : N) :
  List.length (Sha256.bytesOfWord count w) = count.
Proof.
  revert w. induction count as [| k IH]; intros w; simpl; [reflexivity |].
  rewrite length_app, IH. simpl. lia.
Qed.

Lemma round_length (state : list N) (kw : N * N) :
  List.length (Sha256.round state kw) = List.length state.
Proof.
  destruct state as [| a [| b [| c [| d [| e [| f [| g [| h [| i t]]]]]]]]];
    reflexivity.
Qed.

Lemma rounds_length (kws : list (N * N)) (state : list N) :
  List.length (fold_left Sha256.round kws state) = List.length state.
Proof.
  revert state. induction kws as [| kw kws IH]; intros state; simpl;
    [reflexivity |].
  rewrite IH. apply round_length.
Qed.

Lemma compress_length (state block : list N) :
  List.length (Sha256.compress state block) = List.length state.
Proof.
  unfold Sha256.compress. rewrite length_map, length_combine, rounds_length.
  apply Nat.min_id.
Qed.

Lemma blocks_length (count : nat) (state bs : list N) :
  List.length (Sha256.blocks count state bs) = List.length state.
Proof.
  revert state bs. induction count as [| k IH]; intros state bs; simpl;
    [reflexivity |].
  rewrite IH. apply compress_length.
Qed.

Lemma digest_length (message : bytes) : List.length (Sha256.digest message) = 32.
Proof.
  unfold Sha256.digest. rewrite length_map.
  assert (H : forall l, List.length (flat_map (Sha256.bytesOfWord 4) l)
                        = 4 * List.length l).
  { induction l as [| w l IH]; [reflexivity |].
    cbn [flat_map]. rewrite length_app, bytesOfWord_length, IH. simpl. lia. }
  rewrite H, blocks_length. reflexivity.
Qed.

Lemma fixture_domain_length (version : bytes) :
  List.length version = 4 ->
  exists bound,
    Domain (Crypto := Fixtures.crypto) DomainDeposit version
      ZeroGenesisValidatorsRoot = Some bound /\
    List.length bound = 32.
Proof.
  intros H. exists (Fixtures.domainOf DomainDeposit version ZeroGenesisValidatorsRoot).
  split.
  - cbv [Domain Fixtures.crypto]. rewrite H. reflexivity.
  - unfold Fixtures.domainOf.
    rewrite length_app, !length_firstn, digest_length. reflexivity.
Qed.

Lemma insert_Permutation (A : Type) (less : A -> A -> bool) (x : A) (l : list A) :
  Permutation (Fixtures.insert less x l) (x :: l).
Proof.
  induction l as [| y l IH]; simpl; [reflexivity |].
  destruct (less x y); [reflexivity |].
  etransitivity; [apply perm_skip, IH | apply perm_swap].
Qed.

Lemma insert_Sorted (A : Type) (less : A -> A -> bool) (x : A) (l : list A) :
  (forall a b, less a b = true -> less b a = false) ->
  Sorted (fun a b => less b a = false) l ->
  Sorted (fun a b => less b a = false) (Fixtures.insert less x l).
Proof.
  intros Hasym. induction 1 as [| y l Hs IH Hd]; simpl.
  - repeat constructor.
  - destruct (less x y) eqn:Hxy.
    + constructor; [constructor; assumption |]. constructor.
      apply Hasym. exact Hxy.
    + constructor; [exact IH |].
      destruct Hd as [| z l Hyz]; simpl.
      * constructor. exact Hxy.
      * destruct (less x z); constructor; assumption.
Qed.

Lemma insertionSort_contract : sortContract Fixtures.sorter.
Proof.
  intros A less l. simpl. split.
  - induction l as [| x l IH]; simpl; [reflexivity |].
    etransitivity; [apply insert_Permutation | apply perm_skip, IH].
  - intros [Hirr [Htrans _]].
    assert (Hasym : forall a b, less a b = true -> less b a = false).
    { intros a b Hab. destruct (less b a) eqn:Hba; [| reflexivity].
      rewrite <- (Hirr a). symmetry. eapply Htrans; eassumption. }
    induction l as [| x l IH]; simpl; [constructor |].
    apply insert_Sorted; assumption.
Qed.


(** ** Concrete runs *)

(** A run with the key c0...c0 given in hexadecimal, a deposit of exactly
    1 Ether and the fork version 00000000. *)
Lemma withdrawal_credentials_prefixed_hash_witness :
  suppliedAsHex (crypto := Fixtures.crypto) Fixtures.byKey (Fixtures.key xc0)
  /\ exists credentials,
       resultOf (Fixtures.run Fixtures.beacon Fixtures.byKey)
       = Ok (Fixtures.deposit credentials 1000000000)
       /\ List.length credentials = 32
       /\ nth_error credentials 0 = Some x00
       /\ (forall i, 1 <= i <= 31 ->
             nth_error credentials i
             = nth_error (SHA256 (Crypto := Fixtures.crypto) (Fixtures.key xc0)) i).
Proof.
  assert (Hsup : suppliedAsHex (crypto := Fixtures.crypto) Fixtures.byKey
                   (Fixtures.key xc0)).
  { unfold suppliedAsHex. split; [reflexivity |].
    split; [vm_compute; discriminate |].
    split; [vm_compute; reflexivity |].
    split; [reflexivity |].
    exists (Fixtures.key xc0). split; reflexivity. }
  split; [exact Hsup |].
  destruct (@withdrawal_credentials_prefixed_hash
              bytes Fixtures.crypto Fixtures.core Fixtures.beacon
              Fixtures.byKey (Fixtures.key xc0) digest_length (or_intror Hsup))
    as [credentials [Hres [Hlen [Hzero [Hrest Hdata]]]]].
  exists credentials.
  split; [| split; [exact Hlen | split; [exact Hzero | exact Hrest]]].
  assert (Hrun : resultOf (Fixtures.run Fixtures.beacon Fixtures.byKey)
                 = Ok (Fixtures.deposit
                         (x00 :: tl (Sha256.digest (Fixtures.key xc0)))
                         1000000000)) by (vm_compute; reflexivity).
  rewrite <- (Hdata _ Hrun). exact Hrun.
Defined.

Example withdrawal_credentials_by_account :
  suppliedByAccount (crypto := Fixtures.crypto) (core := Fixtures.core)
    Fixtures.byAccount (Fixtures.key xc0)
  /\ resultOf (inputWithdrawalCredentials (crypto := Fixtures.crypto)
                 (core := Fixtures.core) Fixtures.byAccount)
     = Ok (x00 :: tl (Sha256.digest (Fixtures.key xc0))).
Proof.
  split; [| vm_compute; reflexivity].
  split; [vm_compute; discriminate |].
  exists (Fixtures.wallet [Fixtures.account "Primary" (Some (Fixtures.key xc0))
                             (Some (Fixtures.key xc1));
                           Fixtures.account "Plain" None (Some (Fixtures.key xc2));
                           Fixtures.account "Keyless" None None]),
    (Fixtures.account "Primary" (Some (Fixtures.key xc0)) (Some (Fixtures.key xc1))),
    (Fixtures.key xc0).
  split; [vm_compute; reflexivity |]. split; reflexivity.
Qed.

(** C2 as the specification words it (failure when both are given) does not
    hold: with both a withdrawal account and a withdrawal public key given,
    [input] succeeds, with the credentials of the account. *)
Lemma both_given_is_accepted :
  GetString Fixtures.both "withdrawalaccount" = "Withdrawal/Plain"
  /\ GetString Fixtures.both "withdrawalpubkey" = Fixtures.hexKey
  /\ resultOf (Fixtures.run Fixtures.beacon Fixtures.both)
     <> Err AmbiguousOrMissingWithdrawalSpec
  /\ exists d,
       resultOf (Fixtures.run Fixtures.beacon Fixtures.both) = Ok d
       /\ withdrawalCredentials d = x00 :: tl (Sha256.digest (Fixtures.key xc2)).
Proof.
  split; [reflexivity |]. split; [reflexivity |]. split.
  - vm_compute. discriminate.
  - eexists. split; vm_compute; reflexivity.
Qed.

(** A run with neither of the two. *)
Lemma withdrawal_spec_missing_iff_neither_witness :
  (resultOf (Fixtures.run Fixtures.beacon Fixtures.neither)
   = Err AmbiguousOrMissingWithdrawalSpec
   <-> GetString Fixtures.neither "withdrawalaccount" = ""
       /\ GetString Fixtures.neither "withdrawalpubkey" = "")
  /\ logOf (Fixtures.run Fixtures.beacon Fixtures.neither)
     = [CallWalletAndAccountsFromPath "Validators/.*"].
Proof.
  assert (Hv : resultOf (inputValidatorAccounts (core := Fixtures.core)
                           Fixtures.neither) = Ok (rev Fixtures.validators))
    by (vm_compute; reflexivity).
  destruct (@withdrawal_spec_missing_iff_neither
              bytes Fixtures.crypto Fixtures.core Fixtures.beacon
              Fixtures.neither (rev Fixtures.validators) Hv)
    as [Hiff [Hlog _]].
  split; [exact Hiff |].
  apply Hlog; reflexivity.
Defined.

(** The boundary: exactly 1000000000 GWei. *)
Lemma amount_below_minimum_iff_witness :
  StringToGWei (Crypto := Fixtures.crypto)
    (GetString Fixtures.byKey "depositvalue") = Ok 1000000000%N
  /\ (resultOf (Fixtures.run Fixtures.beacon Fixtures.byKey)
      = Err AmountBelowMinimum <-> (1000000000 < 1000000000)%N)
  /\ resultOf (inputAmount (crypto := Fixtures.crypto) Fixtures.byKey)
     = Ok 1000000000%N.
Proof.
  assert (Hp : StringToGWei (Crypto := Fixtures.crypto)
                 (GetString Fixtures.byKey "depositvalue") = Ok 1000000000%N)
    by (vm_compute; reflexivity).
  assert (Hv : resultOf (inputValidatorAccounts (core := Fixtures.core)
                           Fixtures.byKey) = Ok (rev Fixtures.validators))
    by (vm_compute; reflexivity).
  assert (Hc : resultOf (inputWithdrawalCredentials (crypto := Fixtures.crypto)
                           (core := Fixtures.core) Fixtures.byKey)
               = Ok (x00 :: tl (Sha256.digest (Fixtures.key xc0))))
    by (vm_compute; reflexivity).
  assert (He : GetString Fixtures.byKey "depositvalue" <> "")
    by (vm_compute; discriminate).
  destruct (@amount_below_minimum_iff
              bytes Fixtures.crypto Fixtures.core Fixtures.beacon
              Fixtures.byKey _ _ _ Hv Hc He Hp) as [Hiff [Hacc _]].
  split; [exact Hp |]. split; [exact Hiff |].
  apply Hacc. vm_compute. discriminate.
Defined.

Example amount_just_below_minimum :
  StringToGWei (Crypto := Fixtures.crypto)
    (GetString Fixtures.tooLittle "depositvalue") = Ok 999999999%N
  /\ Fixtures.run Fixtures.beacon Fixtures.tooLittle
     = ([CallWalletAndAccountsFromPath "Validators/.*";
         CallWalletAndAccountFromPath "Withdrawal/Primary"],
        Err AmountBelowMinimum).
Proof. split; vm_compute; reflexivity. Qed.

(** A fork version of three bytes. *)
Lemma fork_version_length_checked_witness :
  DecodeString (TrimPrefix (GetString Fixtures.shortForkVersion "forkversion") "0x")
  = Ok [x00; x00; x00]
  /\ resultOf (Fixtures.run Fixtures.beacon Fixtures.shortForkVersion)
     = Err InvalidForkVersionLength.
Proof.
  assert (Hd : DecodeString
                 (TrimPrefix (GetString Fixtures.shortForkVersion "forkversion") "0x")
               = Ok [x00; x00; x00]) by (vm_compute; reflexivity).
  assert (Hv : resultOf (inputValidatorAccounts (core := Fixtures.core)
                           Fixtures.shortForkVersion)
               = Ok (rev Fixtures.validators)) by (vm_compute; reflexivity).
  assert (Hc : resultOf (inputWithdrawalCredentials (crypto := Fixtures.crypto)
                           (core := Fixtures.core) Fixtures.shortForkVersion)
               = Ok (x00 :: tl (Sha256.digest (Fixtures.key xc0))))
    by (vm_compute; reflexivity).
  assert (Ha : resultOf (inputAmount (crypto := Fixtures.crypto)
                           Fixtures.shortForkVersion) = Ok 32000000000%N)
    by (vm_compute; reflexivity).
  assert (He : GetString Fixtures.shortForkVersion "forkversion" <> "")
    by (vm_compute; discriminate).
  split; [exact Hd |].
  apply (proj1 (@fork_version_length_checked
                  bytes Fixtures.crypto Fixtures.core Fixtures.beacon
                  Fixtures.shortForkVersion _ _ _ _ Hv Hc Ha He Hd)).
  simpl. discriminate.
Defined.

(** C5, where the code departs from the specification: when the connection
    to the beacon node fails, the error of [input] carries no advice, while
    the error of a failed fetch, a few lines further, does. *)
Theorem connect_failure_has_no_advice :
  GetString Fixtures.noForkVersion "forkversion" = ""
  /\ Fixtures.run Fixtures.noConnection Fixtures.noForkVersion
     = ([CallWalletAndAccountsFromPath "Validators/.*";
         CallWalletAndAccountFromPath "Withdrawal/Primary";
         CallConnect],
        Err (Wrap (New "no connection") "failed to connect to beacon node"))
  /\ (forall cause,
        resultOf (Fixtures.run Fixtures.noConnection Fixtures.noForkVersion)
        <> Err (Wrap cause advice))
  /\ resultOf (Fixtures.run Fixtures.noAnswer Fixtures.noForkVersion)
     = Err (Wrap (New "context deadline exceeded") advice).
Proof.
  split; [reflexivity |]. split; [vm_compute; reflexivity |].
  split; [| vm_compute; reflexivity].
  intros cause. vm_compute. discriminate.
Qed.

Example explicit_fork_version_offline :
  Fixtures.run Fixtures.noConnection Fixtures.byAccount
  = Fixtures.run Fixtures.beacon Fixtures.byAccount
  /\ logOf (Fixtures.run Fixtures.noConnection Fixtures.byAccount)
     = [CallWalletAndAccountsFromPath "Validators/.*";
        CallWalletAndAccountFromPath "Withdrawal/Primary"].
Proof. split; vm_compute; reflexivity. Qed.

(** The fork version 00000000 given explicitly in one run and fetched from
    the beacon node in the other. *)
Lemma deposit_domain_deterministic_witness :
  exists bound : bytes,
    Domain (Crypto := Fixtures.crypto) DomainDeposit [x00; x00; x00; x00]
      (repeat x00 32) = Some bound
    /\ List.length bound = 32
    /\ GetString Fixtures.byAccount "forkversion" = "0x00000000"
    /\ GetString Fixtures.noForkVersion "forkversion" = ""
    /\ resultOf (Fixtures.run Fixtures.beacon Fixtures.byAccount)
       = Ok {| format := "json";
               withdrawalCredentials := x00 :: tl (Sha256.digest (Fixtures.key xc0));
               amount := 32000000000;
               validatorAccounts := rev Fixtures.validators;
               forkVersion := [x00; x00; x00; x00];
               domain := bound |}
    /\ resultOf (Fixtures.run Fixtures.beacon Fixtures.noForkVersion)
       = Ok {| format := "json";
               withdrawalCredentials := x00 :: tl (Sha256.digest (Fixtures.key xc0));
               amount := 32000000000;
               validatorAccounts := rev Fixtures.validators;
               forkVersion := [x00; x00; x00; x00];
               domain := bound |}.
Proof.
  destruct (@deposit_domain_deterministic bytes Fixtures.crypto
              fixture_domain_length [x00; x00; x00; x00] eq_refl)
    as [bound [HD [HL [Hrun _]]]].
  exists bound. split; [exact HD |]. split; [exact HL |].
  split; [reflexivity |]. split; [reflexivity |]. split.
  - apply (Hrun Fixtures.core Fixtures.beacon Fixtures.byAccount).
    + vm_compute; reflexivity.
    + vm_compute; reflexivity.
    + vm_compute; reflexivity.
    + left. split; [discriminate | reflexivity].
  - apply (Hrun Fixtures.core Fixtures.beacon Fixtures.noForkVersion).
    + vm_compute; reflexivity.
    + vm_compute; reflexivity.
    + vm_compute; reflexivity.
    + right. split; [reflexivity |]. exists tt.
      exists [("GenesisForkVersion", VBytes [x00; x00; x00; x00])].
      repeat split.
Defined.

(** The accounts "B" and "A" of the wallet "Validators", sent in either
    order, come out as "A", "B". *)
Lemma accounts_sorted_by_name_witness :
  let names := map (fun account : Account bytes => Name account) in
  exists wallet accounts wallet2 accounts2,
    Fixtures.accountsFromPath Fixtures.store "Validators/.*"
      = Ok (wallet, accounts)
    /\ Fixtures.accountsFromPath Fixtures.storeReversed "Validators/.*"
         = Ok (wallet2, accounts2)
    /\ names (Accounts wallet) = ["B"; "A"]
    /\ names (Accounts wallet2) = ["A"; "B"]
    /\ names accounts = ["A"; "B"]
    /\ StronglySorted nameLe accounts
    /\ names accounts2 = names accounts.
Proof.
  intros names.
  exists (Fixtures.wallet Fixtures.validators), (rev Fixtures.validators),
    (Fixtures.wallet (rev Fixtures.validators)), (rev Fixtures.validators).
  assert (H1 : Fixtures.accountsFromPath Fixtures.store "Validators/.*"
               = Ok (Fixtures.wallet Fixtures.validators, rev Fixtures.validators))
    by (vm_compute; reflexivity).
  assert (H2 : Fixtures.accountsFromPath Fixtures.storeReversed "Validators/.*"
               = Ok (Fixtures.wallet (rev Fixtures.validators),
                     rev Fixtures.validators))
    by (vm_compute; reflexivity).
  destruct (@accounts_sorted_by_name
              bytes Fixtures.store Fixtures.paths GoRegexp.lib Fixtures.sorter
              (Fixtures.viperOf [] []) "Validators/.*" _ _
              insertionSort_contract H1) as [Hsorted [_ Horder]].
  split; [exact H1 |]. split; [exact H2 |].
  split; [reflexivity |]. split; [reflexivity |]. split; [reflexivity |].
  split; [exact Hsorted |].
  apply (Horder Fixtures.storeReversed _ _ H2).
  apply Permutation_rev.
Defined.

(** A path that matches no account, and one that matches two. *)
Lemma input_validator_accounts_nonempty_witness :
  Fixtures.run Fixtures.beacon Fixtures.noSuchValidator
  = ([CallWalletAndAccountsFromPath "Validators/C"], Err UnknownValidatorAccount)
  /\ exists d,
       resultOf (Fixtures.run Fixtures.beacon Fixtures.byAccount) = Ok d
       /\ validatorAccounts d <> [].
Proof.
  destruct (@input_validator_accounts_nonempty
              bytes Fixtures.crypto Fixtures.core Fixtures.beacon
              Fixtures.noSuchValidator) as [Hnone _].
  destruct (@input_validator_accounts_nonempty
              bytes Fixtures.crypto Fixtures.core Fixtures.beacon
              Fixtures.byAccount) as [_ Hsome].
  split.
  - apply (Hnone (Fixtures.wallet Fixtures.validators)).
    + vm_compute. discriminate.
    + vm_compute. reflexivity.
  - assert (H : resultOf (Fixtures.run Fixtures.beacon Fixtures.byAccount)
                = Ok (Fixtures.deposit
                        (x00 :: tl (Sha256.digest (Fixtures.key xc0)))
                        32000000000)) by (vm_compute; reflexivity).
    eexists. split; [exact H |]. apply (Hsome _ H).
Defined.

(** C10, where the code departs from the specification: the account part
    [validator1|validator2] matches neither "validator10" nor
    "old-validator2" as a whole, and both accounts are selected, because
    the pattern [^validator1|validator2$] reads as "begins with validator1,
    or ends with validator2". *)
Theorem alternation_escapes_anchors :
  exists wallet accounts r,
    Fixtures.accountsFromPath Fixtures.store "Batch/validator1|validator2"
      = Ok (wallet, accounts)
    /\ map (fun account : Account bytes => Name account) accounts
       = ["old-validator2"; "validator1"; "validator10"; "validator2"]
    /\ accountPattern "validator1|validator2" = "^validator1|validator2$"
    /\ GoRegexp.compile "validator1|validator2" = Some r
    /\ GoRegexp.matchesAll r "validator10" = false
    /\ GoRegexp.matchesAll r "old-validator2" = false.
Proof.
  do 3 eexists.
  split; [vm_compute; reflexivity |].
  split; [vm_compute; reflexivity |].
  split; [reflexivity |].
  split; [vm_compute; reflexivity |].
  split; vm_compute; reflexivity.
Qed.

Example grouped_alternation_is_anchored :
  exists wallet accounts,
    Fixtures.accountsFromPath Fixtures.store "Batch/(validator1|validator2)"
      = Ok (wallet, accounts)
    /\ map (fun account : Account bytes => Name account) accounts
       = ["validator1"; "validator2"].
Proof. do 2 eexists. split; vm_compute; reflexivity. Qed.

Example empty_account_part_selects_all :
  exists wallet accounts,
    Fixtures.accountsFromPath Fixtures.store "Batch" = Ok (wallet, accounts)
    /\ Fixtures.accountsFromPath Fixtures.store "Batch/" = Ok (wallet, accounts)
    /\ map (fun account : Account bytes => Name account) accounts
       = ["old-validator2"; "validator1"; "validator10"; "validator2";
          "validator3"].
Proof. do 2 eexists. split; [| split]; vm_compute; reflexivity. Qed.

Example empty_account_part_skips_name_of_two_lines :
  exists wallet accounts,
    Fixtures.accountsFromPath Fixtures.store "Odd" = Ok (wallet, accounts)
    /\ map (fun account : Account bytes => Name account) (Accounts wallet)
       = [Fixtures.twoLines; "plain"]
    /\ map (fun account : Account bytes => Name account) accounts = ["plain"].
Proof. do 2 eexists. split; [| split]; vm_compute; reflexivity. Qed.

Example invalid_pattern_panics :
  Fixtures.accountsFromPath Fixtures.store "Batch/(" = Abort.
Proof. vm_compute. reflexivity. Qed.

(** ** [strings.Split] *)

Lemma Split_one (c : ascii) (s b : string) :
  Split s c = [b] <-> s = b /\ occurs c s = false.
Proof.
  revert b; induction s as [|x r IH]; intros b; simpl.
  - split.
    + intros H; injection H as <-; auto.
    + intros [<- _]; reflexivity.
  - destruct (Ascii.eqb x c) eqn:E; simpl.
    + split.
      * intros H. injection H as _ H. destruct r; simpl in H; try discriminate.
        destruct (Ascii.eqb a c); try discriminate.
        destruct (Split r c); discriminate.
      * intros [_ H]; discriminate.
    + destruct (Split r c) as [|part parts] eqn:S.
      * exfalso. destruct r; simpl in S; try discriminate.
        destruct (Ascii.eqb a c); try discriminate.
        destruct (Split r c); discriminate.
      * split.
        -- intros H. inversion H; subst.
           destruct (IH part) as [[-> Ho] _]; [reflexivity | auto].
        -- intros [<- Ho]. destruct (IH r) as [_ H].
           specialize (H (conj eq_refl Ho)). congruence.
Qed.

Lemma Split_two (c : ascii) (s a b : string) :
  Split s c = [a; b] <->
  s = (a ++ String c b)%string /\ occurs c a = false /\ occurs c b = false.
Proof.
  revert a; induction s as [|x r IH]; intros a; simpl.
  - split; [discriminate|]. intros [H _]. destruct a; discriminate.
  - destruct (Ascii.eqb x c) eqn:E; simpl.
    + apply Ascii.eqb_eq in E; subst x. split.
      * intros H. injection H as <- H. apply Split_one in H as [-> Ho].
        simpl; auto.
      * intros [H [Ha Hb]]. destruct a as [|y a]; simpl in *.
        -- injection H as ->. f_equal. apply Split_one; auto.
        -- injection H as -> _. rewrite Ascii.eqb_refl in Ha; discriminate.
    + destruct (Split r c) as [|part parts] eqn:S.
      * split; [discriminate|]. intros [H [Ha Hb]].
        destruct a as [|y a]; simpl in *.
        -- injection H as -> _. rewrite Ascii.eqb_refl in E; discriminate.
        -- injection H as -> ->. rewrite E in Ha; simpl in Ha.
           destruct (IH a) as [_ H]. discriminate H; auto.
      * split.
        -- intros H. inversion H; subst.
           destruct (IH part) as [[-> [Ha Hb]] _]; [reflexivity|].
           simpl. rewrite E. auto.
        -- intros [H [Ha Hb]]. destruct a as [|y a]; simpl in *.
           ++ injection H as -> _. rewrite Ascii.eqb_refl in E; discriminate.
           ++ injection H as -> ->. rewrite E in Ha; simpl in Ha.
              destruct (IH a) as [_ H].
              specialize (H (conj eq_refl (conj Ha Hb))). congruence.
Qed.
(** ** [strconv.ParseUint] *)

Lemma parseDigits_Ok_iff {fmt : FmtLib} (s0 : string) (maxVal : N) (s : string) :
  forall n m : N,
    (n <= maxVal)%N ->
    parseDigits s0 maxVal n s = Ok m <->
    allDigits s = true /\
    m = (n * 10 ^ N.of_nat (String.length s) + decimalValue s)%N /\
    (m <= maxVal)%N.
Proof.
  induction s as [|c rest IH]; intros n m Hn; simpl String.length;
    cbn [parseDigits allDigits decimalValue].
  - change (N.of_nat 0) with 0%N. rewrite N.pow_0_r, N.mul_1_r, N.add_0_r.
    split.
    + intros H; injection H as <-; auto.
    + intros [_ [-> _]]; reflexivity.
  - rewrite Nat2N.inj_succ, N.pow_succ_r'.
    assert (Hpow : (1 <= 10 ^ N.of_nat (String.length rest))%N).
    { assert (10 ^ N.of_nat (String.length rest) <> 0)%N
        by (apply N.pow_nonzero; discriminate). lia. }
    unfold isDigit.
    cbv zeta.
    destruct ((48 <=? N_of_ascii c)%N && (N_of_ascii c <=? 57)%N) eqn:D;
      cbv beta iota.
    + destruct (maxVal <? 10 * n + (N_of_ascii c - 48))%N eqn:R.
      * apply N.ltb_lt in R. split; [discriminate|]. intros [_ [-> H]]. nia.
      * apply N.ltb_ge in R. rewrite (IH _ m R). split.
        -- intros [Ha [-> Hm]]. repeat split; auto. nia.
        -- intros [Ha [-> Hm]]. repeat split; auto. nia.
    + split; [discriminate|]. intros [H _]; discriminate.
Qed.

Lemma ParseUint_Ok_iff {fmt : FmtLib} (s : string) (bitSize n : N) :
  ParseUint s bitSize = Ok n <->
  s <> "" /\ allDigits s = true /\ decimalValue s = n /\
  (n <= 2 ^ bitSize - 1)%N.
Proof.
  unfold ParseUint. destruct (s =? "") eqn:E.
  - apply String.eqb_eq in E. split; [discriminate|]. intros [H _]; contradiction.
  - apply String.eqb_neq in E.
    rewrite parseDigits_Ok_iff by apply N.le_0_l.
    rewrite N.mul_0_l, N.add_0_l. intuition congruence.
Qed.

Lemma allDigits_no_colon (s : string) :
  allDigits s = true -> occurs ":" s = false.
Proof.
  induction s as [|c rest IH]; simpl; [reflexivity|].
  intros H. apply andb_true_iff in H as [Hc Hr]. rewrite (IH Hr).
  destruct (Ascii.eqb c ":") eqn:E; [|reflexivity].
  apply Ascii.eqb_eq in E; subst c. discriminate Hc.
Qed.

Lemma uint32_small (n : N) : (n < 2 ^ 32)%N -> uint32 n = n.
Proof. intros H. unfold uint32. apply N.mod_small; assumption. Qed.

(** ** [remotesToEndpoints] *)

Lemma remote_parts_sound {fmt : FmtLib} (remote part0 part1 : string) (n : N) :
  Split remote ":" = [part0; part1] ->
  ParseUint part1 32 = Ok n ->
  remoteOf remote (NewEndpoint part0 (uint32 n)).
Proof.
  rewrite Split_two, ParseUint_Ok_iff.
  change (2 ^ 32 - 1)%N with 4294967295%N.
  intros [-> [H0 H1]] [Hne [Hd [Hv Hn]]].
  assert (Hlt : (n < 2 ^ 32)%N) by (change (2 ^ 32)%N with 4294967296%N; lia).
  rewrite (uint32_small Hlt).
  exists part1; simpl; repeat split; auto.
Qed.

Lemma remote_parts_complete {fmt : FmtLib} (remote : string) (endpoint : Endpoint) :
  remoteOf remote endpoint ->
  exists digits,
    Split remote ":" = [host endpoint; digits] /\
    ParseUint digits 32 = Ok (port endpoint).
Proof.
  intros [digits [-> [H0 [Hne [Hd [Hv Hn]]]]]]. exists digits.
  rewrite Split_two, ParseUint_Ok_iff.
  change (2 ^ 32 - 1)%N with 4294967295%N.
  change (2 ^ 32)%N with 4294967296%N in Hn.
  repeat split; auto using allDigits_no_colon. lia.
Qed.

Lemma remotesToEndpointsFrom_Ok_iff {fmt : FmtLib} (remotes : list string) :
  forall endpoints result : list Endpoint,
    remotesToEndpointsFrom endpoints remotes = Ok result <->
    exists added, result = endpoints ++ added /\ Forall2 remoteOf remotes added.
Proof.
  induction remotes as [|remote rest IH]; intros endpoints result;
    cbn [remotesToEndpointsFrom].
  - split.
    + intros H; injection H as <-. exists []. rewrite app_nil_r. auto.
    + intros [added [-> H]]. inversion H. rewrite app_nil_r. reflexivity.
  - split.
    + destruct (Split remote ":") as [|part0 [|part1 [|part2 parts]]] eqn:S;
        try discriminate.
      destruct (ParseUint part1 32) as [n| |] eqn:P; simpl; try discriminate.
      intros H. apply IH in H as [added [-> H]].
      exists (NewEndpoint part0 (uint32 n) :: added).
      rewrite <- app_assoc. split; [reflexivity|].
      constructor; [|assumption]. eapply remote_parts_sound; eauto.
    + intros [added [-> H]]. inversion H as [|r e rs es Hr Hrest]; subst.
      destruct (remote_parts_complete Hr) as [digits [-> P]].
      rewrite P; simpl. rewrite uint32_small by (destruct Hr as [? ?]; tauto).
      apply IH. exists es. rewrite <- app_assoc. destruct e; auto.
Qed.

(** X1. [remotesToEndpoints] succeeds exactly on the lists of remotes of
    the form [host:port], where the host has no colon and the port is a
    non-empty decimal numeral below 2^32; the endpoints are then the hosts
    and the values of the ports, one for each remote and in the order of
    the remotes. *)
Theorem remotesToEndpoints_Ok_iff {fmt : FmtLib}
    (remotes : list string) (endpoints : list Endpoint) :
  remotesToEndpoints remotes = Ok endpoints <->
  Forall2 remoteOf remotes endpoints.
Proof.
  unfold remotesToEndpoints. rewrite remotesToEndpointsFrom_Ok_iff. split.
  - intros [added [-> H]]; exact H.
  - intros H; exists endpoints; auto.
Qed.

Lemma remotesToEndpointsFrom_app {fmt : FmtLib}
    (good : list string) (added : list Endpoint) (remotes : list string) :
  Forall2 remoteOf good added ->
  forall endpoints,
    remotesToEndpointsFrom endpoints (good ++ remotes)
    = remotesToEndpointsFrom (endpoints ++ added) remotes.
Proof.
  induction 1 as [|remote e good added Hr _ IH]; intros endpoints.
  - rewrite app_nil_r; reflexivity.
  - cbn [app remotesToEndpointsFrom].
    destruct (remote_parts_complete Hr) as [digits [-> P]].
    rewrite P; simpl. rewrite uint32_small by (destruct Hr as [? ?]; tauto).
    rewrite IH, <- app_assoc. destruct e; reflexivity.
Qed.

Lemma Split_length (c : ascii) (s : string) :
  List.length (Split s c) = S (countOf c s).
Proof.
  induction s as [|x r IH]; simpl; [reflexivity|].
  destruct (Ascii.eqb x c); simpl.
  - rewrite IH. reflexivity.
  - destruct (Split r c) as [|part parts]; simpl in *; [discriminate | exact IH].
Qed.

(** The outcome of [strconv.ParseUint]: a range error as soon as the digits
    the argument begins with exceed the largest value, otherwise a syntax
    error if the argument is empty or has another character, otherwise the
    value. *)
Lemma parseDigits_cases {fmt : FmtLib} (s0 : string) (maxVal : N) (s : string) :
  forall n : N,
    (n <= maxVal)%N ->
    parseDigits s0 maxVal n s =
    if (maxVal <? n * 10 ^ N.of_nat (String.length (digitPrefix s))
                  + decimalValue (digitPrefix s))%N
    then Err (rangeError "ParseUint" s0)
    else if allDigits s
         then Ok (n * 10 ^ N.of_nat (String.length s) + decimalValue s)%N
         else Err (syntaxError "ParseUint" s0).
Proof.
  induction s as [|c rest IH]; intros n Hn;
    cbn [parseDigits allDigits digitPrefix decimalValue].
  - simpl String.length. change (N.of_nat 0) with 0%N.
    rewrite N.pow_0_r, N.mul_1_r, N.add_0_r.
    destruct (N.ltb_spec maxVal n); [lia | reflexivity].
  - cbv zeta. unfold isDigit.
    destruct ((48 <=? N_of_ascii c)%N && (N_of_ascii c <=? 57)%N) eqn:D;
      cbv beta iota.
    + cbn [decimalValue String.length]. rewrite !Nat2N.inj_succ, !N.pow_succ_r'.
      assert (Hpow : (1 <= 10 ^ N.of_nat (String.length (digitPrefix rest)))%N).
      { assert (10 ^ N.of_nat (String.length (digitPrefix rest)) <> 0)%N
          by (apply N.pow_nonzero; discriminate). lia. }
      destruct (maxVal <? 10 * n + (N_of_ascii c - 48))%N eqn:R.
      * apply N.ltb_lt in R.
        destruct (N.ltb_spec maxVal
                    (n * (10 * 10 ^ N.of_nat (String.length (digitPrefix rest)))
                     + ((N_of_ascii c - 48)
                        * 10 ^ N.of_nat (String.length (digitPrefix rest))
                        + decimalValue (digitPrefix rest))));
          [reflexivity | nia].
      * apply N.ltb_ge in R. rewrite (IH _ R).
        replace ((10 * n + (N_of_ascii c - 48))
                 * 10 ^ N.of_nat (String.length (digitPrefix rest))
                 + decimalValue (digitPrefix rest))%N
          with (n * (10 * 10 ^ N.of_nat (String.length (digitPrefix rest)))
                + ((N_of_ascii c - 48)
                   * 10 ^ N.of_nat (String.length (digitPrefix rest))
                   + decimalValue (digitPrefix rest)))%N by lia.
        replace ((10 * n + (N_of_ascii c - 48))
                 * 10 ^ N.of_nat (String.length rest) + decimalValue rest)%N
          with (n * (10 * 10 ^ N.of_nat (String.length rest))
                + ((N_of_ascii c - 48) * 10 ^ N.of_nat (String.length rest)
                   + decimalValue rest))%N by lia.
        reflexivity.
    + simpl String.length. change (N.of_nat 0) with 0%N.
      rewrite N.pow_0_r, N.mul_1_r. cbn [decimalValue]. rewrite N.add_0_r.
      destruct (N.ltb_spec maxVal n); [lia | reflexivity].
Qed.

Lemma ParseUint_cases {fmt : FmtLib} (s : string) (bitSize : N) :
  ParseUint s bitSize =
  if s =? "" then Err (syntaxError "ParseUint" s)
  else if (2 ^ bitSize - 1 <? decimalValue (digitPrefix s))%N
       then Err (rangeError "ParseUint" s)
       else if allDigits s then Ok (decimalValue s)
            else Err (syntaxError "ParseUint" s).
Proof.
  unfold ParseUint. destruct (s =? ""); [reflexivity|].
  rewrite parseDigits_cases by apply N.le_0_l.
  rewrite !N.mul_0_l, !N.add_0_l. reflexivity.
Qed.
(** X2. [remotesToEndpoints] stops at the first remote that is not of the
    form [host:port], after the remotes before it have been accepted, and
    the remotes after it have no part in the result.  A remote without a
    colon or with more than one is an invalid remote.  A remote
    [host:port] with one colon has an invalid port: the error is the range
    error of [strconv.ParseUint] when the digits the port begins with
    amount to 2^32 or more, and its syntax error when the port is empty or
    has a character that is not a digit.  Every remote that is not of the
    form [host:port] is one of these. *)
Theorem remotesToEndpoints_first_invalid {fmt : FmtLib}
    (good : list string) (endpoints : list Endpoint) (bad : string)
    (rest : list string) :
  Forall2 remoteOf good endpoints ->
  (countOf ":" bad <> 1 ->
   remotesToEndpoints (good ++ bad :: rest)
   = Err (New ("invalid remote " ++ Quote bad)%string)) /\
  (forall h p : string,
     bad = (h ++ ":" ++ p)%string ->
     occurs ":" h = false ->
     occurs ":" p = false ->
     ((2 ^ 32 <= decimalValue (digitPrefix p))%N ->
      remotesToEndpoints (good ++ bad :: rest)
      = Err (Wrap (rangeError "ParseUint" p)
               ("invalid port in remote " ++ Quote bad)%string)) /\
     ((decimalValue (digitPrefix p) < 2 ^ 32)%N ->
      p = "" \/ allDigits p = false ->
      remotesToEndpoints (good ++ bad :: rest)
      = Err (Wrap (syntaxError "ParseUint" p)
               ("invalid port in remote " ++ Quote bad)%string))) /\
  ((forall endpoint, ~ remoteOf bad endpoint) ->
   countOf ":" bad <> 1 \/
   exists h p : string,
     bad = (h ++ ":" ++ p)%string /\
     occurs ":" h = false /\
     occurs ":" p = false /\
     ((2 ^ 32 <= decimalValue (digitPrefix p))%N \/
      (decimalValue (digitPrefix p) < 2 ^ 32)%N /\
      (p = "" \/ allDigits p = false))).
Proof.
  intros Hgood. unfold remotesToEndpoints.
  rewrite (remotesToEndpointsFrom_app _ Hgood). cbn [remotesToEndpointsFrom app].
  change (2 ^ 32)%N with 4294967296%N.
  split; [| split].
  - intros Hcount. pose proof (Split_length ":" bad) as Hlen.
    destruct (Split bad ":") as [|part0 [|part1 [|part2 parts]]];
      try reflexivity.
    simpl in Hlen. congruence.
  - intros h p -> Hh Hp.
    assert (S : Split (h ++ ":" ++ p) ":" = [h; p])
      by (apply Split_two; auto).
    rewrite S, ParseUint_cases. change (2 ^ 32 - 1)%N with 4294967295%N.
    split.
    + intros Hrange.
      destruct (p =? "") eqn:E.
      * apply String.eqb_eq in E; subst p. simpl in Hrange. lia.
      * destruct (N.ltb_spec 4294967295 (decimalValue (digitPrefix p)));
          [reflexivity | lia].
    + intros Hvalue Hsyntax.
      destruct (p =? "") eqn:E.
      * apply String.eqb_eq in E; subst p. reflexivity.
      * apply String.eqb_neq in E.
        destruct (N.ltb_spec 4294967295 (decimalValue (digitPrefix p))); [lia|].
        destruct Hsyntax as [-> | ->]; [contradiction | reflexivity].
  - intros Hbad.
    destruct (Nat.eq_dec (countOf ":" bad) 1) as [Hone | Hcount]; [| left; exact Hcount].
    right. pose proof (Split_length ":" bad) as Hlen. rewrite Hone in Hlen.
    destruct (Split bad ":") as [|h [|p [|part2 parts]]] eqn:S; try discriminate.
    pose proof (proj1 (Split_two _ _ _ _) S) as [-> [Hh Hp]].
    exists h, p. repeat split; auto.
    destruct (N.lt_ge_cases (decimalValue (digitPrefix p)) 4294967296)
      as [Hvalue | Hrange]; [| left; exact Hrange].
    right. split; [exact Hvalue |].
    destruct (p =? "") eqn:E; [left; apply String.eqb_eq; exact E |].
    destruct (allDigits p) eqn:D; [| right; reflexivity].
    exfalso. apply (Hbad (NewEndpoint h (uint32 (decimalValue p)))).
    eapply remote_parts_sound; [exact S |].
    rewrite ParseUint_cases, E, D. change (2 ^ 32 - 1)%N with 4294967295%N.
    assert (digitPrefix p = p) as ->.
    { clear - D. induction p as [|c r IH]; simpl in *; [reflexivity|].
      apply andb_true_iff in D as [Dc Dr]. rewrite Dc, (IH Dr). reflexivity. }
    destruct (N.ltb_spec 4294967295 (decimalValue p)); [| reflexivity].
    assert (digitPrefix p = p) as Hp'.
    { clear - D. induction p as [|c r IH]; simpl in *; [reflexivity|].
      apply andb_true_iff in D as [Dc Dr]. rewrite Dc, (IH Dr). reflexivity. }
    rewrite Hp' in Hvalue. lia.
Qed.

(** A remote that is in order, and an address of IPv6 after it. *)
Lemma remoteOf_signer : remoteOf "signer:9091" (NewEndpoint "signer" 9091).
Proof.
  exists "9091". repeat split; try reflexivity; discriminate.
Qed.

Lemma remotesToEndpoints_first_invalid_witness :
  remotesToEndpoints (fmt := Examples.fmt)
    (["signer:9091"] ++ "[::1]:9091" :: ["other:1"])
  = Err (New ("invalid remote " ++ Quote (FmtLib := Examples.fmt) "[::1]:9091")%string).
Proof.
  apply (@remotesToEndpoints_first_invalid Examples.fmt ["signer:9091"]
           [NewEndpoint "signer" 9091] "[::1]:9091" ["other:1"]).
  - constructor; [exact remoteOf_signer | constructor].
  - vm_compute. discriminate.
Defined.

(** Remotes that are accepted: a host may be empty and a port may have
    leading zeros; the largest port is 4294967295. *)
Example remotes_accepted :
  remotesToEndpoints (fmt := Examples.fmt)
    ["signer:9091"; ":80"; "host:0080"; "host:4294967295"]
  = Ok [NewEndpoint "signer" 9091; NewEndpoint "" 80; NewEndpoint "host" 80;
        NewEndpoint "host" 4294967295].
Proof. vm_compute. reflexivity. Qed.

(** Remotes that are refused: no port, an empty port, a sign, a port of
    2^32, and an address of IPv6. *)
Example remotes_refused :
  remotesToEndpoints (fmt := Examples.fmt) ["localhost"]
  = Err (New ("invalid remote " ++ Quote (FmtLib := Examples.fmt) "localhost")%string)
  /\ remotesToEndpoints (fmt := Examples.fmt) ["host:"]
     = Err (Wrap (syntaxError (fmt := Examples.fmt) "ParseUint" "")
              ("invalid port in remote " ++ Quote (FmtLib := Examples.fmt) "host:")%string)
  /\ remotesToEndpoints (fmt := Examples.fmt) ["host:+80"]
     = Err (Wrap (syntaxError (fmt := Examples.fmt) "ParseUint" "+80")
              ("invalid port in remote " ++ Quote (FmtLib := Examples.fmt) "host:+80")%string)
  /\ remotesToEndpoints (fmt := Examples.fmt) ["host:4294967296"]
     = Err (Wrap (rangeError (fmt := Examples.fmt) "ParseUint" "4294967296")
              ("invalid port in remote "
               ++ Quote (FmtLib := Examples.fmt) "host:4294967296")%string)
  /\ remotesToEndpoints (fmt := Examples.fmt) ["[::1]:9091"]
     = Err (New ("invalid remote " ++ Quote (FmtLib := Examples.fmt) "[::1]:9091")%string).
Proof. repeat split; vm_compute; reflexivity. Qed.

(** ** [strings.Contains] and the text of an error *)

Lemma prefix_app (p a b : string) :
  String.prefix p a = true -> String.prefix p (a ++ b)%string = true.
Proof.
  revert a; induction p as [|c p IH]; intros a H.
  - destruct (a ++ b)%string; reflexivity.
  - destruct a as [|d a]; simpl in *; [discriminate|].
    destruct (ascii_dec c d); [auto | discriminate].
Qed.

Lemma Contains_unfold (s p : string) :
  Contains s p =
  HasPrefix s p ||
  match s with
  | EmptyString => false
  | String _ rest => Contains rest p
  end.
Proof. destruct s; reflexivity. Qed.

Lemma Contains_app_l (s t p : string) :
  Contains s p = true -> Contains (s ++ t)%string p = true.
Proof.
  induction s as [|c s IH]; rewrite Contains_unfold; unfold HasPrefix; intros H.
  - rewrite orb_false_r in H. rewrite Contains_unfold. unfold HasPrefix.
    apply orb_true_iff; left. exact (prefix_app _ _ t H).
  - change (String c s ++ t)%string with (String c (s ++ t)%string).
    rewrite Contains_unfold. unfold HasPrefix.
    apply orb_true_iff in H as [H|H]; apply orb_true_iff.
    + left. exact (prefix_app _ _ t H).
    + right. exact (IH H).
Qed.

Lemma Contains_app_r (s t p : string) :
  Contains t p = true -> Contains (s ++ t)%string p = true.
Proof.
  intros H. induction s as [|c s IH]; [exact H|].
  change (String c s ++ t)%string with (String c (s ++ t)%string).
  rewrite Contains_unfold, IH. apply orb_true_r.
Qed.

Lemma mentions_Contains (err : error) (phrase : string) :
  mentions err phrase = true -> Contains (Error err) phrase = true.
Proof.
  induction err as [msg|cause IH msg| |]; cbn [mentions Error]; try discriminate.
  - intros H; exact H.
  - intros H. apply orb_true_iff in H as [H|H].
    + apply Contains_app_l; assumption.
    + apply Contains_app_r, Contains_app_r; auto.
Qed.

(** ** [walletFromPath] *)

Lemma remotesToEndpoints_single {fmt : FmtLib} (remote : string)
    (endpoints : list Endpoint) :
  remotesToEndpoints [remote] = Ok endpoints <->
  exists endpoint, endpoints = [endpoint] /\ remoteOf remote endpoint.
Proof.
  unfold remotesToEndpoints. rewrite remotesToEndpointsFrom_Ok_iff. split.
  - intros [added [-> H]]. inversion H as [|r e rs es Hr Hrest]; subst.
    inversion Hrest; subst. exists e. split; [reflexivity | assumption].
  - intros [e [-> H]]. exists [e]. split; [reflexivity|].
    constructor; [assumption | constructor].
Qed.

Section WalletFromPath.
Context (PublicKey : Type) {backends : Backends PublicKey} {paths : PathLib}
  {fmt : FmtLib}.

(** X3. With a remote signer configured, [walletFromPath] returns a wallet
    exactly when the path parses, the client certificate and key are
    configured, the credentials are built, "remote" is [host:port] for one
    endpoint, and the signer opens the wallet of the path at this single
    endpoint. *)
Theorem walletFromPath_remote_Ok_iff (viper : Viper) (path : string)
    (wallet : Wallet PublicKey) :
  GetString viper "remote" <> "" ->
  Cmd.walletFromPath viper path = Ok wallet <->
  exists names credentials endpoint,
    WalletAndAccountNames path = Ok names /\
    GetString viper "client-cert" <> "" /\
    GetString viper "client-key" <> "" /\
    ComposeCredentials (GetString viper "client-cert")
      (GetString viper "client-key") (GetString viper "server-ca-cert")
      = Ok credentials /\
    remoteOf (GetString viper "remote") endpoint /\
    DirkOpenWallet (fst names) credentials [endpoint] = Ok wallet.
Proof.
  intros Hremote. apply String.eqb_neq in Hremote.
  unfold Cmd.walletFromPath. split.
  - destruct (WalletAndAccountNames path) as [names| |]; simpl; try discriminate.
    rewrite Hremote; simpl.
    destruct (GetString viper "client-cert" =? "") eqn:Hcert; [discriminate|].
    destruct (GetString viper "client-key" =? "") eqn:Hkey; [discriminate|].
    destruct (ComposeCredentials _ _ _) as [credentials| |] eqn:Hc; simpl;
      try discriminate.
    destruct (remotesToEndpoints [GetString viper "remote"])
      as [endpoints| |] eqn:He; simpl; try discriminate.
    apply remotesToEndpoints_single in He as [endpoint [-> He]].
    intros H. exists names, credentials, endpoint.
    apply String.eqb_neq in Hcert, Hkey. auto 10.
  - intros [names [credentials [endpoint [Hn [Hcert [Hkey [Hc [He H]]]]]]]].
    rewrite Hn; simpl. rewrite Hremote; simpl.
    apply String.eqb_neq in Hcert, Hkey. rewrite Hcert, Hkey, Hc; simpl.
    assert (E : remotesToEndpoints [GetString viper "remote"] = Ok [endpoint])
      by (apply remotesToEndpoints_single; eauto).
    rewrite E; simpl. exact H.
Qed.

(** X5. Without a remote signer, a failure of the store whose chain of
    messages mentions "failed to decrypt wallet" is reported by
    [walletFromPath] as an incorrect store passphrase, and the error of the
    store is dropped. *)
Theorem decrypt_failure_is_incorrect_passphrase (viper : Viper) (path : string)
    (names : string * string) (err : error) :
  GetString viper "remote" = "" ->
  WalletAndAccountNames path = Ok names ->
  OpenWallet (fst names) = Err err ->
  mentions err "failed to decrypt wallet" = true ->
  Cmd.walletFromPath viper path = Err (New "Incorrect store passphrase").
Proof.
  intros Hremote Hn Ho Hm. unfold Cmd.walletFromPath.
  rewrite Hn; simpl. rewrite Hremote; simpl. rewrite Ho.
  rewrite (mentions_Contains _ _ Hm). reflexivity.
Qed.

End WalletFromPath.

(** X4. [walletFromPath] uses one side only.  Without a remote signer the
    outcome is that of the local store on the wallet of the path: the
    signer, the credentials and the rest of the configuration (the client
    certificate and key among it) have no part in it.  With a remote signer
    the outcome is determined by the signer and by the four settings
    "remote", "client-cert", "client-key" and "server-ca-cert": the local
    store has no part in it. *)
Theorem walletFromPath_one_backend (PublicKey : Type) (paths : PathLib)
    (fmt : FmtLib) (viper1 viper2 : Viper) (path : string) :
  (GetString viper1 "remote" = "" ->
   GetString viper2 "remote" = "" ->
   forall (C1 C2 : Type) compose1 compose2 dirk1 dirk2 open,
     Cmd.walletFromPath
       (backends := @Build_Backends PublicKey C1 compose1 dirk1 open) viper1 path
     = Cmd.walletFromPath
         (backends := @Build_Backends PublicKey C2 compose2 dirk2 open) viper2 path) /\
  (GetString viper1 "remote" <> "" ->
   GetString viper2 "remote" = GetString viper1 "remote" ->
   GetString viper2 "client-cert" = GetString viper1 "client-cert" ->
   GetString viper2 "client-key" = GetString viper1 "client-key" ->
   GetString viper2 "server-ca-cert" = GetString viper1 "server-ca-cert" ->
   forall (C : Type) compose dirk open1 open2,
     Cmd.walletFromPath
       (backends := @Build_Backends PublicKey C compose dirk open1) viper1 path
     = Cmd.walletFromPath
         (backends := @Build_Backends PublicKey C compose dirk open2) viper2 path).
Proof.
  split.
  - intros H1 H2; intros. unfold Cmd.walletFromPath. rewrite H1, H2. reflexivity.
  - intros H1 Hr Hcert Hkey Hca; intros. unfold Cmd.walletFromPath.
    rewrite Hr, Hcert, Hkey, Hca.
    apply String.eqb_neq in H1. rewrite H1. reflexivity.
Qed.

(** The wallet "Cold" of the local store, with and without a client
    certificate and key in the configuration, and with another signer. *)
Lemma walletFromPath_one_backend_witness :
  Examples.walletFromPath (Fixtures.viperOf [] []) "Local/Cold"
  = Cmd.walletFromPath
      (backends := @Build_Backends bytes unit
                     (fun _ _ _ => Err (New "no credentials"))
                     (fun _ _ _ => Err (New "no signer"))
                     (OpenWallet (Backends := Examples.backends)))
      (paths := Fixtures.paths) (fmt := Examples.fmt)
      (Fixtures.viperOf [("client-cert", "client.crt"); ("client-key", "client.key")] [])
      "Local/Cold".
Proof.
  apply (proj1 (@walletFromPath_one_backend bytes Fixtures.paths Examples.fmt
                  (Fixtures.viperOf [] [])
                  (Fixtures.viperOf [("client-cert", "client.crt");
                                     ("client-key", "client.key")] [])
                  "Local/Cold")
           eq_refl eq_refl).
Defined.

(** The wallet "Remote" at the signer [signer:9091]. *)
Lemma walletFromPath_remote_Ok_iff_witness :
  Examples.walletFromPath Examples.viaSigner "Remote/Signing"
  = Ok Examples.remoteWallet <->
  exists names credentials endpoint,
    Fixtures.walletAndAccountNames "Remote/Signing" = Ok names /\
    GetString Examples.viaSigner "client-cert" <> "" /\
    GetString Examples.viaSigner "client-key" <> "" /\
    ComposeCredentials (Backends := Examples.backends)
      (GetString Examples.viaSigner "client-cert")
      (GetString Examples.viaSigner "client-key")
      (GetString Examples.viaSigner "server-ca-cert") = Ok credentials /\
    remoteOf (GetString Examples.viaSigner "remote") endpoint /\
    DirkOpenWallet (Backends := Examples.backends) (fst names) credentials
      [endpoint] = Ok Examples.remoteWallet.
Proof.
  apply (@walletFromPath_remote_Ok_iff bytes Examples.backends Fixtures.paths
           Examples.fmt Examples.viaSigner "Remote/Signing" Examples.remoteWallet).
  vm_compute. discriminate.
Defined.

(** The wallet "Sealed" of the local store. *)
Lemma decrypt_failure_is_incorrect_passphrase_witness :
  Examples.walletFromPath (Fixtures.viperOf [] []) "Sealed/Any"
  = Err (New "Incorrect store passphrase").
Proof.
  apply (@decrypt_failure_is_incorrect_passphrase bytes Examples.backends
           Fixtures.paths Examples.fmt (Fixtures.viperOf [] []) "Sealed/Any"
           ("Sealed", "Any") Examples.decryptFailure); reflexivity.
Defined.

(** The local store is used when no remote signer is configured, and the
    errors of the store other than a failure to decrypt stay as they are. *)
Example wallets_of_the_local_store :
  Examples.walletFromPath (Fixtures.viperOf [] []) "Local/Cold"
  = Ok Examples.localWallet
  /\ Examples.walletFromPath (Fixtures.viperOf [] []) "Remote/Signing"
     = Err (New "wallet not found")
  /\ Examples.walletFromPath Examples.viaSigner "Local/Cold"
     = Err (New "wallet not found").
Proof. repeat split; vm_compute; reflexivity. Qed.

(** ** [connect] *)

(** X6. After [connect] the process holds a connection exactly when
    [connect] returned nil.  A connection that is held is kept, and once
    [connect] has returned nil every later call returns nil and keeps the
    same connection, whatever the configuration is by then. *)
Theorem connect_keeps_connection (grpc : GrpcLib) (viper : Viper)
    (eth2GRPCConn : option ClientConn) :
  (snd (connect viper eth2GRPCConn) = Ok tt
   <-> fst (connect viper eth2GRPCConn) <> None) /\
  (eth2GRPCConn <> None -> fst (connect viper eth2GRPCConn) = eth2GRPCConn) /\
  (snd (connect viper eth2GRPCConn) = Ok tt ->
   forall later : Viper,
     connect later (fst (connect viper eth2GRPCConn))
     = (fst (connect viper eth2GRPCConn), Ok tt)).
Proof.
  unfold connect. destruct eth2GRPCConn as [conn|]; simpl.
  - repeat split; auto; discriminate.
  - destruct (GetString viper "connection" =? "") eqn:E; simpl.
    + repeat split; try discriminate; intros H; contradiction.
    + rewrite E. destruct (DialContext (GetString viper "connection")); simpl;
        repeat split; auto; try discriminate; intros H; contradiction.
Qed.

(** A connection that is made is kept when the address changes; a node
    that is not reached leaves the process without a connection, and a
    later call dials again. *)
Example connect_twice :
  connect (grpc := Examples.grpc) Examples.toLocalNode None
  = (Some "localhost:4000", Ok tt)
  /\ connect (grpc := Examples.grpc) Examples.toOtherNode (Some "localhost:4000")
     = (Some "localhost:4000", Ok tt)
  /\ connect (grpc := Examples.grpc) Examples.toOtherNode None
     = (None, Err (New "context deadline exceeded"))
  /\ connect (grpc := Examples.grpc) (Fixtures.viperOf [] []) None
     = (None, Err (New "no connection")).
Proof. repeat split; vm_compute; reflexivity. Qed.

(** ** [walletAndAccountFromPath] *)

(** X7. When [walletAndAccountFromPath] returns a wallet and an account,
    the wallet is the one of the path, the account part of the path is not
    empty, and the account is what the wallet gives for this name.  The
    wallet has been unlocked for the look-up only if it is hierarchical
    deterministic, the name starts with "m/" and a wallet passphrase is
    configured; it has then been locked again, without an error. *)
Theorem walletAndAccountFromPath_postcondition (PublicKey : Type)
    (store : WalletStore PublicKey) (paths : PathLib)
    (viper : Viper) (path : string)
    (wallet : Wallet PublicKey) (account : Account PublicKey) :
  walletAndAccountFromPath viper path = Ok (wallet, account) ->
  walletFromPath viper path = Ok wallet /\
  exists names provider unlocked,
    WalletAndAccountNames path = Ok names /\
    snd names <> "" /\
    AccountByName wallet = Some provider /\
    provider unlocked (snd names) = Ok account /\
    (unlocked = true ->
     WalletType wallet = "hierarchical deterministic" /\
     HasPrefix (snd names) "m/" = true /\
     GetString viper "wallet-passphrase" <> "" /\
     exists locker,
       Locker wallet = Some locker /\
       Unlock locker (bytesOfString (GetString viper "wallet-passphrase")) = None /\
       Lock locker = None).
Proof.
  unfold walletAndAccountFromPath.
  destruct (walletFromPath viper path) as [w| |]; simpl; try discriminate.
  destruct (WalletAndAccountNames path) as [names| |]; simpl; try discriminate.
  destruct (snd names =? "") eqn:Hname; [discriminate|].
  apply String.eqb_neq in Hname.
  assert (Hlookup : forall unlocked,
             accountByName w unlocked (snd names) = Ok (wallet, account) ->
             w = wallet /\
             exists provider,
               AccountByName wallet = Some provider /\
               provider unlocked (snd names) = Ok account).
  { intros unlocked. unfold accountByName.
    destruct (AccountByName w) as [provider|] eqn:Hp; [|discriminate].
    destruct (provider unlocked (snd names)) as [a| |] eqn:Ha; simpl;
      try discriminate.
    intros H; injection H as <- <-. eauto. }
  destruct ((WalletType w =? "hierarchical deterministic")
            && HasPrefix (snd names) "m/") eqn:Hhd.
  - apply andb_true_iff in Hhd as [Htype Hprefix].
    apply String.eqb_eq in Htype.
    unfold getWalletPassphrase.
    destruct (GetString viper "wallet-passphrase" =? "") eqn:Hpass;
      [discriminate|].
    apply String.eqb_neq in Hpass.
    destruct (Locker w) as [locker|] eqn:Hlocker.
    + destruct (Unlock locker _) eqn:Hunlock; [discriminate|].
      unfold relockAccount. destruct (Lock locker) eqn:Hlock; [discriminate|].
      intros H. apply Hlookup in H as [<- [provider [Hp Ha]]].
      split; [reflexivity|]. exists names, provider, true.
      repeat split; auto. exists locker; auto.
    + intros H. apply Hlookup in H as [<- [provider [Hp Ha]]].
      split; [reflexivity|]. exists names, provider, false.
      repeat split; auto; discriminate.
  - intros H. apply Hlookup in H as [<- [provider [Hp Ha]]].
    split; [reflexivity|]. exists names, provider, false.
    repeat split; auto; discriminate.
Qed.

(** An account derived at a path of a hierarchical deterministic wallet. *)
Lemma walletAndAccountFromPath_postcondition_witness :
  walletFromPath (WalletStore := Examples.hdStore) Examples.withPassphrase
    "HD/m/12381/3600/0/0" = Ok Examples.hdWallet /\
  exists names provider unlocked,
    WalletAndAccountNames (PathLib := Fixtures.paths) "HD/m/12381/3600/0/0"
      = Ok names /\
    snd names <> "" /\
    AccountByName Examples.hdWallet = Some provider /\
    provider unlocked (snd names)
      = Ok (Fixtures.account "m/12381/3600/0/0" None (Some (Fixtures.key x53))) /\
    (unlocked = true ->
     WalletType Examples.hdWallet = "hierarchical deterministic" /\
     HasPrefix (snd names) "m/" = true /\
     GetString Examples.withPassphrase "wallet-passphrase" <> "" /\
     exists locker,
       Locker Examples.hdWallet = Some locker /\
       Unlock locker
         (bytesOfString (GetString Examples.withPassphrase "wallet-passphrase"))
         = None /\
       Lock locker = None).
Proof.
  apply (@walletAndAccountFromPath_postcondition bytes Examples.hdStore
           Fixtures.paths Examples.withPassphrase "HD/m/12381/3600/0/0"
           Examples.hdWallet
           (Fixtures.account "m/12381/3600/0/0" None (Some (Fixtures.key x53)))).
  vm_compute. reflexivity.
Defined.

(** ** [hex.DecodeString] and [strings.TrimPrefix] *)

Lemma DecodeString_Ok_inv (s : string) :
  (forall decoded, DecodeString s = Ok decoded ->
     String.length s = 2 * List.length decoded /\ allHex s = true) /\
  (forall c decoded, DecodeString (String c s) = Ok decoded ->
     S (String.length s) = 2 * List.length decoded /\
     allHex (String c s) = true).
Proof.
  induction s as [|q rest [IH0 IH1]].
  - split.
    + intros decoded H; injection H as <-; auto.
    + intros c decoded. simpl. destruct (fromHexChar c); discriminate.
  - split.
    + intros decoded H. apply IH1 in H. exact H.
    + intros c decoded. cbn [DecodeString allHex]. unfold isHexDigit.
      destruct (fromHexChar c) as [a|]; [|discriminate].
      destruct (fromHexChar q) as [b|]; [|discriminate].
      destruct (DecodeString rest) as [tail| |] eqn:D; try discriminate.
      intros H; injection H as <-.
      destruct (IH0 tail eq_refl) as [Hlen Hhex].
      simpl. rewrite Hhex. split; [lia | reflexivity].
Qed.

Lemma substring_all (s : string) : substring 0 (String.length s) s = s.
Proof. induction s as [|c s IH]; simpl; [reflexivity | rewrite IH; reflexivity]. Qed.

Lemma TrimPrefix_0x (h : string) : TrimPrefix ("0x" ++ h) "0x" = h.
Proof.
  unfold TrimPrefix, HasPrefix. simpl.
  replace (prefix "" h) with true by (destruct h; reflexivity).
  rewrite Nat.sub_0_r. apply substring_all.
Qed.

Lemma TrimPrefix_none (h prefix : string) :
  HasPrefix h prefix = false -> TrimPrefix h prefix = h.
Proof. intros H. unfold TrimPrefix. rewrite H. reflexivity. Qed.

Lemma GetString_SetString (viper : Viper) (key value : string) :
  GetString (SetString viper key value) key = value.
Proof. simpl. rewrite String.eqb_refl. reflexivity. Qed.

(** ** More on [input] *)

Ltac prefix_of_length :=
  first [exists 0; reflexivity | exists 1; reflexivity | exists 2; reflexivity
        | exists 3; reflexivity | exists 4; reflexivity].

Section MoreInputProperties.
Context (PublicKey : Type) {crypto : Crypto PublicKey} {core : Core PublicKey}
  {beacon : BeaconNode}.

Lemma input_log (viper : Viper) :
  logOf (input viper) =
  logOf (inputValidatorAccounts viper) ++
  match resultOf (inputValidatorAccounts viper) with
  | Ok _ =>
      logOf (inputWithdrawalCredentials viper) ++
      match resultOf (inputWithdrawalCredentials viper) with
      | Ok _ =>
          logOf (inputAmount viper) ++
          match resultOf (inputAmount viper) with
          | Ok _ => logOf (inputForkVersion viper)
          | _ => []
          end
      | _ => []
      end
  | _ => []
  end.
Proof.
  unfold input. rewrite bind_log.
  destruct (resultOf (inputValidatorAccounts viper)); try (rewrite app_nil_r; reflexivity).
  f_equal. rewrite bind_log.
  destruct (resultOf (inputWithdrawalCredentials viper)); try (rewrite app_nil_r; reflexivity).
  f_equal. rewrite bind_log.
  destruct (resultOf (inputAmount viper)); try (rewrite app_nil_r; reflexivity).
  f_equal. rewrite bind_log.
  destruct (resultOf (inputForkVersion viper)); try reflexivity.
  rewrite inputDomain_bind_log. apply app_nil_r.
Qed.

Lemma inputValidatorAccounts_cases (viper : Viper) :
  (GetString viper "validatoraccount" = "" /\
   inputValidatorAccounts viper = ([], Err (New "validator account is required")))
  \/ (GetString viper "validatoraccount" <> "" /\
      logOf (inputValidatorAccounts viper)
      = [CallWalletAndAccountsFromPath (GetString viper "validatoraccount")] /\
      (resultOf (inputValidatorAccounts viper)
       = Err (New "failed to obtain validator account")
       \/ resultOf (inputValidatorAccounts viper)
          = Err (New "unknown validator account")
       \/ resultOf (inputValidatorAccounts viper) = Abort
       \/ exists accounts, resultOf (inputValidatorAccounts viper) = Ok accounts)).
Proof.
  unfold inputValidatorAccounts.
  destruct (GetString viper "validatoraccount" =? "") eqn:E.
  - left. apply String.eqb_eq in E. auto.
  - right. apply String.eqb_neq in E. split; [assumption|].
    unfold call, replace, logOf, resultOf; simpl.
    destruct (WalletAndAccountsFromPath viper (GetString viper "validatoraccount"))
      as [[wallet accounts]| |]; simpl; auto.
    destruct (Nat.eqb (List.length accounts) 0); simpl; eauto 6.
Qed.

Lemma fromWithdrawalAccount_cases (viper : Viper) :
  logOf (fromWithdrawalAccount viper)
  = [CallWalletAndAccountFromPath (GetString viper "withdrawalaccount")] /\
  ((exists cause,
      resultOf (fromWithdrawalAccount viper)
      = Err (Wrap cause "failed to obtain withdrawal account"))
   \/ (exists cause,
         resultOf (fromWithdrawalAccount viper)
         = Err (Wrap cause "failed to obtain public key for withdrawal account"))
   \/ resultOf (fromWithdrawalAccount viper) = Abort
   \/ exists wallet account pubKey,
        WalletAndAccountFromPath viper (GetString viper "withdrawalaccount")
          = Ok (wallet, account) /\
        BestPublicKey account = Ok pubKey /\
        resultOf (fromWithdrawalAccount viper) = Ok (SHA256 (Marshal pubKey))).
Proof.
  unfold fromWithdrawalAccount, call, pure, wrap, logOf, resultOf; simpl.
  destruct (WalletAndAccountFromPath viper (GetString viper "withdrawalaccount"))
    as [[wallet account]| |]; simpl; try (split; [reflexivity | eauto]).
  destruct (BestPublicKey account) as [pubKey| |] eqn:B; simpl;
    (split; [reflexivity | eauto 12]).
Qed.

Lemma fromWithdrawalPubKey_cases (viper : Viper) :
  logOf (fromWithdrawalPubKey viper) = [] /\
  ((exists cause,
      resultOf (fromWithdrawalPubKey viper)
      = Err (Wrap cause "failed to decode withdrawal public key"))
   \/ resultOf (fromWithdrawalPubKey viper)
      = Err (New "withdrawal public key must be exactly 48 bytes in length")
   \/ (exists cause,
         resultOf (fromWithdrawalPubKey viper)
         = Err (Wrap cause "withdrawal public key is not valid"))
   \/ resultOf (fromWithdrawalPubKey viper) = Abort
   \/ exists P pubKey,
        DecodeString (TrimPrefix (GetString viper "withdrawalpubkey") "0x") = Ok P /\
        List.length P = 48 /\
        BLSPublicKeyFromBytes P = Ok pubKey /\
        resultOf (fromWithdrawalPubKey viper) = Ok (SHA256 (Marshal pubKey))).
Proof.
  unfold fromWithdrawalPubKey, pure, wrap, logOf, resultOf; simpl.
  destruct (DecodeString (TrimPrefix (GetString viper "withdrawalpubkey") "0x"))
    as [P| |] eqn:D; simpl; try (split; [reflexivity | eauto]).
  destruct (Nat.eqb (List.length P) 48) eqn:L; simpl;
    try (split; [reflexivity | auto]).
  apply Nat.eqb_eq in L.
  destruct (BLSPublicKeyFromBytes P) as [pubKey| |] eqn:B; simpl;
    (split; [reflexivity | eauto 12]).
Qed.

Lemma inputWithdrawalCredentials_eq (viper : Viper) :
  inputWithdrawalCredentials viper =
  if GetString viper "withdrawalaccount" =? ""
  then if GetString viper "withdrawalpubkey" =? ""
       then ([], Err AmbiguousOrMissingWithdrawalSpec)
       else bind (fromWithdrawalPubKey viper) setPrefix
  else bind (fromWithdrawalAccount viper) setPrefix.
Proof.
  unfold inputWithdrawalCredentials.
  destruct (GetString viper "withdrawalaccount" =? ""); simpl; [|reflexivity].
  destruct (GetString viper "withdrawalpubkey" =? ""); reflexivity.
Qed.

Lemma bind_setPrefix_log (m : logged bytes) :
  logOf (bind m setPrefix) = logOf m.
Proof.
  rewrite bind_log. destruct (resultOf m); try reflexivity.
  rewrite setPrefix_log. apply app_nil_r.
Qed.

Lemma inputWithdrawalCredentials_log_eq (viper : Viper) :
  logOf (inputWithdrawalCredentials viper) =
  if GetString viper "withdrawalaccount" =? "" then []
  else [CallWalletAndAccountFromPath (GetString viper "withdrawalaccount")].
Proof.
  rewrite inputWithdrawalCredentials_eq.
  destruct (GetString viper "withdrawalaccount" =? "").
  - destruct (GetString viper "withdrawalpubkey" =? ""); [reflexivity|].
    rewrite bind_setPrefix_log. apply fromWithdrawalPubKey_cases.
  - rewrite bind_setPrefix_log. apply fromWithdrawalAccount_cases.
Qed.

Lemma inputAmount_Ok_inv (viper : Viper) (gwei : N) :
  resultOf (inputAmount viper) = Ok gwei ->
  GetString viper "depositvalue" <> "" /\
  StringToGWei (GetString viper "depositvalue") = Ok gwei /\
  (1000000000 <= gwei)%N.
Proof.
  unfold inputAmount.
  destruct (GetString viper "depositvalue" =? "") eqn:E; [discriminate|].
  apply String.eqb_neq in E.
  unfold pure, wrap, resultOf; simpl.
  destruct (StringToGWei (GetString viper "depositvalue")) as [n| |]; simpl;
    try discriminate.
  destruct (n <? 1000000000)%N eqn:L; simpl; [discriminate|].
  apply N.ltb_ge in L. intros H; injection H as <-. auto.
Qed.

Lemma inputForkVersion_log_cases (viper : Viper) :
  (GetString viper "forkversion" <> "" /\ logOf (inputForkVersion viper) = [])
  \/ (GetString viper "forkversion" = "" /\
      (logOf (inputForkVersion viper) = [CallConnect; CallFetchChainConfig]
       \/ (logOf (inputForkVersion viper) = [CallConnect] /\
           forall version, resultOf (inputForkVersion viper) <> Ok version))).
Proof.
  destruct (GetString viper "forkversion" =? "") eqn:E.
  - right. apply String.eqb_eq in E. split; [assumption|].
    rewrite (inputForkVersion_fetched _ E).
    destruct (Connect viper); simpl; auto; right; split; auto; discriminate.
  - left. apply String.eqb_neq in E. split; [assumption|].
    rewrite (inputForkVersion_explicit _ E). reflexivity.
Qed.

(** X8. The calls [input] makes outside the process are a prefix of: the
    look-up of the validator accounts, the look-up of the withdrawal account
    when one is configured, and, when no fork version is configured, the
    connection to the beacon node and the request of the chain
    configuration.  A run that returns a result has made all of them. *)
Theorem input_calls_in_order (viper : Viper) :
  (exists n, logOf (input viper) = firstn n (expectedCalls viper)) /\
  (forall d, resultOf (input viper) = Ok d ->
             logOf (input viper) = expectedCalls viper).
Proof.
  rewrite input_result, input_log, inputWithdrawalCredentials_log_eq,
    inputAmount_log.
  unfold expectedCalls.
  destruct (inputValidatorAccounts_cases viper)
    as [[_ ->] | [_ [-> HV]]]; simpl.
  - split; [exists 0; reflexivity | discriminate].
  - destruct (resultOf (inputValidatorAccounts viper)) as [accounts| |];
      try (split; [exists 1; reflexivity | discriminate]).
    destruct (inputForkVersion_log_cases viper) as [[Hfv HF] | [Hfv HF]];
      [apply String.eqb_neq in Hfv | apply String.eqb_eq in Hfv]; rewrite Hfv.
    + rewrite HF.
      destruct (GetString viper "withdrawalaccount" =? "");
        destruct (resultOf (inputWithdrawalCredentials viper));
        destruct (resultOf (inputAmount viper));
        destruct (resultOf (inputForkVersion viper)); simpl;
        (split; [prefix_of_length | first [discriminate | reflexivity]]).
    + destruct HF as [HF | [HF Hno]]; rewrite HF;
        destruct (GetString viper "withdrawalaccount" =? "");
        destruct (resultOf (inputWithdrawalCredentials viper));
        destruct (resultOf (inputAmount viper));
        destruct (resultOf (inputForkVersion viper)) eqn:F; simpl;
        (split;
         [prefix_of_length
          | first [discriminate | reflexivity
                  | exfalso; exact (Hno _ eq_refl)]]).
Qed.

(** X9. [input] turns to the beacon node only when no fork version is
    configured, and only once the validator accounts are found, the
    withdrawal credentials are made and the deposit value is accepted, at
    1 Ether or more. *)
Theorem beacon_contacted_after_validation (viper : Viper) (ev : event) :
  beaconCall ev ->
  In ev (logOf (input viper)) ->
  GetString viper "forkversion" = "" /\
  exists accounts credentials gwei,
    resultOf (inputValidatorAccounts viper) = Ok accounts /\
    resultOf (inputWithdrawalCredentials viper) = Ok credentials /\
    resultOf (inputAmount viper) = Ok gwei /\
    (1000000000 <= gwei)%N.
Proof.
  intros Hev. rewrite input_log, inputWithdrawalCredentials_log_eq, inputAmount_log.
  assert (Hv : ~ In ev (logOf (inputValidatorAccounts viper))).
  { destruct (inputValidatorAccounts_log viper) as [-> | ->]; simpl.
    - tauto.
    - intros [H | []]. destruct Hev; congruence. }
  assert (Hw : ~ In ev (if GetString viper "withdrawalaccount" =? "" then []
                        else [CallWalletAndAccountFromPath
                                (GetString viper "withdrawalaccount")])).
  { destruct (GetString viper "withdrawalaccount" =? ""); simpl.
    - tauto.
    - intros [H | []]. destruct Hev; congruence. }
  rewrite in_app_iff. intros [H | H]; [contradiction|].
  destruct (resultOf (inputValidatorAccounts viper)) as [accounts| |];
    try contradiction.
  rewrite in_app_iff in H. destruct H as [H | H]; [contradiction|].
  destruct (resultOf (inputWithdrawalCredentials viper)) as [credentials| |];
    try contradiction.
  simpl in H.
  destruct (resultOf (inputAmount viper)) as [gwei| |] eqn:Ha; try contradiction.
  destruct (inputForkVersion_log_cases viper) as [[_ Hl] | [Hfv _]].
  - rewrite Hl in H. contradiction.
  - split; [assumption|]. exists accounts, credentials, gwei.
    repeat split; auto. apply (inputAmount_Ok_inv _ Ha).
Qed.

(** X10. A genesis fork version obtained from the beacon node is not
    checked by [input]: it goes to [e2types.Domain] as it is.  When the
    library accepts it, it is the fork version of the result; when the
    library panics, [input] panics; the error of a fork version that has
    not 4 bytes is never returned on this path.  So, with a library that
    panics on a fork version that has not 4 bytes, a fetched fork version
    of another length makes [input] panic.  A chain configuration without
    a genesis fork version is an error, and one in which it is not a byte
    slice makes [input] panic. *)
Theorem fetched_fork_version_unchecked (viper : Viper)
    (accounts : list (Account PublicKey)) (credentials : bytes) (gwei : N)
    (conn : Conn) (config : ChainConfig) :
  resultOf (inputValidatorAccounts viper) = Ok accounts ->
  resultOf (inputWithdrawalCredentials viper) = Ok credentials ->
  resultOf (inputAmount viper) = Ok gwei ->
  GetString viper "forkversion" = "" ->
  Connect viper = Ok conn ->
  FetchChainConfig conn = Ok config ->
  resultOf (input viper) =
  match lookup config "GenesisForkVersion" with
  | Some (VBytes version) =>
      match Domain DomainDeposit version ZeroGenesisValidatorsRoot with
      | Some bound =>
          Ok {| format := inputFormat viper;
                withdrawalCredentials := credentials;
                amount := gwei;
                validatorAccounts := accounts;
                forkVersion := version;
                domain := bound |}
      | None => Abort
      end
  | Some (VOther _) => Abort
  | None => Err (New "failed to obtain genesis fork version")
  end
  /\ resultOf (input viper) <> Err InvalidForkVersionLength
  /\ (forall version,
        lookup config "GenesisForkVersion" = Some (VBytes version) ->
        List.length version <> 4 ->
        (forall other,
           List.length other <> 4 ->
           Domain DomainDeposit other ZeroGenesisValidatorsRoot = None) ->
        resultOf (input viper) = Abort).
Proof.
  intros Hv Hc Ha Hfv Hconn Hfetch.
  assert (E : resultOf (input viper) =
              match lookup config "GenesisForkVersion" with
              | Some (VBytes version) =>
                  match Domain DomainDeposit version ZeroGenesisValidatorsRoot with
                  | Some bound =>
                      Ok {| format := inputFormat viper;
                            withdrawalCredentials := credentials;
                            amount := gwei;
                            validatorAccounts := accounts;
                            forkVersion := version;
                            domain := bound |}
                  | None => Abort
                  end
              | Some (VOther _) => Abort
              | None => Err (New "failed to obtain genesis fork version")
              end).
  { rewrite input_result, Hv, Hc, Ha, (inputForkVersion_fetched _ Hfv), Hconn.
    unfold resultOf at 1; simpl. rewrite Hfetch.
    destruct (lookup config "GenesisForkVersion") as [[version|other]|];
      reflexivity. }
  split; [exact E |]. split.
  - rewrite E.
    destruct (lookup config "GenesisForkVersion") as [[version|other]|];
      try discriminate.
    destruct (Domain DomainDeposit version ZeroGenesisValidatorsRoot);
      discriminate.
  - intros version Hlookup Hlen Hpanic.
    rewrite E, Hlookup, (Hpanic version Hlen). reflexivity.
Qed.

(** X11. In a run of [input] that returns a result, a withdrawal public
    key that was used is written, after its optional "0x", with exactly 96
    hexadecimal digits, and a configured fork version with exactly 8. *)
Theorem accepted_hexadecimal_lengths (viper : Viper) (d : dataIn PublicKey) :
  resultOf (input viper) = Ok d ->
  (GetString viper "withdrawalaccount" = "" ->
   String.length (TrimPrefix (GetString viper "withdrawalpubkey") "0x") = 96 /\
   allHex (TrimPrefix (GetString viper "withdrawalpubkey") "0x") = true) /\
  (GetString viper "forkversion" <> "" ->
   String.length (TrimPrefix (GetString viper "forkversion") "0x") = 8 /\
   allHex (TrimPrefix (GetString viper "forkversion") "0x") = true).
Proof.
  intros H. apply input_Ok_inv in H as [_ [Hc [_ [Hf _]]]]. split.
  - intros Hwa. rewrite inputWithdrawalCredentials_eq, Hwa in Hc.
    simpl (_ =? _) in Hc. cbv iota in Hc.
    destruct (GetString viper "withdrawalpubkey" =? ""); [discriminate|].
    rewrite bind_result in Hc.
    destruct (fromWithdrawalPubKey_cases viper)
      as [_ [[c E] | [E | [[c E] | [E | [P [pubKey [HD [HL _]]]]]]]]];
      try (rewrite E in Hc; discriminate).
    destruct (proj1 (DecodeString_Ok_inv _) _ HD) as [Hlen Hhex].
    split; [lia | assumption].
  - intros Hfv. rewrite (inputForkVersion_explicit _ Hfv) in Hf.
    unfold resultOf in Hf; simpl in Hf.
    destruct (DecodeString (TrimPrefix (GetString viper "forkversion") "0x"))
      as [version| |] eqn:HD; try discriminate.
    destruct (Nat.eqb (List.length version) 4) eqn:HL; [|discriminate].
    apply Nat.eqb_eq in HL.
    destruct (proj1 (DecodeString_Ok_inv _) _ HD) as [Hlen Hhex].
    split; [lia | assumption].
Qed.

(** X12. The "0x" before a fork version or a withdrawal public key is
    optional: a value that is not empty and does not itself start with "0x"
    gives the same outcome with and without it. *)
Theorem hex_prefix_is_optional (viper : Viper) (h : string) :
  h <> "" ->
  HasPrefix h "0x" = false ->
  inputForkVersion (SetString viper "forkversion" ("0x" ++ h))
  = inputForkVersion (SetString viper "forkversion" h) /\
  (GetString viper "withdrawalaccount" = "" ->
   inputWithdrawalCredentials (SetString viper "withdrawalpubkey" ("0x" ++ h))
   = inputWithdrawalCredentials (SetString viper "withdrawalpubkey" h)).
Proof.
  intros Hne Hpre. split.
  - rewrite !inputForkVersion_explicit
      by (rewrite GetString_SetString; [discriminate || assumption]).
    rewrite !GetString_SetString, TrimPrefix_0x, (TrimPrefix_none _ _ Hpre).
    reflexivity.
  - intros Hwa. rewrite !inputWithdrawalCredentials_eq.
    change (GetString (SetString viper "withdrawalpubkey" ("0x" ++ h))
              "withdrawalaccount")
      with (GetString viper "withdrawalaccount").
    change (GetString (SetString viper "withdrawalpubkey" h) "withdrawalaccount")
      with (GetString viper "withdrawalaccount").
    rewrite Hwa, !GetString_SetString. simpl (_ =? _).
    rewrite (eqb_empty_false Hne).
    unfold fromWithdrawalPubKey.
    rewrite !GetString_SetString, TrimPrefix_0x, (TrimPrefix_none _ _ Hpre).
    reflexivity.
Qed.

(** X13. The withdrawal credentials of every result of [input] are the
    digest of the serialised public key with its first byte replaced by
    zero, whatever the libraries compute.  The key is the one of the
    withdrawal account when an account is configured, and the configured
    key otherwise. *)
Theorem credentials_of_every_result (viper : Viper) (d : dataIn PublicKey) :
  resultOf (input viper) = Ok d ->
  exists pubKey first rest,
    SHA256 (Marshal pubKey) = first :: rest /\
    withdrawalCredentials d = x00 :: rest /\
    (GetString viper "withdrawalaccount" <> "" ->
     exists wallet account,
       WalletAndAccountFromPath viper (GetString viper "withdrawalaccount")
         = Ok (wallet, account) /\
       BestPublicKey account = Ok pubKey) /\
    (GetString viper "withdrawalaccount" = "" ->
     exists P,
       DecodeString (TrimPrefix (GetString viper "withdrawalpubkey") "0x") = Ok P /\
       BLSPublicKeyFromBytes P = Ok pubKey).
Proof.
  intros H. apply input_Ok_inv in H as [_ [Hc _]].
  rewrite inputWithdrawalCredentials_eq in Hc.
  destruct (GetString viper "withdrawalaccount" =? "") eqn:Hwa.
  - apply String.eqb_eq in Hwa.
    destruct (GetString viper "withdrawalpubkey" =? ""); [discriminate|].
    rewrite bind_result in Hc.
    destruct (fromWithdrawalPubKey_cases viper)
      as [_ [[c E] | [E | [[c E] | [E | [P [pubKey [HD [HL [HB E]]]]]]]]]];
      rewrite E in Hc; try discriminate.
    rewrite setPrefix_result in Hc.
    destruct (SHA256 (Marshal pubKey)) as [|first rest] eqn:Hs; [discriminate|].
    injection Hc as Hc. exists pubKey, first, rest.
    repeat split; auto; [contradiction | eauto].
  - apply String.eqb_neq in Hwa. rewrite bind_result in Hc.
    destruct (fromWithdrawalAccount_cases viper)
      as [_ [[c E] | [[c E] | [E | [wallet [account [pubKey [HW [HB E]]]]]]]]];
      rewrite E in Hc; try discriminate.
    rewrite setPrefix_result in Hc.
    destruct (SHA256 (Marshal pubKey)) as [|first rest] eqn:Hs; [discriminate|].
    injection Hc as Hc. exists pubKey, first, rest.
    repeat split; auto; [eauto | contradiction].
Qed.

(** X14. Every error of [input] is either an error with one of nine fixed
    messages, or the error of a library under one of eight fixed messages;
    no error of a library is returned as it is. *)
Theorem input_error_messages (viper : Viper) (err : error) :
  resultOf (input viper) = Err err ->
  (exists msg, err = New msg /\ In msg inputMessages) \/
  (exists cause msg, err = Wrap cause msg /\ In msg inputWrappers).
Proof.
  assert (Hnew : forall msg, In msg inputMessages ->
            (exists m, New msg = New m /\ In m inputMessages) \/
            (exists cause m, New msg = Wrap cause m /\ In m inputWrappers))
    by (intros msg H; left; eauto).
  assert (Hwrap : forall cause msg, In msg inputWrappers ->
            (exists m, Wrap cause msg = New m /\ In m inputMessages) \/
            (exists c m, Wrap cause msg = Wrap c m /\ In m inputWrappers))
    by (intros cause msg H; right; eauto).
  rewrite input_result.
  destruct (inputValidatorAccounts_cases viper)
    as [[_ E] | [_ [_ [E | [E | [E | [accounts E]]]]]]]; rewrite E;
    [ unfold resultOf; simpl; intros H; injection H as <-;
      apply Hnew; simpl; tauto
    | intros H; injection H as <-; apply Hnew; simpl; tauto
    | intros H; injection H as <-; apply Hnew; simpl; tauto
    | discriminate
    | ].
  rewrite inputWithdrawalCredentials_eq.
  assert (Hc : forall e,
             resultOf
               (if GetString viper "withdrawalaccount" =? ""
                then if GetString viper "withdrawalpubkey" =? ""
                     then ([], Err AmbiguousOrMissingWithdrawalSpec)
                     else bind (fromWithdrawalPubKey viper) setPrefix
                else bind (fromWithdrawalAccount viper) setPrefix) = Err e ->
             (exists m, e = New m /\ In m inputMessages) \/
             (exists c m, e = Wrap c m /\ In m inputWrappers)).
  { intros e.
    destruct (GetString viper "withdrawalaccount" =? "").
    - destruct (GetString viper "withdrawalpubkey" =? "").
      + intros H; injection H as <-. apply Hnew; simpl; tauto.
      + rewrite bind_result.
        destruct (fromWithdrawalPubKey_cases viper)
          as [_ [[c F] | [F | [[c F] | [F | [P [pubKey [_ [_ [_ F]]]]]]]]]];
          rewrite F; try discriminate;
          try (intros H; injection H as <-;
               first [apply Hnew | apply Hwrap]; simpl; tauto).
        rewrite setPrefix_result. destruct (SHA256 (Marshal pubKey)); discriminate.
    - rewrite bind_result.
      destruct (fromWithdrawalAccount_cases viper)
        as [_ [[c F] | [[c F] | [F | [wallet [account [pubKey [_ [_ F]]]]]]]]];
        rewrite F; try discriminate;
        try (intros H; injection H as <-; apply Hwrap; simpl; tauto).
      rewrite setPrefix_result. destruct (SHA256 (Marshal pubKey)); discriminate. }
  destruct (resultOf
              (if GetString viper "withdrawalaccount" =? ""
               then if GetString viper "withdrawalpubkey" =? ""
                    then ([], Err AmbiguousOrMissingWithdrawalSpec)
                    else bind (fromWithdrawalPubKey viper) setPrefix
               else bind (fromWithdrawalAccount viper) setPrefix))
    as [credentials|e|]; [| intros H; injection H as <-; apply Hc; reflexivity
                          | discriminate].
  destruct (resultOf (inputAmount viper)) as [gwei|e|] eqn:Ha; [| |discriminate].
  - destruct (GetString viper "forkversion" =? "") eqn:Hfv.
    + apply String.eqb_eq in Hfv. rewrite (inputForkVersion_fetched _ Hfv).
      destruct (Connect viper) as [conn|e|]; unfold resultOf; simpl;
        [| intros H; injection H as <-; apply Hwrap; simpl; tauto | discriminate].
      destruct (FetchChainConfig conn) as [config|e|];
        [| intros H; injection H as <-; apply Hwrap; simpl; tauto | discriminate].
      destruct (lookup config "GenesisForkVersion") as [[version|other]|];
        try discriminate;
        [destruct (Domain DomainDeposit version ZeroGenesisValidatorsRoot);
         discriminate |].
      intros H; injection H as <-; apply Hnew; simpl; tauto.
    + apply String.eqb_neq in Hfv. rewrite (inputForkVersion_explicit _ Hfv).
      unfold resultOf; simpl.
      destruct (DecodeString _) as [version|e|];
        [| intros H; injection H as <-; apply Hwrap; simpl; tauto | discriminate].
      destruct (Nat.eqb (List.length version) 4);
        [destruct (Domain DomainDeposit version ZeroGenesisValidatorsRoot);
         discriminate |].
      intros H; injection H as <-; apply Hnew; simpl; tauto.
  - intros H; injection H as <-.
    destruct (inputAmount_Err_inv _ Ha)
      as [[_ ->] | [[_ [cause [_ ->]]] | [_ [g [_ [_ ->]]]]]];
      first [apply Hnew | apply Hwrap]; simpl; tauto.
Qed.

End MoreInputProperties.

(** ** [input] on the functions of root.go *)

Section InputOnRoot.
Context (PublicKey : Type) {crypto : Crypto PublicKey}
  {store : WalletStore PublicKey} {paths : PathLib} {regexp : RegexpLib}
  {sorter : SortLib} {beacon : BeaconNode}.


(** X16. A withdrawal account given by the name of its wallet alone, with
    no account part, is refused: [input] fails with "no account name" under
    "failed to obtain withdrawal account". *)
Theorem withdrawal_account_needs_account_name (viper : Viper)
    (accounts : list (Account PublicKey)) (wallet : Wallet PublicKey)
    (walletName : string) :
  resultOf (inputValidatorAccounts (core := rootCore) viper) = Ok accounts ->
  GetString viper "withdrawalaccount" <> "" ->
  walletFromPath viper (GetString viper "withdrawalaccount") = Ok wallet ->
  WalletAndAccountNames (GetString viper "withdrawalaccount") = Ok (walletName, "") ->
  resultOf (input (core := rootCore) viper)
  = Err (Wrap (New "no account name") "failed to obtain withdrawal account").
Proof.
  intros Hv Hne Hw Hn. rewrite input_result, Hv.
  rewrite inputWithdrawalCredentials_eq, (eqb_empty_false Hne), bind_result.
  unfold fromWithdrawalAccount. rewrite bind_result, wrap_result.
  unfold call, resultOf at 1, rootCore, walletAndAccountFromPath; simpl.
  rewrite Hw; simpl. rewrite Hn; simpl. reflexivity.
Qed.

End InputOnRoot.

(** ** Further runs *)

(** Without a fork version the beacon node is contacted, after the
    configuration has been checked. *)
Lemma beacon_contacted_after_validation_witness :
  GetString Fixtures.noForkVersion "forkversion" = "" /\
  exists accounts credentials gwei,
    resultOf (inputValidatorAccounts (core := Fixtures.core) Fixtures.noForkVersion)
      = Ok accounts /\
    resultOf (inputWithdrawalCredentials (crypto := Fixtures.crypto)
                (core := Fixtures.core) Fixtures.noForkVersion) = Ok credentials /\
    resultOf (inputAmount (crypto := Fixtures.crypto) Fixtures.noForkVersion)
      = Ok gwei /\
    (1000000000 <= gwei)%N.
Proof.
  apply (@beacon_contacted_after_validation bytes Fixtures.crypto Fixtures.core
           Fixtures.beacon Fixtures.noForkVersion CallConnect).
  - left; reflexivity.
  - vm_compute. right; right; left; reflexivity.
Defined.

(** A genesis fork version of three bytes: the library panics on it. *)
Lemma fixture_domain_panics (version : bytes) :
  List.length version <> 4 ->
  Domain (Crypto := Fixtures.crypto) DomainDeposit version
    ZeroGenesisValidatorsRoot = None.
Proof.
  intros H. cbv [Domain Fixtures.crypto].
  destruct (Nat.eqb_spec (List.length version) 4); [contradiction | reflexivity].
Qed.

Lemma fetched_fork_version_unchecked_witness :
  resultOf (input (crypto := Fixtures.crypto) (core := Fixtures.core)
              (beacon := Examples.threeBytes) Fixtures.noForkVersion)
  = Abort
  /\ resultOf (input (crypto := Fixtures.crypto) (core := Fixtures.core)
                 (beacon := Examples.threeBytes) Fixtures.noForkVersion)
     <> Err InvalidForkVersionLength.
Proof.
  assert (Hv : resultOf (inputValidatorAccounts (core := Fixtures.core)
                           Fixtures.noForkVersion) = Ok (rev Fixtures.validators))
    by (vm_compute; reflexivity).
  assert (Hc : resultOf (inputWithdrawalCredentials (crypto := Fixtures.crypto)
                           (core := Fixtures.core) Fixtures.noForkVersion)
               = Ok (x00 :: tl (Sha256.digest (Fixtures.key xc0))))
    by (vm_compute; reflexivity).
  assert (Ha : resultOf (inputAmount (crypto := Fixtures.crypto)
                           Fixtures.noForkVersion) = Ok 32000000000%N)
    by (vm_compute; reflexivity).
  destruct (@fetched_fork_version_unchecked bytes Fixtures.crypto Fixtures.core
              Examples.threeBytes Fixtures.noForkVersion _ _ _ tt
              [("GenesisForkVersion", VBytes [x01; x02; x03])]
              Hv Hc Ha eq_refl eq_refl eq_refl) as [_ [Hne Hpanic]].
  split; [| exact Hne].
  apply (Hpanic [x01; x02; x03]).
  - reflexivity.
  - discriminate.
  - exact fixture_domain_panics.
Defined.

(** A chain configuration without a genesis fork version, and one that
    gives it as text. *)
Example chain_configurations_without_bytes :
  resultOf (input (crypto := Fixtures.crypto) (core := Fixtures.core)
              (beacon := Examples.withoutForkVersion) Fixtures.noForkVersion)
  = Err (New "failed to obtain genesis fork version")
  /\ resultOf (input (crypto := Fixtures.crypto) (core := Fixtures.core)
                 (beacon := Examples.forkVersionAsText) Fixtures.noForkVersion)
     = Abort.
Proof. split; vm_compute; reflexivity. Qed.

(** The key of 96 hexadecimal digits after "0x", and the fork version of 8. *)
Lemma accepted_hexadecimal_lengths_witness :
  (GetString Fixtures.byKey "withdrawalaccount" = "" ->
   String.length (TrimPrefix (GetString Fixtures.byKey "withdrawalpubkey") "0x") = 96 /\
   allHex (TrimPrefix (GetString Fixtures.byKey "withdrawalpubkey") "0x") = true) /\
  (GetString Fixtures.byKey "forkversion" <> "" ->
   String.length (TrimPrefix (GetString Fixtures.byKey "forkversion") "0x") = 8 /\
   allHex (TrimPrefix (GetString Fixtures.byKey "forkversion") "0x") = true).
Proof.
  assert (H : resultOf (Fixtures.run Fixtures.beacon Fixtures.byKey)
              = Ok (Fixtures.deposit (x00 :: tl (Sha256.digest (Fixtures.key xc0)))
                      1000000000))
    by (vm_compute; reflexivity).
  exact (@accepted_hexadecimal_lengths bytes Fixtures.crypto Fixtures.core
           Fixtures.beacon Fixtures.byKey _ H).
Defined.

(** The fork version 00000000 with and without "0x", and the same for a
    key. *)
Lemma hex_prefix_is_optional_witness :
  inputForkVersion (beacon := Fixtures.beacon)
    (SetString Fixtures.byKey "forkversion" ("0x" ++ "00000000"))
  = inputForkVersion (beacon := Fixtures.beacon)
      (SetString Fixtures.byKey "forkversion" "00000000") /\
  (GetString Fixtures.byKey "withdrawalaccount" = "" ->
   inputWithdrawalCredentials (crypto := Fixtures.crypto) (core := Fixtures.core)
     (SetString Fixtures.byKey "withdrawalpubkey" ("0x" ++ "00000000"))
   = inputWithdrawalCredentials (crypto := Fixtures.crypto) (core := Fixtures.core)
       (SetString Fixtures.byKey "withdrawalpubkey" "00000000")).
Proof.
  apply (@hex_prefix_is_optional bytes Fixtures.crypto Fixtures.core
           Fixtures.beacon Fixtures.byKey "00000000").
  - discriminate.
  - reflexivity.
Defined.

(** The credentials of the run with a withdrawal account. *)
Lemma credentials_of_every_result_witness :
  exists pubKey first rest,
    SHA256 (Crypto := Fixtures.crypto) (Marshal (Crypto := Fixtures.crypto) pubKey)
      = first :: rest /\
    withdrawalCredentials
      (Fixtures.deposit (x00 :: tl (Sha256.digest (Fixtures.key xc0))) 32000000000)
      = x00 :: rest /\
    (GetString Fixtures.byAccount "withdrawalaccount" <> "" ->
     exists wallet account,
       WalletAndAccountFromPath (Core := Fixtures.core) Fixtures.byAccount
         (GetString Fixtures.byAccount "withdrawalaccount") = Ok (wallet, account) /\
       BestPublicKey (Core := Fixtures.core) account = Ok pubKey) /\
    (GetString Fixtures.byAccount "withdrawalaccount" = "" ->
     exists P,
       DecodeString (TrimPrefix (GetString Fixtures.byAccount "withdrawalpubkey") "0x")
         = Ok P /\
       BLSPublicKeyFromBytes (Crypto := Fixtures.crypto) P = Ok pubKey).
Proof.
  assert (H : resultOf (Fixtures.run Fixtures.beacon Fixtures.byAccount)
              = Ok (Fixtures.deposit (x00 :: tl (Sha256.digest (Fixtures.key xc0)))
                      32000000000))
    by (vm_compute; reflexivity).
  exact (@credentials_of_every_result bytes Fixtures.crypto Fixtures.core
           Fixtures.beacon Fixtures.byAccount _ H).
Defined.

(** The error of a deposit below 1 Ether is one of the nine. *)
Lemma input_error_messages_witness :
  (exists msg, AmountBelowMinimum = New msg /\ In msg inputMessages) \/
  (exists cause msg, AmountBelowMinimum = Wrap cause msg /\ In msg inputWrappers).
Proof.
  assert (H : resultOf (Fixtures.run Fixtures.beacon Fixtures.tooLittle)
              = Err AmountBelowMinimum)
    by (vm_compute; reflexivity).
  exact (@input_error_messages bytes Fixtures.crypto Fixtures.core
           Fixtures.beacon Fixtures.tooLittle _ H).
Defined.


(** The withdrawal account [Withdrawal]. *)
Lemma withdrawal_account_needs_account_name_witness :
  resultOf (input (crypto := Fixtures.crypto) (core := Fixtures.core)
              (beacon := Fixtures.beacon) Examples.walletOnly)
  = Err (Wrap (New "no account name") "failed to obtain withdrawal account").
Proof.
  assert (Hv : resultOf (inputValidatorAccounts (core := Fixtures.core)
                           Examples.walletOnly) = Ok (rev Fixtures.validators))
    by (vm_compute; reflexivity).
  apply (@withdrawal_account_needs_account_name bytes Fixtures.crypto
           Fixtures.store Fixtures.paths GoRegexp.lib Fixtures.sorter
           Fixtures.beacon Examples.walletOnly _
           (Fixtures.wallet
              [Fixtures.account "Primary" (Some (Fixtures.key xc0))
                 (Some (Fixtures.key xc1));
               Fixtures.account "Plain" None (Some (Fixtures.key xc2));
               Fixtures.account "Keyless" None None])
           "Withdrawal" Hv).
  - discriminate.
  - reflexivity.
  - reflexivity.
Defined.

(** ** Matching by derivatives *)

Module RegexpFacts.
Import GoRegexp.

Lemma matchesFrom_matchesBefore (text : string) :
  forall b r, matchesFrom b r text = matchesBefore b true r text.
Proof. induction text as [|c t IH]; intros b r; simpl; auto. Qed.

Ltac bool_cases :=
  repeat match goal with
         | |- context [matchesBefore ?b ?e ?r ?t] =>
             destruct (matchesBefore b e r t)
         | |- context [nullable ?b ?e ?r] => destruct (nullable b e r)
         end;
  try reflexivity.

Lemma matches_Never (text : string) :
  forall b e, matchesBefore b e Never text = false.
Proof. induction text as [|c t IH]; intros b e; simpl; auto. Qed.

Lemma matches_Alt (text : string) :
  forall b e r s,
    matchesBefore b e (Alt r s) text
    = matchesBefore b e r text || matchesBefore b e s text.
Proof. induction text as [|c t IH]; intros b e r s; simpl; auto. Qed.

Lemma matches_if_Never (cond : bool) (r : re) (b e : bool) (text : string) :
  matchesBefore b e (if cond then r else Never) text
  = cond && matchesBefore b e r text.
Proof. destruct cond; [reflexivity | apply matches_Never]. Qed.

Lemma matches_Cat_Alt (text : string) :
  forall b e p q s,
    matchesBefore b e (Cat (Alt p q) s) text
    = matchesBefore b e (Cat p s) text || matchesBefore b e (Cat q s) text.
Proof.
  induction text as [|c t IH]; intros b e p q s; simpl.
  - bool_cases.
  - rewrite !matches_Alt, IH, !matches_if_Never. bool_cases.
Qed.

Lemma matches_Cat_Never (text : string) :
  forall b e s, matchesBefore b e (Cat Never s) text = false.
Proof.
  induction text as [|c t IH]; intros b e s; simpl; [reflexivity|].
  rewrite matches_Alt, IH, matches_Never. reflexivity.
Qed.

Lemma matches_Cat_Empty (text : string) (b e : bool) (s : re) :
  matchesBefore b e (Cat Empty s) text = matchesBefore b e s text.
Proof.
  destruct text as [|c t]; simpl; [reflexivity|].
  rewrite matches_Alt, matches_Cat_Never. reflexivity.
Qed.

(** Expressions that match the same texts in the same places can stand for
    each other at the beginning of a concatenation. *)
Lemma matches_Cat_left (text : string) :
  forall b e r r' s,
    (forall e' t, matchesBefore b e' r t = matchesBefore b e' r' t) ->
    matchesBefore b e (Cat r s) text = matchesBefore b e (Cat r' s) text.
Proof.
  induction text as [|c t IH]; intros b e r r' s H; simpl.
  - pose proof (H e "") as H0. simpl in H0. rewrite H0. reflexivity.
  - rewrite !matches_Alt, !matches_if_Never.
    pose proof (H false "") as H0. simpl in H0. rewrite H0. f_equal.
    apply IH. intros e' t'. exact (H e' (String c t')).
Qed.

Lemma matches_Cat_dead (text : string) (b e : bool) (r s : re) :
  (forall e' t, matchesBefore b e' r t = false) ->
  matchesBefore b e (Cat r s) text = false.
Proof.
  intros H. rewrite (@matches_Cat_left text b e r Never s).
  - apply matches_Cat_Never.
  - intros e' t. rewrite H, matches_Never. reflexivity.
Qed.

(** The end of a pattern: [$] and nothing more, followed by the free text
    a search allows after a match. *)
Lemma dead_after_end (b : bool) (c : ascii) (e' : bool) (t : string) :
  matchesBefore false e' (deriv b c (Cat EndText Empty)) t = false.
Proof.
  simpl. rewrite matches_Alt, matches_Cat_Never, matches_Never. reflexivity.
Qed.

Lemma matches_end (b e : bool) (text : string) :
  matchesBefore b e (Cat (Cat EndText Empty) (Star AnyChar)) text
  = (text =? "") && e.
Proof.
  destruct text as [|c t].
  - simpl. destruct e; reflexivity.
  - cbn [matchesBefore deriv nullable andb].
    rewrite matches_Alt, matches_Never, orb_false_r.
    apply matches_Cat_dead. intros e' t'. apply (dead_after_end b c).
Qed.

Lemma matches_literal (name : string) :
  forall b e text,
    matchesBefore b e (Cat (literal name) (Star AnyChar)) text
    = (text =? name) && e.
Proof.
  induction name as [|c1 cs IH]; intros b e text.
  - apply matches_end.
  - destruct text as [|c t]; [reflexivity|].
    cbn [literal matchesBefore deriv nullable andb].
    rewrite matches_Alt, matches_Never, orb_false_r.
    rewrite matches_Cat_Alt, matches_Cat_Never, orb_false_r.
    cbn [String.eqb]. rewrite (Ascii.eqb_sym c c1).
    destruct (Ascii.eqb c1 c).
    + rewrite (@matches_Cat_left t false e (Cat Empty (literal cs)) (literal cs)).
      * apply IH.
      * intros e' t'. apply matches_Cat_Empty.
    + apply matches_Cat_dead. intros e' t'. apply matches_Cat_Never.
Qed.

Lemma matches_any_line (text : string) :
  forall b e,
    matchesBefore b e
      (Cat (Cat (Star AnyNotNL) (Cat EndText Empty)) (Star AnyChar)) text
    = negb (occurs lineFeed text) && e.
Proof.
  induction text as [|c t IH]; intros b e.
  - simpl. destruct e; reflexivity.
  - cbn [matchesBefore deriv nullable andb occurs].
    rewrite matches_Alt, matches_Never, orb_false_r.
    rewrite matches_Cat_Alt.
    rewrite (@matches_Cat_dead t false e
               (Alt (Cat Never Empty) Never) (Star AnyChar))
      by (intros e' t'; apply (dead_after_end b c)).
    rewrite orb_false_r. unfold lineFeed.
    destruct (Ascii.eqb c "010") eqn:E; simpl.
    + apply matches_Cat_dead. intros e' t'.
      apply matches_Cat_dead. intros e'' t''. apply matches_Cat_Never.
    + rewrite (@matches_Cat_left t false e
                 (Cat (Cat Empty (Star AnyNotNL)) (Cat EndText Empty))
                 (Cat (Star AnyNotNL) (Cat EndText Empty))).
      * apply IH.
      * intros e' t'. apply matches_Cat_left.
        intros e'' t''. apply matches_Cat_Empty.
Qed.

(** A search for a pattern that starts with [^] matches at the beginning
    of the text only. *)
Lemma search_skip_dead (L : re) (text : string) :
  forall e,
    matchesBefore false e
      (Cat (Star AnyChar) (Cat (Cat BeginText L) (Star AnyChar))) text = false.
Proof.
  induction text as [|c t IH]; intros e; [reflexivity|].
  cbn [matchesBefore deriv nullable andb].
  rewrite !matches_Alt, !matches_Never, !orb_false_r.
  rewrite (@matches_Cat_left t false e (Cat Empty (Star AnyChar)) (Star AnyChar))
    by (intros e' t'; apply matches_Cat_Empty).
  rewrite IH. simpl.
  apply matches_Cat_dead. intros e' t'.
  rewrite matches_Alt, matches_Cat_Never, matches_Never. reflexivity.
Qed.

Lemma search_anchored (L : re) (text : string) :
  nullable true false L = false ->
  search (Cat BeginText L) text = matchesBefore true true (Cat L (Star AnyChar)) text.
Proof.
  intros HL. unfold search, matchesAll. rewrite matchesFrom_matchesBefore.
  destruct text as [|c t].
  - simpl. destruct (nullable true true L); reflexivity.
  - cbn [matchesBefore deriv nullable andb]. rewrite HL.
    rewrite !matches_Alt, !matches_Never, !orb_false_r.
    rewrite (@matches_Cat_left t false true (Cat Empty (Star AnyChar)) (Star AnyChar))
      by (intros e' t'; apply matches_Cat_Empty).
    rewrite search_skip_dead. simpl.
    rewrite matches_Cat_Alt.
    rewrite (@matches_Cat_dead t false true (Cat Never L) (Star AnyChar))
      by (intros e' t'; apply matches_Cat_Never).
    reflexivity.
Qed.

Lemma literal_not_nullable (name : string) :
  nullable true false (literal name) = false.
Proof. destruct name; reflexivity. Qed.

Lemma search_literal (name text : string) :
  search (Cat BeginText (literal name)) text = (text =? name).
Proof.
  rewrite search_anchored by apply literal_not_nullable.
  rewrite matches_literal. apply andb_true_r.
Qed.

Lemma search_any_line (text : string) :
  search (Cat BeginText (Cat (Star AnyNotNL) (Cat EndText Empty))) text
  = negb (occurs lineFeed text).
Proof.
  rewrite search_anchored by reflexivity.
  rewrite matches_any_line. apply andb_true_r.
Qed.

End RegexpFacts.

(** ** Parsing a plain name between [^] and [$] *)

Module ParseFacts.
Import GoRegexp.

Ltac each_character c :=
  destruct c as [[] [] [] [] [] [] [] []].

Lemma parseAtom_plain (fuel : nat) (c : ascii) (rest : list ascii) :
  special c = false ->
  parseAtom (S fuel) (c :: rest) = Some (Char c, rest).
Proof.
  intros H. each_character c; try (vm_compute in H; discriminate H); reflexivity.
Qed.

Lemma parseCat_plain (fuel : nat) (c : ascii) (rest : list ascii) :
  special c = false ->
  parseCat (S fuel) (c :: rest) =
  match parseAtom fuel (c :: rest) with
  | Some (r, "*"%char :: rest1) =>
      match parseCat fuel rest1 with
      | Some (r', rest') => Some (Cat (Star r) r', rest')
      | None => None
      end
  | Some (r, rest1) =>
      match parseCat fuel rest1 with
      | Some (r', rest') => Some (Cat r r', rest')
      | None => None
      end
  | None => None
  end.
Proof.
  intros H. each_character c; try (vm_compute in H; discriminate H); reflexivity.
Qed.

Lemma parseCat_plain_next (fuel : nat) (c c2 : ascii) (rest : list ascii) :
  special c = false ->
  c2 <> "*"%char ->
  parseCat (S (S fuel)) (c :: c2 :: rest) =
  match parseCat (S fuel) (c2 :: rest) with
  | Some (r', rest') => Some (Cat (Char c) r', rest')
  | None => None
  end.
Proof.
  intros Hc Hstar. rewrite parseCat_plain, parseAtom_plain by assumption.
  each_character c2; try reflexivity. contradiction Hstar; reflexivity.
Qed.

Lemma plainCharacter_special (c : ascii) :
  plainCharacter c = true -> special c = false.
Proof.
  unfold plainCharacter. intros H. apply andb_true_iff in H as [H _].
  apply negb_true_iff in H. exact H.
Qed.

Lemma plain_not_star (c : ascii) : special c = false -> c <> "*"%char.
Proof. intros H ->. discriminate H. Qed.

Lemma parseCat_literal (name : string) :
  plain name = true ->
  forall fuel,
    String.length name + 3 <= fuel ->
    parseCat fuel (list_ascii_of_string name ++ ["$"%char])
    = Some (literal name, []).
Proof.
  induction name as [|c cs IH]; intros Hplain fuel Hfuel.
  - destruct fuel as [|[|[|fuel]]]; simpl in Hfuel; try lia. reflexivity.
  - destruct fuel as [|[|fuel]]; simpl in Hfuel; try lia.
    unfold plain in Hplain. simpl in Hplain.
    apply andb_true_iff in Hplain as [Hc Hcs]. apply plainCharacter_special in Hc.
    assert (Hnext : parseCat (S fuel) (list_ascii_of_string cs ++ ["$"%char])
                    = Some (literal cs, []))
      by (apply IH; [exact Hcs | lia]).
    cbn [list_ascii_of_string app literal].
    destruct cs as [|c2 cs'].
    + cbn [list_ascii_of_string app] in *.
      rewrite parseCat_plain_next by (assumption || discriminate).
      rewrite Hnext. reflexivity.
    + cbn [list_ascii_of_string app] in *.
      rewrite parseCat_plain_next.
      * rewrite Hnext. reflexivity.
      * assumption.
      * apply plain_not_star. simpl in Hcs.
        apply andb_true_iff in Hcs as [H2 _]. exact (plainCharacter_special _ H2).
Qed.

Lemma list_ascii_of_anchored (name : string) :
  list_ascii_of_string ("^" ++ name ++ "$")
  = "^"%char :: list_ascii_of_string name ++ ["$"%char].
Proof.
  simpl. f_equal. induction name as [|c cs IH]; simpl; [reflexivity|].
  rewrite IH. reflexivity.
Qed.

Lemma length_anchored (name : string) :
  String.length ("^" ++ name ++ "$") = String.length name + 2.
Proof.
  simpl. f_equal. induction name as [|c cs IH]; simpl; [reflexivity|].
  rewrite IH. reflexivity.
Qed.

Lemma compile_plain (name : string) :
  plain name = true ->
  compile ("^" ++ name ++ "$") = Some (Cat BeginText (literal name)).
Proof.
  intros Hplain. unfold compile.
  rewrite list_ascii_of_anchored, length_anchored.
  replace (3 * (String.length name + 2) + 3)
    with (S (S (S (3 * String.length name + 6)))) by lia.
  assert (Hnext : parseCat (S (3 * String.length name + 6))
                    (list_ascii_of_string name ++ ["$"%char])
                  = Some (literal name, []))
    by (apply parseCat_literal; [exact Hplain | lia]).
  cbn [parseAlt].
  assert (Hcat : parseCat (S (S (3 * String.length name + 6)))
                   ("^"%char :: list_ascii_of_string name ++ ["$"%char])
                 = Some (Cat BeginText (literal name), [])).
  { destruct name as [|c cs].
    - reflexivity.
    - cbn [list_ascii_of_string app] in *.
      assert (Hc : c <> "*"%char).
      { apply plain_not_star. unfold plain in Hplain. simpl in Hplain.
        apply andb_true_iff in Hplain as [H _]. exact (plainCharacter_special _ H). }
      change (parseCat (S (S (3 * String.length (String c cs) + 6)))
                ("^"%char :: c :: list_ascii_of_string cs ++ ["$"%char]))
        with (match parseAtom (S (3 * String.length (String c cs) + 6))
                      ("^"%char :: c :: list_ascii_of_string cs ++ ["$"%char]) with
              | Some (r, "*"%char :: rest1) =>
                  match parseCat (S (3 * String.length (String c cs) + 6)) rest1 with
                  | Some (r', rest') => Some (Cat (Star r) r', rest')
                  | None => None
                  end
              | Some (r, rest1) =>
                  match parseCat (S (3 * String.length (String c cs) + 6)) rest1 with
                  | Some (r', rest') => Some (Cat r r', rest')
                  | None => None
                  end
              | None => None
              end).
      cbn [parseAtom]. revert Hnext.
      generalize (parseCat (S (3 * String.length (String c cs) + 6))
                    (c :: list_ascii_of_string cs ++ ["$"%char])).
      intros parsed ->.
      each_character c; try reflexivity. contradiction Hc; reflexivity. }
  rewrite Hcat. reflexivity.
Qed.

End ParseFacts.

(** ** The accounts a path selects *)

Section Selection.
Context (PublicKey : Type) {store : WalletStore PublicKey} {paths : PathLib}
  {sorter : SortLib}.

(** X17. With the regular expressions of [GoRegexp], a path whose account
    part is a plain name (ASCII characters, none of them special in a
    regular expression) selects the accounts of the wallet that have
    exactly this name, and no other: the anchors the function puts around
    the name keep a longer name from matching. *)
Theorem plain_name_selects_exactly (viper : Viper) (path : string)
    (wallet : Wallet PublicKey) (walletName name : string) :
  sortContract sorter ->
  walletFromPath viper path = Ok wallet ->
  WalletAndAccountNames path = Ok (walletName, name) ->
  name <> "" ->
  plain name = true ->
  exists accounts,
    walletAndAccountsFromPath (regexp := GoRegexp.lib) viper path
      = Ok (wallet, accounts) /\
    Permutation accounts
      (filter (fun account => Name account =? name) (Accounts wallet)).
Proof.
  intros Hsort Hw Hn Hne Hplain.
  assert (Hre : Compile (RegexpLib := GoRegexp.lib) (accountPattern (snd (walletName, name)))
                = Some (GoRegexp.Cat GoRegexp.BeginText (literal name))).
  { simpl snd. rewrite (proj2 (accountPattern_cases name) Hne).
    apply ParseFacts.compile_plain. exact Hplain. }
  eexists. split.
  - apply (walletAndAccountsFromPath_resolved (regexp := GoRegexp.lib) _ _ Hw Hn Hre).
  - rewrite (proj1 (Hsort _ _ _)).
    erewrite filter_ext; [reflexivity|].
    intros account. apply RegexpFacts.search_literal.
Qed.

(** X18. With the regular expressions of [GoRegexp], a path without an
    account part selects every account of the wallet whose name has no
    line feed, in ascending order of the names. *)
Theorem empty_account_part_selects_lines (viper : Viper) (path : string)
    (wallet : Wallet PublicKey) (walletName : string) :
  sortContract sorter ->
  walletFromPath viper path = Ok wallet ->
  WalletAndAccountNames path = Ok (walletName, "") ->
  exists accounts,
    walletAndAccountsFromPath (regexp := GoRegexp.lib) viper path
      = Ok (wallet, accounts) /\
    Permutation accounts
      (filter (fun account => negb (occurs lineFeed (Name account)))
         (Accounts wallet)) /\
    StronglySorted nameLe accounts.
Proof.
  intros Hsort Hw Hn.
  assert (Hre : Compile (RegexpLib := GoRegexp.lib) (accountPattern (snd (walletName, "")))
                = Some (GoRegexp.Cat GoRegexp.BeginText
                          (GoRegexp.Cat (GoRegexp.Star GoRegexp.AnyNotNL)
                             (GoRegexp.Cat GoRegexp.EndText GoRegexp.Empty))))
    by reflexivity.
  eexists. split; [| split].
  - apply (walletAndAccountsFromPath_resolved (regexp := GoRegexp.lib) _ _ Hw Hn Hre).
  - rewrite (proj1 (Hsort _ _ _)).
    erewrite filter_ext; [reflexivity|].
    intros account. apply RegexpFacts.search_any_line.
  - apply sorted_by_name. apply (proj2 (Hsort _ lessByName _)).
    apply lessByName_strictWeakOrder.
Qed.

End Selection.

(** The account "validator1" of a wallet that also has "validator10". *)
Lemma plain_name_selects_exactly_witness :
  exists accounts,
    Fixtures.accountsFromPath Fixtures.store "Batch/validator1"
      = Ok (Fixtures.wallet Fixtures.batch, accounts) /\
    Permutation accounts
      (filter (fun account => Name account =? "validator1")
         (Accounts (Fixtures.wallet Fixtures.batch))).
Proof.
  apply (@plain_name_selects_exactly bytes Fixtures.store Fixtures.paths
           Fixtures.sorter (Fixtures.viperOf [] []) "Batch/validator1"
           (Fixtures.wallet Fixtures.batch) "Batch" "validator1").
  - exact insertionSort_contract.
  - reflexivity.
  - reflexivity.
  - discriminate.
  - reflexivity.
Defined.

(** A wallet with an account whose name has two lines. *)
Lemma empty_account_part_selects_lines_witness :
  exists accounts,
    Fixtures.accountsFromPath Fixtures.store "Odd"
      = Ok (Fixtures.wallet
              [Fixtures.account Fixtures.twoLines None (Some (Fixtures.key x0d));
               Fixtures.account "plain" None (Some (Fixtures.key x0e))],
            accounts) /\
    Permutation accounts
      (filter (fun account => negb (occurs lineFeed (Name account)))
         [Fixtures.account Fixtures.twoLines None (Some (Fixtures.key x0d));
          Fixtures.account "plain" None (Some (Fixtures.key x0e))]) /\
    StronglySorted nameLe accounts.
Proof.
  apply (@empty_account_part_selects_lines bytes Fixtures.store Fixtures.paths
           Fixtures.sorter (Fixtures.viperOf [] []) "Odd"
           (Fixtures.wallet
              [Fixtures.account Fixtures.twoLines None (Some (Fixtures.key x0d));
               Fixtures.account "plain" None (Some (Fixtures.key x0e))])
           "Odd").
  - exact insertionSort_contract.
  - reflexivity.
  - reflexivity.
Defined.

(** ** The two readings of a path *)

(** X19. [walletAndAccountFromPath] and [walletAndAccountsFromPath] read
    the path twice, first inside [walletFromPath].  A path that cannot be
    read is therefore reported as a failure to open the wallet, and the
    errors "failed to obtain accout name" and "failed to obtain account
    specification" of the second reading are never returned. *)
Theorem path_is_read_when_opening_the_wallet (PublicKey : Type)
    (backends : Backends PublicKey) (paths : PathLib) (fmt : FmtLib)
    (regexp : RegexpLib) (sorter : SortLib) (viper : Viper) (path : string) :
  (forall err,
     WalletAndAccountNames path = Err err ->
     walletAndAccountFromPath (store := @Cmd.store PublicKey backends paths fmt) viper path
     = Err (Wrap err "faild to open wallet for account") /\
     walletAndAccountsFromPath (store := @Cmd.store PublicKey backends paths fmt) viper path
     = Err (Wrap err "faild to open wallet for account")) /\
  (forall cause,
     walletAndAccountFromPath (store := @Cmd.store PublicKey backends paths fmt) viper path
     <> Err (Wrap cause "failed to obtain accout name") /\
     walletAndAccountsFromPath (store := @Cmd.store PublicKey backends paths fmt) viper path
     <> Err (Wrap cause "failed to obtain account specification")).
Proof.
  unfold walletAndAccountFromPath, walletAndAccountsFromPath.
  cbn [walletFromPath Cmd.store]. unfold Cmd.walletFromPath.
  destruct (WalletAndAccountNames path) as [names|e|] eqn:Hn; simpl.
  - split; [discriminate|]. intros cause.
    destruct (if negb (GetString viper "remote" =? "") then _ else _)
      as [wallet|e|]; simpl; [| split; congruence | split; discriminate].
    split.
    + destruct (snd names =? ""); [discriminate|].
      assert (Hlookup : forall unlocked,
                 accountByName wallet unlocked (snd names)
                 <> Err (Wrap cause "failed to obtain accout name")).
      { intros unlocked. unfold accountByName.
        destruct (AccountByName wallet) as [provider|]; [|discriminate].
        destruct (provider unlocked (snd names)); simpl; congruence. }
      destruct ((WalletType wallet =? "hierarchical deterministic")
                && HasPrefix (snd names) "m/"); [|apply Hlookup].
      destruct (getWalletPassphrase viper =? ""); [discriminate|].
      destruct (Locker wallet) as [locker|]; [|apply Hlookup].
      destruct (Unlock locker _); [discriminate|].
      unfold relockAccount. destruct (Lock locker); [discriminate | apply Hlookup].
    + destruct (Compile (accountPattern (snd names))); discriminate.
  - split.
    + intros err H; injection H as <-. split; reflexivity.
    + intros cause. split; congruence.
  - split; [discriminate|]. intros cause. split; discriminate.
Qed.

(** ** Deposit data without a beacon node *)

(** X20. With a fork version in the configuration, the beacon node has no
    part in [input]: the calls and the outcome are the same for every
    beacon node, reachable or not. *)
Theorem explicit_fork_version_needs_no_beacon (PublicKey : Type)
    (crypto : Crypto PublicKey) (core : Core PublicKey)
    (beacon1 beacon2 : BeaconNode) (viper : Viper) :
  GetString viper "forkversion" <> "" ->
  input (beacon := beacon1) viper = input (beacon := beacon2) viper.
Proof.
  intros Hfv. unfold input.
  rewrite (inputForkVersion_explicit (beacon := beacon1) _ Hfv).
  rewrite (inputForkVersion_explicit (beacon := beacon2) _ Hfv).
  reflexivity.
Qed.

(** A beacon node that answers and one that cannot be reached. *)
Lemma explicit_fork_version_needs_no_beacon_witness :
  input (crypto := Fixtures.crypto) (core := Fixtures.core)
    (beacon := Fixtures.beacon) Fixtures.byAccount
  = input (crypto := Fixtures.crypto) (core := Fixtures.core)
      (beacon := Fixtures.noConnection) Fixtures.byAccount.
Proof.
  apply (@explicit_fork_version_needs_no_beacon bytes Fixtures.crypto
           Fixtures.core Fixtures.beacon Fixtures.noConnection Fixtures.byAccount).
  discriminate.
Defined.
